(** * vikunja-mcp: sanitizer, error boundaries and the webhook event cache

    A shallow embedding of the parts of [users.ts], [webhooks.ts],
    [teams.ts] and [labels.ts] that carry the invariants of the
    normalization layer: [transformUser], [getValidEvents],
    [validateWebhookEvents], the [catch] blocks of the tool handlers and
    the precondition checks of the users tool.

    Conventions.
    - A JavaScript value that comes out of [JSON.parse] (plus [undefined],
      which is what reading an absent property yields) is a [value].
      Numbers are IEEE binary64, that is Rocq's primitive [float].
    - A JavaScript string is a [string]; its bytes are the UTF-8 encoding
      of the text.
    - [throw] is the constructor [Raised] of [outcome]; code that reads and
      writes module-level variables or calls the API client runs in the
      state-and-exception monad [M].
    - Calls to [logger] have no part in what a function returns, throws
      or stores, and are left out. *)

From Stdlib Require Import String Ascii List ZArith Bool Floats Lia.
From Stdlib Require DecimalString.
Import ListNotations.
Local Open Scope string_scope.
Set Warnings "-register-all".

(* ================================================================== *)
(** * JavaScript values *)

Inductive value : Type :=
| VUndefined
| VNull
| VBool (b : bool)
| VNum (n : float)
| VStr (s : string)
| VArr (elems : list value)
| VObj (props : list (string * value)).

(** Modelled from the spec: the enum [ErrorCode] is imported from
    ['../types'], which is not among the sources.  The first seven members are
    the ones the tools use; [INVALID_PAYLOAD] is the kind [InvalidPayload]
    that section 7 of the specification adds to the closed set. *)
Inductive ErrorCode : Type :=
| AUTH_REQUIRED
| PERMISSION_DENIED
| VALIDATION_ERROR
| NOT_FOUND
| API_ERROR
| NOT_IMPLEMENTED
| INTERNAL_ERROR
| INVALID_PAYLOAD.

(** What a [throw] carries.  [MCPError] extends [Error]; [ThrownError] is
    an [Error] instance that is not an [MCPError] ([new Error(..)], a
    [TypeError] of the runtime, a rejection of [fetch]); [ThrownValue] is
    any value that is not an [Error] instance. *)
Inductive thrown : Type :=
| MCPError (code : ErrorCode) (message : string)
| ThrownError (message : string)
| ThrownValue (v : value).

Inductive outcome (A : Type) : Type :=
| Returned (a : A)
| Raised (t : thrown).

Arguments Returned {A} a.
Arguments Raised {A} t.

Definition bindO {A B : Type} (m : outcome A) (k : A -> outcome B) : outcome B :=
  match m with
  | Returned a => k a
  | Raised t => Raised t
  end.

Notation "'let*' x ':=' m 'in' k" := (bindO m (fun x => k))
  (at level 10, x name, m at level 100, k at level 200).

(** [error instanceof MCPError] *)
Definition instanceof_MCPError (t : thrown) : bool :=
  match t with
  | MCPError _ _ => true
  | _ => false
  end.

(** [error instanceof Error] *)
Definition instanceof_Error (t : thrown) : bool :=
  match t with
  | MCPError _ _ | ThrownError _ => true
  | ThrownValue _ => false
  end.

(** The message of the [TypeError] that [OrdinaryToPrimitive] throws
    (the wording is the engine's; this is V8's). *)
Definition TypeError_ToPrimitive : thrown :=
  ThrownError "Cannot convert object to primitive value".

(** [Array.prototype.join] on strings. *)
Fixpoint join (sep : string) (l : list string) : string :=
  match l with
  | [] => ""
  | [s] => s
  | s :: rest => s ++ sep ++ join sep rest
  end.

(** Own-property lookup.  The property names the tools read are not
    members of [Object.prototype], so an absent key reads as [undefined]. *)
Fixpoint get (props : list (string * value)) (key : string) : value :=
  match props with
  | [] => VUndefined
  | (k, v) :: rest => if String.eqb k key then v else get rest key
  end.

Definition hasOwnProperty (props : list (string * value)) (key : string) : bool :=
  existsb (fun p => String.eqb (fst p) key) props.

(** Property access [v.key] on a value that is known to be an object. *)
Definition prop (v : value) (key : string) : value :=
  match v with
  | VObj props => get props key
  | _ => VUndefined
  end.

(** [typeof v === 'object'] *)
Definition typeof_object (v : value) : bool :=
  match v with
  | VNull | VArr _ | VObj _ => true
  | _ => false
  end.

(** ECMAScript [ToBoolean]. *)
Definition ToBoolean (v : value) : bool :=
  match v with
  | VUndefined | VNull => false
  | VBool b => b
  | VNum n => negb (PrimFloat.is_zero n || PrimFloat.is_nan n)
  | VStr s => negb (String.eqb s "")
  | VArr _ | VObj _ => true
  end.

(** [Number.isInteger]: a finite double [m * 2^e] without fractional bits. *)
Definition Number_isInteger (n : float) : bool :=
  match Prim2SF n with
  | S754_zero _ => true
  | S754_finite _ m e => (0 <=? e)%Z || (Z.land (Zpos m) (Z.ones (- e)) =? 0)%Z
  | S754_infinity _ | S754_nan => false
  end.

(** [QuoteJSONString] of [JSON.stringify], byte by byte: the two-character
    escapes, [\u00xx] for the other control characters. *)
Definition hex_digit (n : nat) : ascii :=
  nth n ["0"; "1"; "2"; "3"; "4"; "5"; "6"; "7"; "8"; "9";
         "a"; "b"; "c"; "d"; "e"; "f"]%char "0"%char.

Definition dquote : string := String (ascii_of_nat 34) "".

Definition QuoteJSONChar (c : ascii) : string :=
  let n := nat_of_ascii c in
  if Nat.eqb n 8 then "\b"
  else if Nat.eqb n 9 then "\t"
  else if Nat.eqb n 10 then "\n"
  else if Nat.eqb n 12 then "\f"
  else if Nat.eqb n 13 then "\r"
  else if Nat.eqb n 34 then "\" ++ dquote
  else if Nat.eqb n 92 then "\\"
  else if Nat.ltb n 32 then
    "\u00" ++ String (hex_digit (n / 16)) (String (hex_digit (n mod 16)) "")
  else String c "".

Fixpoint QuoteJSONBody (s : string) : string :=
  match s with
  | EmptyString => ""
  | String c rest => QuoteJSONChar c ++ QuoteJSONBody rest
  end.

Definition QuoteJSONString (s : string) : string :=
  dquote ++ QuoteJSONBody s ++ dquote.

Definition String_of_bool (b : bool) : string :=
  if b then "true" else "false".

(** [String(n)] for an array length. *)
Definition String_of_nat (n : nat) : string :=
  DecimalString.NilEmpty.string_of_uint (Nat.to_uint n).

(* ================================================================== *)
(** * State and exceptions *)

(** A computation over a store [S] that returns or throws; what it wrote
    to the store before a [throw] stays written. *)
Definition M (S A : Type) : Type := S -> outcome A * S.

Definition ret {S A : Type} (a : A) : M S A := fun s => (Returned a, s).

Definition throw {S A : Type} (t : thrown) : M S A := fun s => (Raised t, s).

Definition bind {S A B : Type} (m : M S A) (k : A -> M S B) : M S B :=
  fun s =>
    match m s with
    | (Returned a, s') => k a s'
    | (Raised t, s') => (Raised t, s')
    end.

(** [try { m } catch (error) { handler error }] *)
Definition try_catch {S A : Type} (m : M S A) (handler : thrown -> M S A) : M S A :=
  fun s =>
    match m s with
    | (Returned a, s') => (Returned a, s')
    | (Raised t, s') => handler t s'
    end.

Definition read {S : Type} : M S S := fun s => (Returned s, s).

Definition write {S : Type} (s' : S) : M S unit := fun _ => (Returned tt, s').

(** A call whose result does not depend on the store. *)
Definition lift {S A : Type} (r : outcome A) : M S A := fun s => (r, s).

Notation "x <- m ;; k" := (bind m (fun x => k))
  (at level 61, m at next level, right associativity).
Notation "m ;;; k" := (bind m (fun _ => k))
  (at level 61, right associativity).

(* ================================================================== *)
(** * Collaborators: session provider and HTTP *)

Record Session : Type := mkSession {
  apiUrl : string;
  apiToken : string
}.

(** The part of [AuthManager] the tools consume. *)
Record AuthManager : Type := mkAuthManager {
  isAuthenticated : bool;
  getAuthType : string;
  getSession : outcome Session
}.

Record Request : Type := mkRequest {
  url : string;
  method : string;
  headers : list (string * string);
  body : option string
}.

(** A [fetch] response whose JSON body has the type the call site asserts
    for it; [json] is the result of [await response.json()]. *)
Record Response (A : Type) : Type := mkResponse {
  status : Z;
  statusText : string;
  json : outcome A
}.

Arguments mkResponse {A} status statusText json.
Arguments status {A} r.
Arguments statusText {A} r.
Arguments json {A} r.

(** [response.ok]: the status is in the range 200-299. *)
Definition ok {A : Type} (response : Response A) : bool :=
  ((200 <=? status response) && (status response <=? 299))%Z.

(** The error body of the webhook endpoints, [{ message?: string }];
    [None] is an absent or [null] message. *)
Record ErrorData : Type := mkErrorData {
  errorMessage : option string
}.

(** [outcome]-level [try { m } catch (error) { handler error }]. *)
Definition tryO {A : Type} (m : outcome A) (handler : thrown -> outcome A) : outcome A :=
  match m with
  | Returned a => Returned a
  | Raised t => handler t
  end.

(** [a || b] on strings: [a] unless it is absent or empty. *)
Definition orElse (a : option string) (b : string) : string :=
  match a with
  | Some s => if String.eqb s "" then b else s
  | None => b
  end.

Section Tools.

(** The two number conversions of the runtime, [StringToNumber] (behind
    [Number(s)]) and [Number::toString] (behind [String(n)]), are the
    engine's; the development holds for any pair of them. *)
Variable StringToNumber : string -> float.
Variable NumberToString : float -> string.

(** [ToString] on JSON-shaped data.  An array joins its elements with
    [","], reading [undefined] and [null] as the empty string.  A plain
    object reaches [Object.prototype.toString] unless an own property
    named [toString] shadows it: an own property of parsed JSON is never
    callable, [valueOf] (own or inherited) yields no primitive either, and
    [OrdinaryToPrimitive] throws a [TypeError]. *)
Fixpoint ToString (v : value) : outcome string :=
  match v with
  | VUndefined => Returned "undefined"
  | VNull => Returned "null"
  | VBool b => Returned (String_of_bool b)
  | VNum n => Returned (NumberToString n)
  | VStr s => Returned s
  | VArr elems =>
      let* parts :=
        (fix each (l : list value) : outcome (list string) :=
           match l with
           | [] => Returned []
           | e :: rest =>
               let* s := match e with
                         | VUndefined | VNull => Returned ""
                         | _ => ToString e
                         end in
               let* ss := each rest in
               Returned (s :: ss)
           end) elems in
      Returned (join "," parts)
  | VObj props =>
      if hasOwnProperty props "toString" then Raised TypeError_ToPrimitive
      else Returned "[object Object]"
  end.

(** ECMAScript [ToNumber], that is [Number(v)]. *)
Definition ToNumber (v : value) : outcome float :=
  match v with
  | VUndefined => Returned PrimFloat.nan
  | VNull => Returned 0%float
  | VBool b => Returned (if b then 1%float else 0%float)
  | VNum n => Returned n
  | VStr s => Returned (StringToNumber s)
  | VArr _ | VObj _ => let* s := ToString v in Returned (StringToNumber s)
  end.

(** [SerializeJSONProperty] of [JSON.stringify]: [None] is [undefined]
    (the property is left out of an object, and is ["null"] in an array).
    On JSON-shaped data there is no cycle, no BigInt and no callable
    [toJSON], so the serialization cannot throw. *)
Fixpoint SerializeJSONProperty (v : value) : option string :=
  match v with
  | VUndefined => None
  | VNull => Some "null"
  | VBool b => Some (String_of_bool b)
  | VNum n => Some (if PrimFloat.is_finite n then NumberToString n else "null")
  | VStr s => Some (QuoteJSONString s)
  | VArr elems =>
      Some ("[" ++ join "," (map (fun e => match SerializeJSONProperty e with
                                           | Some s => s
                                           | None => "null"
                                           end) elems) ++ "]")
  | VObj props =>
      Some ("{" ++ join "," (flat_map (fun p => match SerializeJSONProperty (snd p) with
                                                | Some s => [QuoteJSONString (fst p) ++ ":" ++ s]
                                                | None => []
                                                end) props) ++ "}")
  end.

(** [JSON.stringify(v)] as a call that may throw. *)
Definition JSON_stringify (v : value) : outcome (option string) :=
  Returned (SerializeJSONProperty v).

(* ================================================================== *)
(** * The sanitizer ([transformUser], users tool) *)

(** The extended [User] interface: an optional key that the object literal
    leaves out is [None]. *)
Record User : Type := mkUser {
  id : float;
  username : string;
  frontend_settings : value;
  email : option string;
  name : option string;
  created : option string;
  updated : option string;
  language : option string;
  timezone : option string;
  week_start : option float;
  email_reminders_enabled : option bool;
  overdue_tasks_reminders_enabled : option bool
}.

(** Type guard: [obj !== null && typeof obj === 'object' && !Array.isArray(obj)] *)
Definition isUserObject (obj : value) : bool :=
  match obj with
  | VObj _ => true
  | _ => false
  end.

(** The local [safeString] of [transformUser].  The [catch] around
    [JSON.stringify] yields the placeholder; [JSON.stringify] is called
    on arrays and objects only, for which it returns a string and never
    [undefined] (lemma [safeString_object]).  The last [return] is
    reached by [null] and [undefined] only and gives the empty string. *)
Definition safeString (v : value) : string :=
  match v with
  | VStr s => s
  | VNum n => NumberToString n
  | VBool b => String_of_bool b
  | VArr _ | VObj _ =>
      match JSON_stringify v with
      | Returned (Some s) => s
      | Returned None => "undefined"
      | Raised _ => "[object Object]"
      end
  | VUndefined | VNull => ""
  end.

(** [...(user.key ? { key: safeString(user.key) } : {})] *)
Definition optionalString (v : value) : option string :=
  if ToBoolean v then Some (safeString v) else None.

(** [...(user.key !== undefined ? { key: Number(user.key) } : {})] *)
Definition optionalNumber (v : value) : outcome (option float) :=
  match v with
  | VUndefined => Returned None
  | _ => let* n := ToNumber v in Returned (Some n)
  end.

(** [...(user.key !== undefined ? { key: Boolean(user.key) } : {})] *)
Definition optionalBoolean (v : value) : option bool :=
  match v with
  | VUndefined => None
  | _ => Some (ToBoolean v)
  end.

(** [Number(user.id) || 0] *)
Definition numberOrZero (v : value) : outcome float :=
  let* n := ToNumber v in
  Returned (if ToBoolean (VNum n) then n else 0%float).

Definition transformUser (rawUser : value) : outcome User :=
  if negb (isUserObject rawUser) then
    Raised (ThrownError "Invalid user data received")
  else
    let user := rawUser in
    let* result_id := numberOrZero (prop user "id") in
    let result_username := safeString (prop user "username") in
    let result_frontend_settings :=
      if ToBoolean (prop user "frontend_settings")
         && typeof_object (prop user "frontend_settings")
      then prop user "frontend_settings" else VObj [] in
    let* ws := optionalNumber (prop user "week_start") in
    Returned {|
      id := result_id;
      username := result_username;
      frontend_settings := result_frontend_settings;
      email := optionalString (prop user "email");
      name := optionalString (prop user "name");
      created := optionalString (prop user "created");
      updated := optionalString (prop user "updated");
      language := optionalString (prop user "language");
      timezone := optionalString (prop user "timezone");
      week_start := ws;
      email_reminders_enabled :=
        optionalBoolean (prop user "email_reminders_enabled");
      overdue_tasks_reminders_enabled :=
        optionalBoolean (prop user "overdue_tasks_reminders_enabled")
    |}.

(* ================================================================== *)
(** * The webhook event cache ([webhooks.ts]) *)

(** The two module-level variables [cachedEvents] and [cacheExpiry]; a
    [Date] is its time value in milliseconds. *)
Record EventCache : Type := mkEventCache {
  cachedEvents : option (list string);
  cacheExpiry : option Z
}.

Definition CACHE_DURATION_MS : Z := 5 * 60 * 1000.

Definition clearWebhookEventCache : M EventCache unit :=
  write {| cachedEvents := None; cacheExpiry := None |}.

Definition expireWebhookEventCache : M EventCache unit :=
  c <- read ;;
  write {| cachedEvents := cachedEvents c; cacheExpiry := Some 0%Z |}.

(** The array literal that both fallback paths assign. *)
Definition defaultWebhookEvents : list string :=
  [ "task.created";
    "task.updated";
    "task.deleted";
    "task.assigned";
    "task.comment.created";
    "project.created";
    "project.updated";
    "project.deleted";
    "project.shared";
    "team.created";
    "team.deleted" ].

(** The global [fetch], at the events endpoint: the body of a response is
    typed by the assertion [as string[]]. *)
Variable fetch : Request -> outcome (Response (list string)).

Definition eventsRequest (session : Session) : Request :=
  {| url := apiUrl session ++ "/webhooks/events";
     method := "GET";
     headers := [ ("Authorization", "Bearer " ++ apiToken session);
                  ("Content-Type", "application/json") ];
     body := None |}.

(** [cachedEvents = [...]; cacheExpiry = new Date(now.getTime() +
    CACHE_DURATION_MS); return cachedEvents;] *)
Definition useDefaultEvents (now : Z) : M EventCache (list string) :=
  write {| cachedEvents := Some defaultWebhookEvents;
           cacheExpiry := Some (now + CACHE_DURATION_MS)%Z |} ;;;
  ret defaultWebhookEvents.

(** The [try] block of [getValidEvents] with its [catch]. *)
Definition fetchFreshEvents (authManager : AuthManager) (now : Z)
  : M EventCache (list string) :=
  try_catch
    (session <- lift (getSession authManager) ;;
     response <- lift (fetch (eventsRequest session)) ;;
     if negb (ok response) then
       if ((status response =? 401) || (status response =? 403)
           || (status response =? 404))%Z
       then useDefaultEvents now
       else throw (ThrownError ("Failed to fetch webhook events: "
                                ++ statusText response))
     else
       events <- lift (json response) ;;
       write {| cachedEvents := Some events;
                cacheExpiry := Some (now + CACHE_DURATION_MS)%Z |} ;;;
       ret events)
    (fun error =>
       c <- read ;;
       match cachedEvents c with
       | Some events => ret events
       | None => useDefaultEvents now
       end).

(** [cachedEvents && cacheExpiry && cacheExpiry > now] *)
Definition cacheIsValid (c : EventCache) (now : Z) : bool :=
  match cachedEvents c, cacheExpiry c with
  | Some _, Some expiry => (now <? expiry)%Z
  | _, _ => false
  end.

Definition getValidEvents (authManager : AuthManager) (now : Z)
  : M EventCache (list string) :=
  c <- read ;;
  match cachedEvents c with
  | Some events =>
      if cacheIsValid c now then ret events
      else fetchFreshEvents authManager now
  | None => fetchFreshEvents authManager now
  end.

(** [validEvents.includes(event)] *)
Definition includes (l : list string) (x : string) : bool :=
  existsb (String.eqb x) l.

Definition validateWebhookEvents (authManager : AuthManager) (now : Z)
  (events : list string) : M EventCache unit :=
  validEvents <- getValidEvents authManager now ;;
  let invalidEvents :=
    filter (fun event => negb (includes validEvents event)) events in
  if (0 <? length invalidEvents)%nat then
    throw (MCPError VALIDATION_ERROR
             ("Invalid webhook events: " ++ join ", " invalidEvents
              ++ ". Valid events are: " ++ join ", " validEvents))
  else ret tt.

(* ================================================================== *)
(** * Error boundaries of the tool handlers *)

(** The block [if (!response.ok) { ... }] that follows every [fetch] of
    the webhooks tool; [failure] is the text of the call site
    (["Failed to list webhooks"], ["Failed to create webhook"], ...). *)
Definition checkWebhookResponse (failure : string) (response : Response ErrorData)
  : outcome unit :=
  if negb (ok response) then
    let errorData :=
      match json response with
      | Returned d => d
      | Raised _ => {| errorMessage := None |}
      end in
    if ((status response =? 401) || (status response =? 403))%Z then
      Raised (MCPError API_ERROR
        "Webhook operations require additional permissions. Please ensure your API token has webhook access rights.")
    else
      Raised (MCPError API_ERROR
        (orElse (errorMessage errorData)
                (failure ++ ": " ++ statusText response)))
  else Returned tt.

(** The [catch] block of the webhooks tool: what it throws. *)
Definition webhooksCatch (error : thrown) : thrown :=
  match error with
  | MCPError _ _ => error
  | ThrownError message =>
      MCPError API_ERROR ("Webhook operation failed: " ++ message)
  | ThrownValue _ =>
      MCPError INTERNAL_ERROR
        "An unexpected error occurred during webhook operation"
  end.

(** A webhook operation up to its response check, inside the handler's
    [try]/[catch]. *)
Definition webhookResponseBoundary (failure : string)
  (response : Response ErrorData) : outcome unit :=
  tryO (checkWebhookResponse failure response)
       (fun error => Raised (webhooksCatch error)).

(** [handleAuthError] of ['../utils/auth-error-handler'] is not among the
    sources; it is declared to never return, and the variable stands for
    the error it throws. *)
Variable handleAuthError : thrown -> string -> string -> thrown.

(** [error instanceof Error ? error.message : String(error)] *)
Definition messageOrString (error : thrown) : outcome string :=
  match error with
  | MCPError _ message => Returned message
  | ThrownError message => Returned message
  | ThrownValue v => ToString v
  end.

(** The [catch] block of the users tool. *)
Definition usersCatch (subcommandName : string) (error : thrown) : outcome thrown :=
  if instanceof_MCPError error then Returned error
  else
    let* text := messageOrString error in
    Returned (handleAuthError error ("user." ++ subcommandName)
                              ("User operation error: " ++ text)).

(** Modelled from the spec: [wrapToolError] of ['../utils/error-handler']
    is not among the sources.  Section 4.2 (generic wrapper): a failure
    that is already a taxonomy error is re-thrown unchanged; any other
    failure is classified, which [classifyFailure] stands for. *)
Variable classifyFailure : thrown -> string -> string -> option value -> thrown.

Definition wrapToolError (error : thrown) (tool operation : string)
  (entityId : option value) : thrown :=
  if instanceof_MCPError error then error
  else classifyFailure error tool operation entityId.

(** The [catch] blocks of the teams and labels tools. *)
Definition teamsCatch (subcommandName : string) (entityId : option value)
  (error : thrown) : thrown :=
  wrapToolError error "vikunja_teams" (subcommandName ++ " team") entityId.

Definition labelsCatch (subcommandName : string) (entityId : option value)
  (error : thrown) : thrown :=
  wrapToolError error "vikunja_labels" (subcommandName ++ " label") entityId.

(* ================================================================== *)
(** * The users tool ([users.ts]) *)

Inductive Subcommand : Type :=
| SubCurrent
| SubSearch
| SubSettings
| SubUpdateSettings.

(** The members of [z.enum(['current', 'search', 'settings',
    'update-settings'])]. *)
Definition subcommandName (c : Subcommand) : string :=
  match c with
  | SubCurrent => "current"
  | SubSearch => "search"
  | SubSettings => "settings"
  | SubUpdateSettings => "update-settings"
  end.

(** The arguments of [vikunja_users] after schema validation; an optional
    argument that was not supplied is [None]. *)
Record Args : Type := mkArgs {
  subcommand : Subcommand;
  search : option string;
  page : option float;
  perPage : option float;
  argName : option string;
  argLanguage : option string;
  argTimezone : option string;
  weekStart : option float;
  frontendSettings : option (list (string * value));
  emailRemindersEnabled : option bool;
  overdueTasksRemindersEnabled : option bool;
  overdueTasksRemindersTime : option string
}.

(** [SearchParams]: [{ page?, per_page?, s? }] *)
Record SearchParams : Type := mkSearchParams {
  params_page : option float;
  params_per_page : option float;
  params_s : option string
}.

(** [paramsMetadata]: [{ search?, page?, perPage? }] *)
Record ParamsMetadata : Type := mkParamsMetadata {
  meta_search : option string;
  meta_page : option float;
  meta_perPage : option float
}.

(** [Partial<ExtendedUserSettings>], the argument of
    [updateGeneralSettings]. *)
Record ExtendedUserSettings : Type := mkSettings {
  set_name : option string;
  set_language : option string;
  set_timezone : option string;
  set_week_start : option float;
  set_frontend_settings : option (list (string * value));
  set_email_reminders_enabled : option bool;
  set_overdue_tasks_reminders_enabled : option bool;
  set_overdue_tasks_reminders_time : option string
}.

(** The object that the [settings] subcommand returns. *)
Record SettingsView : Type := mkSettingsView {
  view_id : float;
  view_username : string;
  view_email : option string;
  view_name : option string;
  view_language : option string;
  view_timezone : option string;
  view_weekStart : option float;
  view_frontendSettings : value;
  view_emailRemindersEnabled : option bool;
  view_overdueTasksRemindersEnabled : option bool;
  view_overdueTasksRemindersTime : option string
}.

Inductive ResponseData : Type :=
| DataUser (user : User)
| DataUsers (users : list User)
| DataSettings (view : SettingsView).

Inductive ResponseMetadata : Type :=
| NoMetadata
| SearchMetadata (count : nat) (params : ParamsMetadata)
| AffectedFields (affectedFields : list string).

(** The four arguments of [createStandardResponse]; the handler returns
    their rendering by [formatAorpAsMarkdown] (neither function is among
    the sources). *)
Record StandardResponse : Type := mkStandardResponse {
  operation : string;
  summary : string;
  data : ResponseData;
  metadata : ResponseMetadata
}.

(** [client.users] of the API client. *)
Record Client : Type := mkClient {
  getUser : outcome value;
  getUsers : SearchParams -> outcome (list value);
  updateGeneralSettings : ExtendedUserSettings -> outcome unit
}.

(** The calls to the API client, in the order they are made. *)
Inductive ClientCall : Type :=
| CallGetClientFromContext
| CallGetUser
| CallGetUsers (params : SearchParams)
| CallUpdateGeneralSettings (settings : ExtendedUserSettings).

Definition call {A : Type} (c : ClientCall) (result : outcome A)
  : M (list ClientCall) A :=
  fun calls => (result, (calls ++ [c])%list).

Variable getClientFromContext : outcome Client.

(** [users.map(transformUser)] *)
Fixpoint mapTransformUser (users : list value) : outcome (list User) :=
  match users with
  | [] => Returned []
  | raw :: rest =>
      let* u := transformUser raw in
      let* us := mapTransformUser rest in
      Returned (u :: us)
  end.

(** [!s] on an optional string argument. *)
Definition falsyString (s : option string) : bool :=
  match s with
  | Some text => String.eqb text ""
  | None => true
  end.

(** [x === undefined] *)
Definition isUndefined {A : Type} (x : option A) : bool :=
  match x with
  | Some _ => false
  | None => true
  end.

(** [...(s && { key: s })] *)
Definition truthyString (s : option string) : option string :=
  if falsyString s then None else s.

(** [if (x !== undefined) { affectedFields.push(key) }] *)
Definition pushIfDefined {A : Type} (x : option A) (key : string) : list string :=
  if isUndefined x then [] else [key].

Definition noSettingField (args : Args) : bool :=
  falsyString (argName args)
  && falsyString (argLanguage args)
  && falsyString (argTimezone args)
  && isUndefined (weekStart args)
  && isUndefined (frontendSettings args)
  && isUndefined (emailRemindersEnabled args)
  && isUndefined (overdueTasksRemindersEnabled args)
  && isUndefined (overdueTasksRemindersTime args).

Definition settingsOfArgs (args : Args) : ExtendedUserSettings :=
  {| set_name := argName args;
     set_language := argLanguage args;
     set_timezone := argTimezone args;
     set_week_start := weekStart args;
     set_frontend_settings := frontendSettings args;
     set_email_reminders_enabled := emailRemindersEnabled args;
     set_overdue_tasks_reminders_enabled := overdueTasksRemindersEnabled args;
     set_overdue_tasks_reminders_time := overdueTasksRemindersTime args |}.

Definition affectedFieldsOfArgs (args : Args) : list string :=
  (pushIfDefined (argName args) "name"
   ++ pushIfDefined (argLanguage args) "language"
   ++ pushIfDefined (argTimezone args) "timezone"
   ++ pushIfDefined (weekStart args) "weekStart"
   ++ pushIfDefined (frontendSettings args) "frontendSettings"
   ++ pushIfDefined (emailRemindersEnabled args) "emailRemindersEnabled"
   ++ pushIfDefined (overdueTasksRemindersEnabled args) "overdueTasksRemindersEnabled"
   ++ pushIfDefined (overdueTasksRemindersTime args) "overdueTasksRemindersTime")%list.

Definition settingsViewOfUser (user : User) : SettingsView :=
  {| view_id := id user;
     view_username := username user;
     view_email := truthyString (email user);
     view_name := truthyString (name user);
     view_language := truthyString (language user);
     view_timezone := truthyString (timezone user);
     view_weekStart := week_start user;
     view_frontendSettings :=
       if ToBoolean (frontend_settings user) then frontend_settings user
       else VObj [];
     view_emailRemindersEnabled := email_reminders_enabled user;
     view_overdueTasksRemindersEnabled := overdue_tasks_reminders_enabled user;
     view_overdueTasksRemindersTime := None |}.

(** The body of the [switch] inside the handler's [try]; its [default]
    branch is not reachable, [Subcommand] being the four members of the
    schema's enum. *)
Definition usersSwitch (client : Client) (args : Args)
  : M (list ClientCall) StandardResponse :=
  match subcommand args with
  | SubCurrent =>
      rawUser <- call CallGetUser (getUser client) ;;
      enhancedUser <- lift (transformUser rawUser) ;;
      ret {| operation := "get-current-user";
             summary := "Current user retrieved successfully";
             data := DataUser enhancedUser;
             metadata := NoMetadata |}
  | SubSearch =>
      let params := {| params_page := page args;
                       params_per_page := perPage args;
                       params_s := search args |} in
      users <- call (CallGetUsers params) (getUsers client params) ;;
      let paramsMetadata := {| meta_search := search args;
                               meta_page := page args;
                               meta_perPage := perPage args |} in
      transformed <- lift (mapTransformUser users) ;;
      ret {| operation := "search-users";
             summary := "Found " ++ String_of_nat (length users) ++ " users";
             data := DataUsers transformed;
             metadata := SearchMetadata (length users) paramsMetadata |}
  | SubSettings =>
      rawUser <- call CallGetUser (getUser client) ;;
      user <- lift (transformUser rawUser) ;;
      ret {| operation := "get-user-settings";
             summary := "User settings retrieved successfully";
             data := DataSettings (settingsViewOfUser user);
             metadata := NoMetadata |}
  | SubUpdateSettings =>
      if noSettingField args then
        throw (MCPError VALIDATION_ERROR "At least one setting field is required")
      else
        call (CallUpdateGeneralSettings (settingsOfArgs args))
             (updateGeneralSettings client (settingsOfArgs args)) ;;;
        rawUpdatedUser <- call CallGetUser (getUser client) ;;
        updatedUser <- lift (transformUser rawUpdatedUser) ;;
        ret {| operation := "update-user-settings";
               summary := "User settings updated successfully";
               data := DataUser updatedUser;
               metadata := AffectedFields (affectedFieldsOfArgs args) |}
  end.

(** The handler that [registerUsersTool] registers. *)
Definition usersTool (authManager : AuthManager) (args : Args)
  : M (list ClientCall) StandardResponse :=
  if negb (isAuthenticated authManager) then
    throw (MCPError AUTH_REQUIRED
             "Authentication required. Please use vikunja_auth.connect first.")
  else if negb (String.eqb (getAuthType authManager) "jwt") then
    throw (MCPError PERMISSION_DENIED
             "User operations require JWT authentication. Please reconnect using vikunja_auth.connect with JWT authentication.")
  else
    client <- call CallGetClientFromContext getClientFromContext ;;
    try_catch (usersSwitch client args)
      (fun error =>
         rethrown <- lift (usersCatch (subcommandName (subcommand args)) error) ;;
         throw rethrown).

(* ================================================================== *)
(** * The webhooks tool ([webhooks.ts], the registered handler) *)

(** [validateAndConvertId] of ['../utils/validation'] is not among the
    sources: it returns the identifier as a number or throws. *)
Variable validateAndConvertId : value -> string -> outcome float.

(** An optional numeric argument as the value handed to a helper. *)
Definition ofOptionalNumber (n : option float) : value :=
  match n with
  | Some x => VNum x
  | None => VUndefined
  end.

(** The fields of the interface [Webhook] (['../types/vikunja']) that the
    tool reads or writes. *)
Record Webhook : Type := mkWebhook {
  webhook_id : float;
  target_url : string;
  webhook_events : list string;
  webhook_secret : option string
}.

(** A response of the webhook endpoints.  [errorData] is its JSON body
    read as [{ message?: string }], which the tool does when the response
    is not [ok]; [webhooksJson] and [webhookJson] are the body read under
    the assertions [as Webhook[]] and [as Webhook] of an [ok] response. *)
Record WebhookResponse : Type := mkWebhookResponse {
  webhookStatus : Z;
  webhookStatusText : string;
  errorData : outcome ErrorData;
  webhooksJson : outcome (list Webhook);
  webhookJson : outcome Webhook
}.

(** The global [fetch], at the webhook endpoints of a project. *)
Variable fetchWebhookApi : Request -> outcome WebhookResponse.

(** The response as the block [if (!response.ok)] reads it. *)
Definition errorView (response : WebhookResponse) : Response ErrorData :=
  mkResponse (webhookStatus response) (webhookStatusText response)
             (errorData response).

Inductive WebhookSubcommand : Type :=
| WebhookList
| WebhookGet
| WebhookCreate
| WebhookUpdate
| WebhookDelete
| WebhookListEvents.

(** The arguments of [vikunja_webhooks] after schema validation. *)
Record WebhookArgs : Type := mkWebhookArgs {
  webhookSubcommand : WebhookSubcommand;
  projectId : option float;
  webhookId : option float;
  targetUrl : option string;
  argEvents : option (list string);
  secret : option string
}.

Inductive AorpData : Type :=
| AorpWebhooks (webhooks : list Webhook)
| AorpWebhook (webhook : Webhook)
| AorpWebhookId (webhookId : float)
| AorpEvents (events : list string).

(** The arguments of [createAorpResponse] (['../utils/response-factory'],
    not among the sources); the handler returns the text it renders. *)
Record AorpResponse : Type := mkAorpResponse {
  aorpOperation : string;
  aorpMessage : string;
  aorpData : AorpData;
  aorpCount : nat;
  aorpAffectedFields : option (list string)
}.

(** The store of the handler: the event cache and the requests sent to
    the webhook endpoints, in order. *)
Definition WebhookStore : Type := (EventCache * list Request)%type.

(** A computation on the event cache, run inside the handler. *)
Definition onCache {A : Type} (m : M EventCache A) : M WebhookStore A :=
  fun s =>
    match m (fst s) with
    | (result, c') => (result, (c', snd s))
    end.

(** [await fetch(url, init)] *)
Definition request (r : Request) : M WebhookStore WebhookResponse :=
  fun s => (fetchWebhookApi r, (fst s, (snd s ++ [r])%list)).

Definition webhookHeaders (session : Session) : list (string * string) :=
  [ ("Authorization", "Bearer " ++ apiToken session);
    ("Content-Type", "application/json") ].

(** [`${baseUrl}/projects/${projectId}/webhooks`] *)
Definition webhooksUrl (session : Session) (project : float) : string :=
  apiUrl session ++ "/projects/" ++ NumberToString project ++ "/webhooks".

(** [`${baseUrl}/projects/${projectId}/webhooks/${webhookId}`] *)
Definition webhookUrl (session : Session) (project hook : float) : string :=
  webhooksUrl session project ++ "/" ++ NumberToString hook.

(** [JSON.stringify(webhookData)] for [{ target_url, events, secret? }] *)
Definition createBody (target : string) (events : list string)
  (key : option string) : option string :=
  SerializeJSONProperty
    (VObj ([ ("target_url", VStr target); ("events", VArr (map VStr events)) ]
           ++ match key with
              | Some k => [("secret", VStr k)]
              | None => []
              end)%list).

(** [JSON.stringify(updateData)] for [{ events }] *)
Definition updateBody (events : list string) : option string :=
  SerializeJSONProperty (VObj [("events", VArr (map VStr events))]).

(** [!args.events || args.events.length === 0] *)
Definition noEvents (events : option (list string)) : bool :=
  match events with
  | Some (_ :: _) => false
  | _ => true
  end.

(** The body of the [switch] inside the handler's [try]. *)
Definition webhooksSwitch (authManager : AuthManager) (session : Session)
  (now : Z) (args : WebhookArgs) : M WebhookStore AorpResponse :=
  match webhookSubcommand args with
  | WebhookList =>
      project <- lift (validateAndConvertId (ofOptionalNumber (projectId args))
                                            "projectId") ;;
      response <- request {| url := webhooksUrl session project;
                             method := "GET";
                             headers := webhookHeaders session;
                             body := None |} ;;
      lift (checkWebhookResponse "Failed to list webhooks" (errorView response)) ;;;
      webhooks <- lift (webhooksJson response) ;;
      ret {| aorpOperation := "list";
             aorpMessage := "Retrieved " ++ String_of_nat (length webhooks)
                            ++ " webhooks for project " ++ NumberToString project;
             aorpData := AorpWebhooks webhooks;
             aorpCount := length webhooks;
             aorpAffectedFields := None |}
  | WebhookGet =>
      project <- lift (validateAndConvertId (ofOptionalNumber (projectId args))
                                            "projectId") ;;
      hook <- lift (validateAndConvertId (ofOptionalNumber (webhookId args))
                                         "webhookId") ;;
      response <- request {| url := webhooksUrl session project;
                             method := "GET";
                             headers := webhookHeaders session;
                             body := None |} ;;
      lift (checkWebhookResponse "Failed to get webhooks" (errorView response)) ;;;
      webhooks <- lift (webhooksJson response) ;;
      match find (fun w => PrimFloat.eqb (webhook_id w) hook) webhooks with
      | None =>
          throw (MCPError NOT_FOUND
                   ("Webhook with ID " ++ NumberToString hook
                    ++ " not found in project " ++ NumberToString project))
      | Some webhook =>
          ret {| aorpOperation := "get";
                 aorpMessage := "Retrieved webhook " ++ NumberToString hook
                                ++ " for project " ++ NumberToString project;
                 aorpData := AorpWebhook webhook;
                 aorpCount := 1;
                 aorpAffectedFields := None |}
      end
  | WebhookCreate =>
      project <- lift (validateAndConvertId (ofOptionalNumber (projectId args))
                                            "projectId") ;;
      if falsyString (targetUrl args) then
        throw (MCPError VALIDATION_ERROR
                 "targetUrl is required for creating a webhook")
      else if noEvents (argEvents args) then
        throw (MCPError VALIDATION_ERROR
                 "At least one event is required for creating a webhook")
      else
        let target := match targetUrl args with Some u => u | None => "" end in
        let events := match argEvents args with Some l => l | None => [] end in
        onCache (validateWebhookEvents authManager now events) ;;;
        response <- request {| url := webhooksUrl session project;
                               method := "PUT";
                               headers := webhookHeaders session;
                               body := createBody target events
                                                  (secret args) |} ;;
        lift (checkWebhookResponse "Failed to create webhook"
                                   (errorView response)) ;;;
        webhook <- lift (webhookJson response) ;;
        ret {| aorpOperation := "create";
               aorpMessage := "Webhook created successfully with ID "
                              ++ NumberToString (webhook_id webhook);
               aorpData := AorpWebhook webhook;
               aorpCount := 1;
               aorpAffectedFields := None |}
  | WebhookUpdate =>
      project <- lift (validateAndConvertId (ofOptionalNumber (projectId args))
                                            "projectId") ;;
      hook <- lift (validateAndConvertId (ofOptionalNumber (webhookId args))
                                         "webhookId") ;;
      if noEvents (argEvents args) then
        throw (MCPError VALIDATION_ERROR
                 "At least one event is required for updating a webhook")
      else
        let events := match argEvents args with Some l => l | None => [] end in
        onCache (validateWebhookEvents authManager now events) ;;;
        response <- request {| url := webhookUrl session project hook;
                               method := "POST";
                               headers := webhookHeaders session;
                               body := updateBody events |} ;;
        lift (checkWebhookResponse "Failed to update webhook"
                                   (errorView response)) ;;;
        webhook <- lift (webhookJson response) ;;
        ret {| aorpOperation := "update";
               aorpMessage := "Webhook events updated successfully";
               aorpData := AorpWebhook webhook;
               aorpCount := 1;
               aorpAffectedFields := Some ["events"] |}
  | WebhookDelete =>
      project <- lift (validateAndConvertId (ofOptionalNumber (projectId args))
                                            "projectId") ;;
      hook <- lift (validateAndConvertId (ofOptionalNumber (webhookId args))
                                         "webhookId") ;;
      response <- request {| url := webhookUrl session project hook;
                             method := "DELETE";
                             headers := webhookHeaders session;
                             body := None |} ;;
      lift (checkWebhookResponse "Failed to delete webhook" (errorView response)) ;;;
      ret {| aorpOperation := "delete";
             aorpMessage := "Webhook " ++ NumberToString hook
                            ++ " deleted successfully";
             aorpData := AorpWebhookId hook;
             aorpCount := 1;
             aorpAffectedFields := None |}
  | WebhookListEvents =>
      events <- onCache (getValidEvents authManager now) ;;
      ret {| aorpOperation := "list-events";
             aorpMessage := "Retrieved " ++ String_of_nat (length events)
                            ++ " available webhook events";
             aorpData := AorpEvents events;
             aorpCount := length events;
             aorpAffectedFields := None |}
  end.

(** The handler that [registerWebhooksTool] registers.  The client and
    the session are obtained before the [try]. *)
Definition webhooksTool (authManager : AuthManager) (now : Z)
  (args : WebhookArgs) : M WebhookStore AorpResponse :=
  if negb (isAuthenticated authManager) then
    throw (MCPError AUTH_REQUIRED
             "Authentication required. Please use vikunja_auth.connect first.")
  else
    lift getClientFromContext ;;;
    session <- lift (getSession authManager) ;;
    try_catch (webhooksSwitch authManager session now args)
              (fun error => throw (webhooksCatch error)).

(* ================================================================== *)
(** * The labels tool ([labels.ts]) *)

(** The four arguments of [createStandardResponse], for a tool whose
    data and metadata have the types [D] and [Meta]. *)
Record ToolResponse (D Meta : Type) : Type := mkToolResponse {
  toolOperation : string;
  toolSummary : string;
  toolData : D;
  toolMetadata : Meta
}.

Arguments mkToolResponse {D Meta} toolOperation toolSummary toolData toolMetadata.
Arguments toolOperation {D Meta} t.
Arguments toolSummary {D Meta} t.
Arguments toolData {D Meta} t.
Arguments toolMetadata {D Meta} t.

(** [n] when it is truthy: [if (args.page) params.page = args.page] *)
Definition truthyNumber (n : option float) : option float :=
  match n with
  | Some x => if ToBoolean (VNum x) then Some x else None
  | None => None
  end.

(** [`${n !== 1 ? 's' : ''}`] for a length. *)
Definition pluralSuffix (n : nat) : string :=
  if Nat.eqb n 1 then "" else "s".

(** The fields of node-vikunja's [Label] that the tool reads or writes. *)
Record Label : Type := mkLabel {
  label_title : string;
  label_description : option string;
  label_hex_color : option string
}.

(** [Partial<Label>], the object built for [createLabel] and
    [updateLabel]; a key that is not set is [None]. *)
Record LabelData : Type := mkLabelData {
  data_title : option string;
  data_description : option string;
  data_hex_color : option string
}.

(** [Object.keys(labelData)], in insertion order. *)
Definition labelDataKeys (d : LabelData) : list string :=
  (pushIfDefined (data_title d) "title"
   ++ pushIfDefined (data_description d) "description"
   ++ pushIfDefined (data_hex_color d) "hex_color")%list.

(** [params] of the [list] subcommand: [{ page?, per_page?, s? }] *)
Record LabelListParams : Type := mkLabelListParams {
  list_page : option float;
  list_per_page : option float;
  list_s : option string
}.

Inductive LabelSubcommand : Type :=
| LabelList
| LabelGet
| LabelCreate
| LabelUpdate
| LabelDelete.

Definition labelSubcommandName (c : LabelSubcommand) : string :=
  match c with
  | LabelList => "list"
  | LabelGet => "get"
  | LabelCreate => "create"
  | LabelUpdate => "update"
  | LabelDelete => "delete"
  end.

(** The arguments of [vikunja_labels] after schema validation. *)
Record LabelArgs : Type := mkLabelArgs {
  labelSubcommand : LabelSubcommand;
  labelId : option float;
  labelPage : option float;
  labelPerPage : option float;
  labelSearch : option string;
  labelTitle : option string;
  labelDescription : option string;
  labelHexColor : option string
}.

(** [client.labels] of the API client; what [deleteLabel] resolves to is
    passed on as it is. *)
Record LabelsClient : Type := mkLabelsClient {
  getLabels : LabelListParams -> outcome (list Label);
  getLabel : float -> outcome Label;
  createLabel : LabelData -> outcome Label;
  updateLabel : float -> LabelData -> outcome Label;
  deleteLabel : float -> outcome value
}.

Inductive LabelCall : Type :=
| CallLabelsClient
| CallGetLabels (params : LabelListParams)
| CallGetLabel (labelId : float)
| CallCreateLabel (labelData : LabelData)
| CallUpdateLabel (labelId : float) (updates : LabelData)
| CallDeleteLabel (labelId : float).

Inductive LabelsData : Type :=
| DataLabels (labels : list Label)
| DataLabel (label : Label)
| DataResult (result : value).

Inductive LabelsMetadata : Type :=
| LabelsNoMetadata
| LabelsCount (count : nat) (params : LabelListParams)
| LabelsAffectedFields (affectedFields : list string).

Definition callLabels {A : Type} (c : LabelCall) (result : outcome A)
  : M (list LabelCall) A :=
  fun calls => (result, (calls ++ [c])%list).

(** [getClientFromContext()], of which the tool uses [client.labels]. *)
Variable getLabelsClient : outcome LabelsClient.

(** [if (args.id === undefined) throw ...; validateAndConvertId(args.id, 'id');]
    and then the identifier as the argument gave it. *)
Definition requireLabelId (args : LabelArgs) : M (list LabelCall) float :=
  match labelId args with
  | None => throw (MCPError VALIDATION_ERROR "Label ID is required")
  | Some n =>
      lift (validateAndConvertId (VNum n) "id") ;;;
      ret n
  end.

(** The body of the [switch] inside the handler's [try]. *)
Definition labelsSwitch (client : LabelsClient) (args : LabelArgs)
  : M (list LabelCall) (ToolResponse LabelsData LabelsMetadata) :=
  match labelSubcommand args with
  | LabelList =>
      let params := {| list_page := truthyNumber (labelPage args);
                       list_per_page := truthyNumber (labelPerPage args);
                       list_s := truthyString (labelSearch args) |} in
      labels <- callLabels (CallGetLabels params) (getLabels client params) ;;
      ret {| toolOperation := "list-labels";
             toolSummary := "Retrieved " ++ String_of_nat (length labels)
                            ++ " label" ++ pluralSuffix (length labels);
             toolData := DataLabels labels;
             toolMetadata := LabelsCount (length labels) params |}
  | LabelGet =>
      n <- requireLabelId args ;;
      label <- callLabels (CallGetLabel n) (getLabel client n) ;;
      ret {| toolOperation := "get-label";
             toolSummary := "Retrieved label " ++ dquote ++ label_title label
                            ++ dquote;
             toolData := DataLabel label;
             toolMetadata := LabelsNoMetadata |}
  | LabelCreate =>
      if falsyString (labelTitle args) then
        throw (MCPError VALIDATION_ERROR "Title is required")
      else
        let labelData := {| data_title := labelTitle args;
                            data_description := truthyString (labelDescription args);
                            data_hex_color := truthyString (labelHexColor args) |} in
        label <- callLabels (CallCreateLabel labelData)
                            (createLabel client labelData) ;;
        ret {| toolOperation := "create-label";
               toolSummary := "Label " ++ dquote ++ label_title label ++ dquote
                              ++ " created successfully";
               toolData := DataLabel label;
               toolMetadata := LabelsAffectedFields (labelDataKeys labelData) |}
  | LabelUpdate =>
      n <- requireLabelId args ;;
      if falsyString (labelTitle args)
         && isUndefined (labelDescription args)
         && falsyString (labelHexColor args)
      then
        throw (MCPError VALIDATION_ERROR
                 "At least one field to update is required")
      else
        let updates := {| data_title := truthyString (labelTitle args);
                          data_description := labelDescription args;
                          data_hex_color := truthyString (labelHexColor args) |} in
        label <- callLabels (CallUpdateLabel n updates)
                            (updateLabel client n updates) ;;
        ret {| toolOperation := "update-label";
               toolSummary := "Label " ++ dquote ++ label_title label ++ dquote
                              ++ " updated successfully";
               toolData := DataLabel label;
               toolMetadata := LabelsAffectedFields (labelDataKeys updates) |}
  | LabelDelete =>
      n <- requireLabelId args ;;
      result <- callLabels (CallDeleteLabel n) (deleteLabel client n) ;;
      ret {| toolOperation := "delete-label";
             toolSummary := "Label deleted successfully";
             toolData := DataResult result;
             toolMetadata := LabelsNoMetadata |}
  end.

(** The handler that [registerLabelsTool] registers. *)
Definition labelsTool (authManager : AuthManager) (args : LabelArgs)
  : M (list LabelCall) (ToolResponse LabelsData LabelsMetadata) :=
  if negb (isAuthenticated authManager) then
    throw (MCPError AUTH_REQUIRED
             "Authentication required. Please use vikunja_auth.connect first.")
  else
    client <- callLabels CallLabelsClient getLabelsClient ;;
    try_catch (labelsSwitch client args)
      (fun error =>
         throw (labelsCatch (labelSubcommandName (labelSubcommand args))
                            (option_map VNum (labelId args)) error)).

(* ================================================================== *)
(** * The teams tool ([teams.ts]) *)

(** An identifier argument, [z.union([z.string(), z.number()])]. *)
Inductive IdArg : Type :=
| IdString (s : string)
| IdNumber (n : float).

Definition idValue (i : IdArg) : value :=
  match i with
  | IdString s => VStr s
  | IdNumber n => VNum n
  end.

(** The fields of node-vikunja's [Team] that the tool reads or writes. *)
Record Team : Type := mkTeam {
  team_name : string;
  team_description : option string
}.

(** [Partial<Team>], the object built for [createTeam]. *)
Record TeamData : Type := mkTeamData {
  teamData_name : option string;
  teamData_description : option string
}.

(** [Object.keys(teamData)], in insertion order. *)
Definition teamDataKeys (d : TeamData) : list string :=
  (pushIfDefined (teamData_name d) "name"
   ++ pushIfDefined (teamData_description d) "description")%list.

(** [TeamListParams]: [{ page?, per_page?, s? }] *)
Record TeamListParams : Type := mkTeamListParams {
  teams_page : option float;
  teams_per_page : option float;
  teams_s : option string
}.

Inductive TeamSubcommand : Type :=
| TeamList
| TeamCreate
| TeamGet
| TeamUpdate
| TeamDelete
| TeamMembers.

Definition teamSubcommandName (c : TeamSubcommand) : string :=
  match c with
  | TeamList => "list"
  | TeamCreate => "create"
  | TeamGet => "get"
  | TeamUpdate => "update"
  | TeamDelete => "delete"
  | TeamMembers => "members"
  end.

(** The arguments of [vikunja_teams] after schema validation. *)
Record TeamArgs : Type := mkTeamArgs {
  teamSubcommand : TeamSubcommand;
  teamPage : option float;
  teamPerPage : option float;
  teamSearch : option string;
  teamId : option IdArg;
  teamName : option string;
  teamDescription : option string;
  userId : option IdArg;
  admin : option bool
}.

(** [client.teams] of the API client; [deleteTeam] is [None] when the
    client has no such method.  [deleteTeam] resolves to an object whose
    [message] the tool returns. *)
Record TeamsClient : Type := mkTeamsClient {
  getTeams : TeamListParams -> outcome (list Team);
  createTeam : TeamData -> outcome Team;
  deleteTeam : option (float -> outcome string)
}.

(** The response of the direct [DELETE]: [text] is [await
    response.text()], read when the response is not [ok], and
    [deleteMessage] is the [message] of [await response.json()]. *)
Record TeamResponse : Type := mkTeamResponse {
  teamStatus : Z;
  text : outcome string;
  deleteMessage : outcome string
}.

(** The global [fetch], at the endpoint of a team. *)
Variable fetchTeamApi : Request -> outcome TeamResponse.

(** [handleStatusCodeError] of ['../utils/error-handler'] is not among
    the sources; the variable stands for the error it returns for a
    status code, the text of the response, the operation, the identifier
    and the fallback message. *)
Variable handleStatusCodeError : Z -> string -> string -> float -> string -> thrown.

Inductive TeamCall : Type :=
| CallTeamsClient
| CallGetTeams (params : TeamListParams)
| CallCreateTeam (teamData : TeamData)
| CallDeleteTeam (teamId : float)
| CallFetchTeam (request : Request).

Inductive TeamsData : Type :=
| DataTeams (teams : list Team)
| DataTeam (team : Team)
| DataMessage (message : string).

Inductive TeamsMetadata : Type :=
| TeamsCount (count : nat) (params : TeamListParams)
| TeamsAffectedFields (affectedFields : list string)
| TeamsDeleted (teamId : float).

Definition callTeams {A : Type} (c : TeamCall) (result : outcome A)
  : M (list TeamCall) A :=
  fun calls => (result, (calls ++ [c])%list).

(** [getClientFromContext()], of which the tool uses [client.teams]. *)
Variable getTeamsClient : outcome TeamsClient.

(** [if (args.id === undefined) throw ...;] and then
    [validateAndConvertId(args.id, 'id')]. *)
Definition requireTeamId (args : TeamArgs) : M (list TeamCall) float :=
  match teamId args with
  | None => throw (MCPError VALIDATION_ERROR "Team ID is required")
  | Some i => lift (validateAndConvertId (idValue i) "id")
  end.

Definition deleteTeamRequest (session : Session) (team : float) : Request :=
  {| url := apiUrl session ++ "/teams/" ++ NumberToString team;
     method := "DELETE";
     headers := [ ("Authorization", "Bearer " ++ apiToken session);
                  ("Content-Type", "application/json") ];
     body := None |}.

(** The body of the [switch] inside the handler's [try]. *)
Definition teamsSwitch (authManager : AuthManager) (client : TeamsClient)
  (args : TeamArgs) : M (list TeamCall) (ToolResponse TeamsData TeamsMetadata) :=
  match teamSubcommand args with
  | TeamList =>
      let params := {| teams_page := teamPage args;
                       teams_per_page := teamPerPage args;
                       teams_s := teamSearch args |} in
      teams <- callTeams (CallGetTeams params) (getTeams client params) ;;
      ret {| toolOperation := "list-teams";
             toolSummary := "Retrieved " ++ String_of_nat (length teams)
                            ++ " team" ++ pluralSuffix (length teams);
             toolData := DataTeams teams;
             toolMetadata := TeamsCount (length teams) params |}
  | TeamCreate =>
      if falsyString (teamName args) then
        throw (MCPError VALIDATION_ERROR "Team name is required")
      else
        let teamData := {| teamData_name := teamName args;
                           teamData_description := teamDescription args |} in
        team <- callTeams (CallCreateTeam teamData) (createTeam client teamData) ;;
        ret {| toolOperation := "create-team";
               toolSummary := "Team " ++ dquote ++ team_name team ++ dquote
                              ++ " created successfully";
               toolData := DataTeam team;
               toolMetadata := TeamsAffectedFields (teamDataKeys teamData) |}
  | TeamGet =>
      requireTeamId args ;;;
      throw (MCPError NOT_IMPLEMENTED
               "Get team by ID is not yet implemented in the node-vikunja library")
  | TeamUpdate =>
      requireTeamId args ;;;
      if falsyString (teamName args) && falsyString (teamDescription args) then
        throw (MCPError VALIDATION_ERROR
                 "At least one field to update is required")
      else
        throw (MCPError NOT_IMPLEMENTED
                 "Update team is not yet implemented in the node-vikunja library")
  | TeamDelete =>
      team <- requireTeamId args ;;
      match deleteTeam client with
      | None =>
          session <- lift (getSession authManager) ;;
          response <- callTeams (CallFetchTeam (deleteTeamRequest session team))
                                (fetchTeamApi (deleteTeamRequest session team)) ;;
          if negb ((200 <=? teamStatus response) && (teamStatus response <=? 299))%Z
          then
            errorText <- lift (text response) ;;
            throw (handleStatusCodeError
                     (teamStatus response) errorText "leave team" team
                     ("Failed to leave team " ++ NumberToString team ++ ": "
                      ++ errorText))
          else
            message <- lift (deleteMessage response) ;;
            ret {| toolOperation := "delete-team";
                   toolSummary := "Team deleted successfully";
                   toolData := DataMessage message;
                   toolMetadata := TeamsDeleted team |}
      | Some deleteMethod =>
          message <- callTeams (CallDeleteTeam team) (deleteMethod team) ;;
          ret {| toolOperation := "delete-team";
                 toolSummary := "Team deleted successfully";
                 toolData := DataMessage message;
                 toolMetadata := TeamsDeleted team |}
      end
  | TeamMembers =>
      requireTeamId args ;;;
      throw (MCPError NOT_IMPLEMENTED
               "Team member operations are not yet implemented in the node-vikunja library")
  end.

(** The handler that [registerTeamsTool] registers. *)
Definition teamsTool (authManager : AuthManager) (args : TeamArgs)
  : M (list TeamCall) (ToolResponse TeamsData TeamsMetadata) :=
  if negb (isAuthenticated authManager) then
    throw (MCPError AUTH_REQUIRED
             "Authentication required. Please use vikunja_auth.connect first.")
  else
    client <- callTeams CallTeamsClient getTeamsClient ;;
    try_catch (teamsSwitch authManager client args)
      (fun error =>
         throw (teamsCatch (teamSubcommandName (teamSubcommand args))
                           (option_map idValue (teamId args)) error)).

(* ================================================================== *)
(** * What the upstream does, as the properties name it *)

(** The status is one of the "not available" signals 401, 403, 404. *)
Definition notAvailableStatus (statusCode : Z) : bool :=
  ((statusCode =? 401) || (statusCode =? 403) || (statusCode =? 404))%Z.

(** The events endpoint answers with a "not available" status. *)
Inductive respondsNotAvailable (authManager : AuthManager) : Prop :=
| RespondsNotAvailable (session : Session) (response : Response (list string)) :
    getSession authManager = Returned session ->
    fetch (eventsRequest session) = Returned response ->
    notAvailableStatus (status response) = true ->
    respondsNotAvailable authManager.

(** The fetch succeeds with the body [events]. *)
Inductive fetchSucceeds (authManager : AuthManager) (events : list string) : Prop :=
| FetchSucceeds (session : Session) (response : Response (list string)) :
    getSession authManager = Returned session ->
    fetch (eventsRequest session) = Returned response ->
    ok response = true ->
    json response = Returned events ->
    fetchSucceeds authManager events.

(** The fetch fails otherwise: the session provider throws, [fetch]
    rejects, the status is an error other than 401, 403 and 404, or the
    body of a successful response does not parse. *)
Inductive fetchFails (authManager : AuthManager) : Prop :=
| SessionProviderThrows (t : thrown) :
    getSession authManager = Raised t ->
    fetchFails authManager
| FetchThrows (session : Session) (t : thrown) :
    getSession authManager = Returned session ->
    fetch (eventsRequest session) = Raised t ->
    fetchFails authManager
| ErrorStatus (session : Session) (response : Response (list string)) :
    getSession authManager = Returned session ->
    fetch (eventsRequest session) = Returned response ->
    ok response = false ->
    notAvailableStatus (status response) = false ->
    fetchFails authManager
| BodyThrows (session : Session) (response : Response (list string)) (t : thrown) :
    getSession authManager = Returned session ->
    fetch (eventsRequest session) = Returned response ->
    ok response = true ->
    json response = Raised t ->
    fetchFails authManager.

(** The cache after a fallback to the default list at time [now]. *)
Definition defaultCache (now : Z) : EventCache :=
  {| cachedEvents := Some defaultWebhookEvents;
     cacheExpiry := Some (now + 300000)%Z |}.

(** [update-settings] arguments, by the eight setting fields. *)
Definition updateSettingsArgs (n l t : option string) (w : option float)
  (f : option (list (string * value))) (e o : option bool)
  (r : option string) : Args :=
  {| subcommand := SubUpdateSettings;
     search := None; page := None; perPage := None;
     argName := n; argLanguage := l; argTimezone := t; weekStart := w;
     frontendSettings := f; emailRemindersEnabled := e;
     overdueTasksRemindersEnabled := o; overdueTasksRemindersTime := r |}.

(** Neither an array nor a plain object: [undefined], [null], a boolean,
    a number or a string. *)
Definition isPrimitive (v : value) : bool :=
  match v with
  | VArr _ | VObj _ => false
  | _ => true
  end.

(** A candidate that is not a member of the reference list. *)
Definition notInReference (validEvents : list string) (e : string) : bool :=
  if in_dec string_dec e validEvents then false else true.

(* ================================================================== *)
(** * Collaborators of the closed instances

    The closed instances at the end run the tools with the collaborators
    below.  None of their inputs reaches a number conversion, so the
    conversions are taken from a runtime that reads no string as a
    number. *)

Definition everyStringNaN (s : string) : float := PrimFloat.nan.

Definition everyNumberNaN (n : float) : string := "NaN".

Definition rethrowAsAuthRequired (error : thrown) (operation text : string)
  : thrown :=
  MCPError AUTH_REQUIRED text.

Definition classifyAsApiError (error : thrown) (tool operation : string)
  (entityId : option value) : thrown :=
  MCPError API_ERROR operation.

Definition sampleSession : Session :=
  {| apiUrl := "https://vikunja.example/api/v1"; apiToken := "tk_1" |}.

Definition apiTokenAuth : AuthManager :=
  {| isAuthenticated := true; getAuthType := "api-token";
     getSession := Returned sampleSession |}.

Definition jwtAuth : AuthManager :=
  {| isAuthenticated := true; getAuthType := "jwt";
     getSession := Returned sampleSession |}.

(** [fetch] rejects (a network error). *)
Definition fetchRejects (request : Request) : outcome (Response (list string)) :=
  Raised (ThrownError "fetch failed").

(** [fetch] resolves with the given status and body. *)
Definition fetchResponds (statusCode : Z) (text : string)
  (events : outcome (list string)) (request : Request)
  : outcome (Response (list string)) :=
  Returned (mkResponse statusCode text events).

Definition emptyCache : EventCache :=
  {| cachedEvents := None; cacheExpiry := None |}.

(** The cache after [expireWebhookEventCache]. *)
Definition expiredCache (events : list string) : EventCache :=
  {| cachedEvents := Some events; cacheExpiry := Some 0%Z |}.

Definition sampleUser : value :=
  VObj [("id", VNum 1); ("username", VStr "u")].

Definition sampleClient : Client :=
  {| getUser := Returned sampleUser;
     getUsers := fun _ => Returned [sampleUser];
     updateGeneralSettings := fun _ => Returned tt |}.

Definition currentArgs : Args :=
  {| subcommand := SubCurrent;
     search := None; page := None; perPage := None;
     argName := None; argLanguage := None; argTimezone := None;
     weekStart := None; frontendSettings := None;
     emailRemindersEnabled := None; overdueTasksRemindersEnabled := None;
     overdueTasksRemindersTime := None |}.

(* ================================================================== *)
(** * Further notions for the properties *)

(** The strings of the elements of an array, as [Array.prototype.join]
    converts them inside [ToString]. *)
Fixpoint elementStrings (elems : list value) : outcome (list string) :=
  match elems with
  | [] => Returned []
  | e :: rest =>
      let* s := match e with
                | VUndefined | VNull => Returned ""
                | _ => ToString e
                end in
      let* ss := elementStrings rest in
      Returned (s :: ss)
  end.

(** No plain object with an own [toString] property, here or in an
    array at any depth. *)
Fixpoint convertible (v : value) : bool :=
  match v with
  | VArr elems => forallb convertible elems
  | VObj props => negb (hasOwnProperty props "toString")
  | _ => true
  end.

(** An optional string field next to its source: it is absent exactly
    when the source is falsy, and a non-empty source string is kept as
    it is. *)
Definition keepsTruthyString (source : value) (field : option string) : Prop :=
  (field = None <-> ToBoolean source = false)
  /\ (forall s, source = VStr s -> s <> "" -> field = Some s).

(** The states of the two cache variables that the exported operations
    can produce, from the initial [null], [null]. *)
Inductive reachable : EventCache -> Prop :=
| reachable_initial :
    reachable {| cachedEvents := None; cacheExpiry := None |}
| reachable_clear (c : EventCache) :
    reachable c -> reachable (snd (clearWebhookEventCache c))
| reachable_expire (c : EventCache) :
    reachable c -> reachable (snd (expireWebhookEventCache c))
| reachable_read (c : EventCache) (authManager : AuthManager) (now : Z) :
    reachable c -> reachable (snd (getValidEvents authManager now c)).

(** The HTTP method of the one request a subcommand of the webhooks tool
    sends to the project's webhook endpoints; [list-events] sends none. *)
Definition webhookMethod (c : WebhookSubcommand) : option string :=
  match c with
  | WebhookList | WebhookGet => Some "GET"
  | WebhookCreate => Some "PUT"
  | WebhookUpdate => Some "POST"
  | WebhookDelete => Some "DELETE"
  | WebhookListEvents => None
  end.

(** The client method that a subcommand of the labels tool may call. *)
Definition labelCallOf (c : LabelSubcommand) (call : LabelCall) : bool :=
  match c, call with
  | _, CallLabelsClient => true
  | LabelList, CallGetLabels _ => true
  | LabelGet, CallGetLabel _ => true
  | LabelCreate, CallCreateLabel _ => true
  | LabelUpdate, CallUpdateLabel _ _ => true
  | LabelDelete, CallDeleteLabel _ => true
  | _, _ => false
  end.

(** A string argument that is supplied and not empty. *)
Definition suppliedNonEmpty (s : option string) : Prop :=
  exists text : string, s = Some text /\ text <> "".

(* ================================================================== *)
(** * Further collaborators of the closed instances *)

(** Stands for [validateAndConvertId]: a number is accepted as it is. *)
Definition acceptNumber (v : value) (field : string) : outcome float :=
  match v with
  | VNum n => Returned n
  | _ => Raised (MCPError VALIDATION_ERROR (field ++ " must be a positive integer"))
  end.

(** Stands for [handleStatusCodeError]. *)
Definition statusAsApiError (statusCode : Z) (errorText operation : string)
  (entityId : float) (fallback : string) : thrown :=
  MCPError API_ERROR fallback.

(** The record of [sampleUser]. *)
Definition sampleUserRecord : User :=
  {| id := 1; username := "u"; frontend_settings := VObj [];
     email := None; name := None; created := None; updated := None;
     language := None; timezone := None; week_start := None;
     email_reminders_enabled := None;
     overdue_tasks_reminders_enabled := None |}.

Definition searchArgs : Args :=
  {| subcommand := SubSearch;
     search := Some ""; page := None; perPage := None;
     argName := None; argLanguage := None; argTimezone := None;
     weekStart := None; frontendSettings := None;
     emailRemindersEnabled := None; overdueTasksRemindersEnabled := None;
     overdueTasksRemindersTime := None |}.

Definition settingsArgs : Args :=
  {| subcommand := SubSettings;
     search := None; page := None; perPage := None;
     argName := None; argLanguage := None; argTimezone := None;
     weekStart := None; frontendSettings := None;
     emailRemindersEnabled := None; overdueTasksRemindersEnabled := None;
     overdueTasksRemindersTime := None |}.

Definition sampleWebhook : Webhook :=
  {| webhook_id := 7; target_url := "https://hooks.example/a";
     webhook_events := ["task.created"]; webhook_secret := None |}.

(** The webhook endpoints answer 200 with [sampleWebhook]. *)
Definition fetchWebhookOk (r : Request) : outcome WebhookResponse :=
  Returned {| webhookStatus := 200; webhookStatusText := "OK";
              errorData := Returned {| errorMessage := None |};
              webhooksJson := Returned [sampleWebhook];
              webhookJson := Returned sampleWebhook |}.

(** Arguments of the webhooks tool for project 3 and webhook 7. *)
Definition webhookArgsOf (c : WebhookSubcommand) (target : option string)
  (events : option (list string)) (key : option string) : WebhookArgs :=
  {| webhookSubcommand := c; projectId := Some 3%float;
     webhookId := Some 7%float; targetUrl := target; argEvents := events;
     secret := key |}.

Definition emptyStore : WebhookStore := (emptyCache, []).

Definition sampleLabel : Label :=
  {| label_title := "urgent"; label_description := None;
     label_hex_color := Some "#ff0000" |}.

Definition sampleLabelsClient : LabelsClient :=
  {| getLabels := fun _ => Returned [sampleLabel];
     getLabel := fun _ => Returned sampleLabel;
     createLabel := fun _ => Returned sampleLabel;
     updateLabel := fun _ _ => Returned sampleLabel;
     deleteLabel := fun _ => Returned VNull |}.

Definition labelArgsOf (c : LabelSubcommand) (i : option float)
  (s t d h : option string) : LabelArgs :=
  {| labelSubcommand := c; labelId := i; labelPage := None;
     labelPerPage := None; labelSearch := s; labelTitle := t;
     labelDescription := d; labelHexColor := h |}.

Definition sampleTeam : Team :=
  {| team_name := "core"; team_description := None |}.

(** A client without the method [deleteTeam]. *)
Definition sampleTeamsClient : TeamsClient :=
  {| getTeams := fun _ => Returned [sampleTeam];
     createTeam := fun _ => Returned sampleTeam;
     deleteTeam := None |}.

Definition fetchTeamOk (r : Request) : outcome TeamResponse :=
  Returned {| teamStatus := 200; text := Returned "";
              deleteMessage := Returned "Successfully deleted." |}.

Definition teamArgsOf (c : TeamSubcommand) (i : option IdArg)
  (s n d : option string) : TeamArgs :=
  {| teamSubcommand := c; teamPage := None; teamPerPage := None;
     teamSearch := s; teamId := i; teamName := n; teamDescription := d;
     userId := None; admin := None |}.




(* ================================================================== *)
(** * Properties of the sanitizer *)

Lemma bindO_Returned {A B : Type} (m : outcome A) (k : A -> outcome B) (b : B) :
  bindO m k = Returned b -> exists a, m = Returned a /\ k a = Returned b.
Proof.
  destruct m as [a|t]; simpl; intros H.
  - exists a; split; [reflexivity | exact H].
  - discriminate H.
Qed.

(** A primitive always converts to a number; only an array or an object
    can make [Number(..)] throw. *)
Lemma ToNumber_primitive (v : value) :
  isPrimitive v = true -> exists n, ToNumber v = Returned n.
Proof.
  destruct v; cbn; intros H; try discriminate H; eexists; reflexivity.
Qed.

Lemma optionalNumber_primitive (v : value) :
  isPrimitive v = true -> exists ws, optionalNumber v = Returned ws.
Proof.
  destruct v; cbn; intros H; try discriminate H; eexists; reflexivity.
Qed.

(** [Number(x) || 0] is never [NaN]. *)
Lemma numberOrZero_not_NaN (v : value) (n : float) :
  numberOrZero v = Returned n -> PrimFloat.is_nan n = false.
Proof.
  unfold numberOrZero; intros H.
  apply bindO_Returned in H as (m & _ & H).
  injection H as <-.
  unfold ToBoolean.
  destruct (PrimFloat.is_zero m || PrimFloat.is_nan m) eqn:E; simpl.
  - reflexivity.
  - apply orb_false_elim in E as [_ E]; exact E.
Qed.

Lemma numberOrZero_spec (v : value) (m : float) :
  ToNumber v = Returned m ->
  numberOrZero v = Returned (if ToBoolean (VNum m) then m else 0%float).
Proof. unfold numberOrZero; intros ->; reflexivity. Qed.

(** An absent [id] is [0]. *)
Lemma numberOrZero_undefined : numberOrZero VUndefined = Returned 0%float.
Proof. reflexivity. Qed.

(** [JSON.stringify] gives a string for every array and object, so
    [safeString] is the serialization there and never the placeholder. *)
Lemma safeString_object (v : value) :
  typeof_object v = true -> v <> VNull ->
  SerializeJSONProperty v = Some (safeString v).
Proof.
  destruct v; simpl; intros H Hn; try discriminate H; try reflexivity.
  contradiction Hn; reflexivity.
Qed.

Lemma optionalBoolean_spec (v : value) :
  (optionalBoolean v = None <-> v = VUndefined)
  /\ (v <> VUndefined -> optionalBoolean v = Some (ToBoolean v)).
Proof.
  destruct v; cbn; (split; [split |]); intros; try discriminate;
    try reflexivity; congruence.
Qed.

Lemma optionalNumber_spec (v : value) (ws : option float) :
  optionalNumber v = Returned ws ->
  (ws = None <-> v = VUndefined)
  /\ (v <> VUndefined -> exists n, ToNumber v = Returned n /\ ws = Some n).
Proof.
  intros H.
  destruct v; cbn [optionalNumber] in H;
    try (apply bindO_Returned in H as (n' & Hn & H); injection H as <-;
         split; [split; intros; discriminate
                | intros _; exists n'; split; [exact Hn | reflexivity]]).
  injection H as <-; split; [split; reflexivity | intros C; contradiction C; reflexivity].
Qed.

Example transformUser_null :
  transformUser VNull = Raised (ThrownError "Invalid user data received").
Proof. reflexivity. Qed.

Example transformUser_array :
  transformUser (VArr [VObj [("id", VNum 1)]])
  = Raised (ThrownError "Invalid user data received").
Proof. reflexivity. Qed.

Example transformUser_fractional_id :
  exists u, transformUser (VObj [("id", VNum 1.5)]) = Returned u
            /\ id u = 1.5%float /\ Number_isInteger (id u) = false.
Proof. eexists; repeat split; reflexivity. Qed.

(** An [id] that is an object with an own [toString] property makes
    [Number(user.id)] throw: the sanitizer does not return for it. *)
Example transformUser_TypeError :
  transformUser (VObj [("id", VObj [("toString", VNum 1)]); ("username", VStr "a")])
  = Raised TypeError_ToPrimitive.
Proof. reflexivity. Qed.

(** C1 (as amended).  On a value that is not a non-null, non-array object
    [transformUser] throws the plain [Error] "Invalid user data received",
    which is not a taxonomy error.  On an object whose [id] and
    [week_start] convert to a number, as every primitive does, it returns
    a record whose [id] is [Number(user.id)], or [0] when that is [NaN] or
    zero; the [id] is never [NaN], and it is [0] when the property is
    absent or not numeric. *)
Theorem transformUser_total (rawUser : value) :
  (isUserObject rawUser = false ->
     transformUser rawUser = Raised (ThrownError "Invalid user data received")
     /\ instanceof_MCPError (ThrownError "Invalid user data received") = false)
  /\ (isUserObject rawUser = true ->
      (forall (n : float) (ws : option float),
          ToNumber (prop rawUser "id") = Returned n ->
          optionalNumber (prop rawUser "week_start") = Returned ws ->
          exists u : User,
            transformUser rawUser = Returned u
            /\ id u = (if ToBoolean (VNum n) then n else 0%float)
            /\ PrimFloat.is_nan (id u) = false
            /\ (PrimFloat.is_nan n = true -> id u = 0%float)
            /\ (prop rawUser "id" = VUndefined -> id u = 0%float))
      /\ (isPrimitive (prop rawUser "id") = true ->
          isPrimitive (prop rawUser "week_start") = true ->
          exists u : User, transformUser rawUser = Returned u)).
Proof.
  assert (Hret : isUserObject rawUser = true ->
                 forall (n : float) (ws : option float),
                   ToNumber (prop rawUser "id") = Returned n ->
                   optionalNumber (prop rawUser "week_start") = Returned ws ->
                   exists u : User,
                     transformUser rawUser = Returned u
                     /\ id u = (if ToBoolean (VNum n) then n else 0%float)).
  { intros H n ws Hid Hws.
    unfold transformUser; rewrite H; cbn [negb].
    rewrite (numberOrZero_spec _ _ Hid); cbn [bindO].
    rewrite Hws; cbn [bindO].
    eexists; split; reflexivity. }
  split; [| intros H; split].
  - intros H; unfold transformUser; rewrite H; split; reflexivity.
  - intros n ws Hid Hws.
    destruct (Hret H n ws Hid Hws) as (u & Hu & Hi).
    exists u; split; [exact Hu | split; [exact Hi |]].
    rewrite Hi; split; [| split].
    + apply (numberOrZero_not_NaN (prop rawUser "id")).
      apply numberOrZero_spec; exact Hid.
    + intros Hn; cbn [ToBoolean]; rewrite Hn, orb_true_r; reflexivity.
    + intros Hu0; rewrite Hu0 in Hid; injection Hid as <-; reflexivity.
  - intros Hpi Hpw.
    destruct (ToNumber_primitive _ Hpi) as [n Hn].
    destruct (optionalNumber_primitive _ Hpw) as [ws Hws].
    destruct (Hret H n ws Hn Hws) as (u & Hu & _).
    exists u; exact Hu.
Qed.

(** C8.  The record for [{id: 5, username: "a", email_reminders_enabled:
    false}] keeps [email_reminders_enabled: false]; and in every record
    that [transformUser] returns, [week_start], [email_reminders_enabled]
    and [overdue_tasks_reminders_enabled] are present exactly when the
    source value is not [undefined], with the value [Number(..)] and
    [Boolean(..)] give. *)
Theorem transformUser_keeps_present_falsy :
  transformUser (VObj [ ("id", VNum 5); ("username", VStr "a");
                        ("email_reminders_enabled", VBool false) ])
  = Returned {| id := 5; username := "a"; frontend_settings := VObj [];
                email := None; name := None; created := None; updated := None;
                language := None; timezone := None; week_start := None;
                email_reminders_enabled := Some false;
                overdue_tasks_reminders_enabled := None |}
  /\ forall (props : list (string * value)) (u : User),
      transformUser (VObj props) = Returned u ->
      (week_start u = None <-> get props "week_start" = VUndefined)
      /\ (email_reminders_enabled u = None
          <-> get props "email_reminders_enabled" = VUndefined)
      /\ (overdue_tasks_reminders_enabled u = None
          <-> get props "overdue_tasks_reminders_enabled" = VUndefined)
      /\ (get props "week_start" <> VUndefined ->
          exists n, ToNumber (get props "week_start") = Returned n
                    /\ week_start u = Some n)
      /\ (get props "email_reminders_enabled" <> VUndefined ->
          email_reminders_enabled u
          = Some (ToBoolean (get props "email_reminders_enabled")))
      /\ (get props "overdue_tasks_reminders_enabled" <> VUndefined ->
          overdue_tasks_reminders_enabled u
          = Some (ToBoolean (get props "overdue_tasks_reminders_enabled"))).
Proof.
  split; [reflexivity |].
  intros props u H.
  unfold transformUser in H; cbn [isUserObject negb prop] in H.
  apply bindO_Returned in H as (i & _ & H).
  apply bindO_Returned in H as (ws & Hws & H).
  injection H as <-; cbn.
  destruct (optionalNumber_spec _ _ Hws) as [Hn1 Hn2].
  destruct (optionalBoolean_spec (get props "email_reminders_enabled")) as [He1 He2].
  destruct (optionalBoolean_spec (get props "overdue_tasks_reminders_enabled")) as [Ho1 Ho2].
  repeat split; try tauto; try apply Hn1; try apply He1; try apply Ho1; auto.
Qed.

(* ================================================================== *)
(** * Properties of the event cache *)

(** A not-available status is not an [ok] status. *)
Lemma notAvailable_not_ok {A : Type} (response : Response A) :
  notAvailableStatus (status response) = true -> ok response = false.
Proof. unfold notAvailableStatus, ok; lia. Qed.

(** Fresh: the cached list is returned and nothing is fetched or written. *)
Lemma getValidEvents_fresh (authManager : AuthManager) (now : Z)
  (c : EventCache) (events : list string) :
  cachedEvents c = Some events -> cacheIsValid c now = true ->
  getValidEvents authManager now c = (Returned events, c).
Proof.
  intros He Hv; unfold getValidEvents, bind, read, ret.
  rewrite He, Hv; reflexivity.
Qed.

(** Stale or empty: the read is the fetch with its fallbacks. *)
Lemma getValidEvents_refresh (authManager : AuthManager) (now : Z) (c : EventCache) :
  cacheIsValid c now = false ->
  getValidEvents authManager now c = fetchFreshEvents authManager now c.
Proof.
  intros Hv; unfold getValidEvents, bind, read.
  destruct (cachedEvents c); [rewrite Hv |]; reflexivity.
Qed.

Lemma fetchFreshEvents_success (authManager : AuthManager) (now : Z)
  (c : EventCache) (events : list string) :
  fetchSucceeds authManager events ->
  fetchFreshEvents authManager now c
  = (Returned events,
     {| cachedEvents := Some events;
        cacheExpiry := Some (now + CACHE_DURATION_MS)%Z |}).
Proof.
  intros [session response Hs Hf Hok Hj].
  unfold fetchFreshEvents, try_catch, bind, lift.
  rewrite Hs, Hf, Hok, Hj; reflexivity.
Qed.

Lemma fetchFreshEvents_notAvailable (authManager : AuthManager) (now : Z)
  (c : EventCache) :
  respondsNotAvailable authManager ->
  fetchFreshEvents authManager now c = (Returned defaultWebhookEvents, defaultCache now).
Proof.
  intros [session response Hs Hf Hna].
  unfold fetchFreshEvents, try_catch, bind, lift.
  rewrite Hs, Hf, (notAvailable_not_ok _ Hna).
  unfold notAvailableStatus in Hna; cbn [negb]; rewrite Hna; reflexivity.
Qed.

Lemma fetchFreshEvents_failure (authManager : AuthManager) (now : Z)
  (c : EventCache) :
  fetchFails authManager ->
  fetchFreshEvents authManager now c
  = match cachedEvents c with
    | Some events => (Returned events, c)
    | None => (Returned defaultWebhookEvents, defaultCache now)
    end.
Proof.
  intros [t Hs | session t Hs Hf | session response Hs Hf Hok Hna
          | session response t Hs Hf Hok Hj];
    unfold fetchFreshEvents, try_catch, bind, lift, read;
    rewrite Hs; try rewrite Hf; try rewrite Hok; try rewrite Hj;
    try (unfold notAvailableStatus in Hna; cbn [negb]; rewrite Hna);
    cbn; destruct (cachedEvents c); reflexivity.
Qed.

(** Every upstream behaviour is one of the three. *)
Lemma upstream_cases (authManager : AuthManager) :
  (exists events, fetchSucceeds authManager events)
  \/ respondsNotAvailable authManager
  \/ fetchFails authManager.
Proof.
  destruct (getSession authManager) as [session | t] eqn:Hs;
    [| right; right; eapply SessionProviderThrows; eassumption].
  destruct (fetch (eventsRequest session)) as [response | t] eqn:Hf;
    [| right; right; eapply FetchThrows; eassumption].
  destruct (ok response) eqn:Hok.
  - destruct (json response) as [events | t] eqn:Hj.
    + left; exists events; eapply FetchSucceeds; eassumption.
    + right; right; eapply BodyThrows; eassumption.
  - destruct (notAvailableStatus (status response)) eqn:Hna.
    + right; left; eapply RespondsNotAvailable; eassumption.
    + right; right; eapply ErrorStatus; eassumption.
Qed.

Lemma defaultWebhookEvents_length : length defaultWebhookEvents = 11.
Proof. reflexivity. Qed.

(** C2 (as amended).  In every cache state and for every behaviour of the
    session provider and of the upstream, [getValidEvents] returns a list
    and throws nothing.  The list it returns, and the list it leaves in
    the cache, is empty only when the upstream answered successfully with
    the empty list, now or when the cache was filled. *)
Theorem getValidEvents_never_raises (authManager : AuthManager) (now : Z)
  (c : EventCache) :
  exists (events : list string) (c' : EventCache),
    getValidEvents authManager now c = (Returned events, c')
    /\ cachedEvents c' = Some events
    /\ (events = [] -> cachedEvents c = Some [] \/ fetchSucceeds authManager []).
Proof.
  destruct (cacheIsValid c now) eqn:Hv.
  - unfold cacheIsValid in Hv.
    destruct (cachedEvents c) as [events |] eqn:He; [| discriminate Hv].
    exists events, c; split; [| split].
    + apply getValidEvents_fresh; [exact He |].
      unfold cacheIsValid; rewrite He; exact Hv.
    + exact He.
    + intros ->; left; reflexivity.
  - rewrite (getValidEvents_refresh _ _ _ Hv).
    destruct (upstream_cases authManager) as [[events Hu] | [Hu | Hu]].
    + rewrite (fetchFreshEvents_success _ now c _ Hu).
      do 2 eexists; split; [reflexivity | split; [reflexivity |]].
      intros ->; right; exact Hu.
    + rewrite (fetchFreshEvents_notAvailable _ now c Hu).
      do 2 eexists; split; [reflexivity | split; [reflexivity |]].
      intros H; discriminate H.
    + rewrite (fetchFreshEvents_failure _ now c Hu).
      destruct (cachedEvents c) as [events |] eqn:He.
      * exists events, c; split; [reflexivity | split; [exact He |]].
        intros ->; left; reflexivity.
      * do 2 eexists; split; [reflexivity | split; [reflexivity |]].
        intros H; discriminate H.
Qed.

(** C3.  With an entry in the cache that has expired, a fetch that fails
    otherwise than by 401, 403 or 404 makes [getValidEvents] return the
    cached list, and leaves the list and the expiry as they were. *)
Theorem getValidEvents_stale_fallback (authManager : AuthManager) (now : Z)
  (c : EventCache) (events : list string) :
  cachedEvents c = Some events ->
  cacheIsValid c now = false ->
  fetchFails authManager ->
  getValidEvents authManager now c = (Returned events, c).
Proof.
  intros He Hv Hu.
  rewrite (getValidEvents_refresh _ _ _ Hv), (fetchFreshEvents_failure _ now c Hu), He.
  reflexivity.
Qed.

(** C4.  When the cache is not fresh, so that the upstream is asked, and
    it answers 401, 403 or 404, and when the cache is empty and the fetch
    fails, [getValidEvents] stores and returns the default list of eleven
    events with the expiry [now + 300000] ms (five minutes). *)
Theorem getValidEvents_default_fallback (authManager : AuthManager) (now : Z)
  (c : EventCache) :
  cacheIsValid c now = false ->
  respondsNotAvailable authManager
  \/ (cachedEvents c = None /\ fetchFails authManager) ->
  getValidEvents authManager now c = (Returned defaultWebhookEvents, defaultCache now)
  /\ length defaultWebhookEvents = 11
  /\ cacheExpiry (defaultCache now) = Some (now + 5 * 60 * 1000)%Z
  /\ cacheIsValid (defaultCache now) now = true.
Proof.
  intros Hv Hu.
  rewrite (getValidEvents_refresh _ _ _ Hv).
  repeat split.
  - destruct Hu as [Hu | [He Hu]].
    + apply fetchFreshEvents_notAvailable; exact Hu.
    + rewrite (fetchFreshEvents_failure _ now c Hu), He; reflexivity.
  - unfold cacheIsValid, defaultCache; cbn; lia.
Qed.

Lemma includes_In (l : list string) (x : string) :
  includes l x = true <-> In x l.
Proof.
  unfold includes; rewrite existsb_exists; split.
  - intros (y & Hy & E); apply String.eqb_eq in E; subst; exact Hy.
  - intros H; exists x; split; [exact H | apply String.eqb_refl].
Qed.

Lemma invalidEvents_spec (validEvents events : list string) (e : string) :
  In e (filter (fun event => negb (includes validEvents event)) events)
  <-> In e events /\ ~ In e validEvents.
Proof.
  rewrite filter_In, negb_true_iff, <- not_true_iff_false, includes_In.
  reflexivity.
Qed.

Lemma invalidEvents_nil (validEvents events : list string) :
  filter (fun event => negb (includes validEvents event)) events = []
  <-> Forall (fun e => In e validEvents) events.
Proof.
  rewrite Forall_forall; split.
  - intros H e He.
    destruct (includes validEvents e) eqn:E; [apply includes_In; exact E |].
    assert (Hin : In e (filter (fun event => negb (includes validEvents event)) events)).
    { apply filter_In; split; [exact He | rewrite E; reflexivity]. }
    rewrite H in Hin; destruct Hin.
  - intros H.
    destruct (filter (fun event => negb (includes validEvents event)) events)
      as [| e rest] eqn:E; [reflexivity |].
    assert (Hin : In e (e :: rest)) by (left; reflexivity).
    rewrite <- E in Hin; apply invalidEvents_spec in Hin as [Hin Hn].
    contradiction (Hn (H e Hin)).
Qed.

Lemma notInReference_includes (validEvents : list string) (e : string) :
  notInReference validEvents e = negb (includes validEvents e).
Proof.
  unfold notInReference.
  destruct (in_dec string_dec e validEvents) as [H | H].
  - apply includes_In in H; rewrite H; reflexivity.
  - destruct (includes validEvents e) eqn:E; [| reflexivity].
    apply includes_In in E; contradiction.
Qed.

(** C6.  With [validEvents] the reference list that [getValidEvents]
    returns: when every candidate is in it, [validateWebhookEvents]
    returns; when some candidate is not, it throws an [MCPError] of kind
    [VALIDATION_ERROR] whose message lists the candidates that are not in
    the reference list, in their order, and then the whole reference
    list. *)
Theorem validateWebhookEvents_spec (authManager : AuthManager) (now : Z)
  (c c' : EventCache) (events validEvents : list string) :
  getValidEvents authManager now c = (Returned validEvents, c') ->
  (Forall (fun e => In e validEvents) events ->
     validateWebhookEvents authManager now events c = (Returned tt, c'))
  /\ (~ Forall (fun e => In e validEvents) events ->
      validateWebhookEvents authManager now events c
      = (Raised (MCPError VALIDATION_ERROR
                   ("Invalid webhook events: "
                    ++ join ", " (filter (notInReference validEvents) events)
                    ++ ". Valid events are: " ++ join ", " validEvents)), c')
      /\ filter (notInReference validEvents) events <> []
      /\ (forall e, In e (filter (notInReference validEvents) events)
                    <-> In e events /\ ~ In e validEvents)).
Proof.
  intros Hg; unfold validateWebhookEvents, bind; rewrite Hg.
  rewrite (filter_ext _ _ (notInReference_includes validEvents)).
  split.
  - intros H; apply invalidEvents_nil in H; rewrite H; reflexivity.
  - intros H.
    destruct (filter (fun event => negb (includes validEvents event)) events)
      as [| e rest] eqn:E.
    + contradiction H; apply invalidEvents_nil; exact E.
    + split; [reflexivity | split; [discriminate |]].
      intros x; rewrite <- E; apply invalidEvents_spec.
Qed.

(* ================================================================== *)
(** * Properties of the error boundaries *)


(** The [catch] block of the webhooks tool always throws an [MCPError],
    so a second pass changes nothing. *)
Lemma webhooksCatch_idempotent (error : thrown) :
  webhooksCatch (webhooksCatch error) = webhooksCatch error.
Proof. destruct error; reflexivity. Qed.

(** An [MCPError] thrown inside the [try] of a handler leaves it as it is. *)
Lemma try_catch_usersCatch {A : Type} (m : M (list ClientCall) A)
  (subcommandName : string) (calls calls' : list ClientCall)
  (code : ErrorCode) (text : string) :
  m calls = (Raised (MCPError code text), calls') ->
  try_catch m (fun error =>
                 rethrown <- lift (usersCatch subcommandName error) ;;
                 throw rethrown) calls
  = (Raised (MCPError code text), calls').
Proof. intros H; unfold try_catch; rewrite H; reflexivity. Qed.

(** C7.  An [MCPError] that reaches the [catch] block of a tool handler
    is thrown again as it is, with its kind and its message and without a
    second wrapping: in the users tool, in the webhooks tool, and in the
    teams and labels tools, whose [catch] hands the error to
    [wrapToolError]; so an [MCPError] raised inside the [try] of the users
    handler, or by the response check of a webhook operation, is the
    error the handler fails with. *)
Theorem boundaries_rethrow_MCPError (code : ErrorCode) (text : string)
  (subcommandName : string) (entityId : option value) :
  usersCatch subcommandName (MCPError code text) = Returned (MCPError code text)
  /\ webhooksCatch (MCPError code text) = MCPError code text
  /\ teamsCatch subcommandName entityId (MCPError code text) = MCPError code text
  /\ labelsCatch subcommandName entityId (MCPError code text) = MCPError code text
  /\ wrapToolError (wrapToolError (MCPError code text) "vikunja_teams"
                                  subcommandName entityId)
                   "vikunja_teams" subcommandName entityId
     = MCPError code text
  /\ (forall (authManager : AuthManager) (client : Client) (args : Args)
             (calls calls' : list ClientCall),
         isAuthenticated authManager = true ->
         getAuthType authManager = "jwt" ->
         getClientFromContext = Returned client ->
         usersSwitch client args (calls ++ [CallGetClientFromContext])%list
         = (Raised (MCPError code text), calls') ->
         usersTool authManager args calls = (Raised (MCPError code text), calls'))
  /\ (forall (failure : string) (response : Response ErrorData),
         checkWebhookResponse failure response = Raised (MCPError code text) ->
         webhookResponseBoundary failure response = Raised (MCPError code text)).
Proof.
  repeat match goal with |- _ /\ _ => split end; try reflexivity.
  - intros authManager client args calls calls' Ha Ht Hc Hs.
    unfold usersTool; rewrite Ha, Ht, Hc; cbn [negb String.eqb].
    unfold bind at 1, call at 1.
    apply try_catch_usersCatch; exact Hs.
  - intros failure response H.
    unfold webhookResponseBoundary; rewrite H; reflexivity.
Qed.

(* ================================================================== *)
(** * Properties of the users tool *)

(** C9.  When the session is authenticated and its type is not ['jwt'],
    the users tool throws an [MCPError] of kind [PERMISSION_DENIED],
    whatever the subcommand and the other arguments, and has called
    neither [getClientFromContext] nor a method of the API client. *)
Theorem usersTool_requires_jwt (authManager : AuthManager) (args : Args)
  (calls : list ClientCall) :
  isAuthenticated authManager = true ->
  getAuthType authManager <> "jwt" ->
  usersTool authManager args calls
  = (Raised (MCPError PERMISSION_DENIED
       "User operations require JWT authentication. Please reconnect using vikunja_auth.connect with JWT authentication."),
     calls).
Proof.
  intros Ha Ht; unfold usersTool; rewrite Ha; cbn [negb].
  apply String.eqb_neq in Ht; rewrite Ht; reflexivity.
Qed.

Lemma usersTool_jwt (authManager : AuthManager) (client : Client) (args : Args)
  (calls : list ClientCall) :
  isAuthenticated authManager = true ->
  getAuthType authManager = "jwt" ->
  getClientFromContext = Returned client ->
  usersTool authManager args calls
  = try_catch (usersSwitch client args)
      (fun error =>
         rethrown <- lift (usersCatch (subcommandName (subcommand args)) error) ;;
         throw rethrown) (calls ++ [CallGetClientFromContext])%list.
Proof.
  intros Ha Ht Hc; unfold usersTool; rewrite Ha, Ht, Hc; reflexivity.
Qed.

(** The emptiness check of [update-settings]: no field counts as given. *)
Lemma updateSettings_rejected (authManager : AuthManager) (client : Client)
  (args : Args) (calls : list ClientCall) :
  isAuthenticated authManager = true ->
  getAuthType authManager = "jwt" ->
  getClientFromContext = Returned client ->
  subcommand args = SubUpdateSettings ->
  noSettingField args = true ->
  usersTool authManager args calls
  = (Raised (MCPError VALIDATION_ERROR "At least one setting field is required"),
     (calls ++ [CallGetClientFromContext])%list).
Proof.
  intros Ha Ht Hc Hs Hn; rewrite (usersTool_jwt _ _ _ _ Ha Ht Hc).
  apply try_catch_usersCatch.
  unfold usersSwitch; rewrite Hs, Hn; reflexivity.
Qed.

(** Closes a goal [exists result rest, (r, calls') = (result, calls ++ c1
    :: c2 :: rest)] once the run has been reduced to a pair. *)
Ltac show_calls :=
  do 2 eexists; repeat rewrite <- app_assoc; cbn [app]; reflexivity.

(** The emptiness check passed: the settings go to the API client. *)
Lemma updateSettings_forwarded (authManager : AuthManager) (client : Client)
  (args : Args) (calls : list ClientCall) :
  isAuthenticated authManager = true ->
  getAuthType authManager = "jwt" ->
  getClientFromContext = Returned client ->
  subcommand args = SubUpdateSettings ->
  noSettingField args = false ->
  exists (result : outcome StandardResponse) (rest : list ClientCall),
    usersTool authManager args calls
    = (result,
       (calls ++ CallGetClientFromContext
              :: CallUpdateGeneralSettings (settingsOfArgs args) :: rest)%list).
Proof.
  intros Ha Ht Hc Hs Hn; rewrite (usersTool_jwt _ _ _ _ Ha Ht Hc).
  unfold try_catch, usersSwitch; rewrite Hs, Hn.
  unfold bind, call, lift, ret, throw.
  destruct (updateGeneralSettings client (settingsOfArgs args)) as [[] | t1].
  - destruct (getUser client) as [raw | t2].
    + destruct (transformUser raw) as [u | t3].
      * show_calls.
      * destruct (usersCatch (subcommandName SubUpdateSettings) t3); show_calls.
    + destruct (usersCatch (subcommandName SubUpdateSettings) t2); show_calls.
  - destruct (usersCatch (subcommandName SubUpdateSettings) t1); show_calls.
Qed.

Lemma falsyString_spec (s : option string) :
  falsyString s = true <-> s = None \/ s = Some "".
Proof.
  destruct s as [text |]; cbn; [| tauto].
  rewrite String.eqb_eq; split.
  - intros ->; right; reflexivity.
  - intros [H | H]; [discriminate H | injection H as ->; reflexivity].
Qed.

Lemma isUndefined_spec {A : Type} (x : option A) :
  isUndefined x = true <-> x = None.
Proof. destruct x; cbn; split; intros H; try discriminate H; reflexivity. Qed.

(** C10 (as amended).  In [update-settings], with a JWT session: a call
    whose only supplied field is [name], [language] or [timezone] with the
    empty string fails with the [VALIDATION_ERROR] "At least one setting
    field is required" before the API client is given anything; a call
    whose only supplied field is [weekStart = 0],
    [emailRemindersEnabled = false], [overdueTasksRemindersEnabled =
    false] or [overdueTasksRemindersTime = ""] passes the check and the
    field is forwarded to [updateGeneralSettings].  The check reads
    [name], [language], [timezone] and [frontendSettings] by truthiness
    and the four other fields by comparison with [undefined]. *)
Theorem updateSettings_presence_vs_truthiness (authManager : AuthManager)
  (client : Client) (calls : list ClientCall) :
  isAuthenticated authManager = true ->
  getAuthType authManager = "jwt" ->
  getClientFromContext = Returned client ->
  (forall args : Args,
      args = updateSettingsArgs (Some "") None None None None None None None
      \/ args = updateSettingsArgs None (Some "") None None None None None None
      \/ args = updateSettingsArgs None None (Some "") None None None None None ->
      usersTool authManager args calls
      = (Raised (MCPError VALIDATION_ERROR "At least one setting field is required"),
         (calls ++ [CallGetClientFromContext])%list))
  /\ (forall args : Args,
      args = updateSettingsArgs None None None (Some 0%float) None None None None
      \/ args = updateSettingsArgs None None None None None (Some false) None None
      \/ args = updateSettingsArgs None None None None None None (Some false) None
      \/ args = updateSettingsArgs None None None None None None None (Some "") ->
      exists (result : outcome StandardResponse) (rest : list ClientCall),
        usersTool authManager args calls
        = (result,
           (calls ++ CallGetClientFromContext
                  :: CallUpdateGeneralSettings (settingsOfArgs args) :: rest)%list))
  /\ (forall args : Args,
      noSettingField args = true
      <-> (argName args = None \/ argName args = Some "")
          /\ (argLanguage args = None \/ argLanguage args = Some "")
          /\ (argTimezone args = None \/ argTimezone args = Some "")
          /\ weekStart args = None
          /\ frontendSettings args = None
          /\ emailRemindersEnabled args = None
          /\ overdueTasksRemindersEnabled args = None
          /\ overdueTasksRemindersTime args = None).
Proof.
  intros Ha Ht Hc; split; [| split].
  - intros args [-> | [-> | ->]];
      apply (updateSettings_rejected _ client); auto.
  - intros args [-> | [-> | [-> | ->]]];
      apply (updateSettings_forwarded _ client); auto.
  - intros args; unfold noSettingField.
    repeat rewrite andb_true_iff.
    repeat rewrite falsyString_spec.
    repeat rewrite isUndefined_spec.
    tauto.
Qed.

(* ================================================================== *)
(** * Further properties of the sanitizer *)

(** Induction on a value, with the elements of an array. *)
Lemma value_nested_ind (P : value -> Prop) :
  P VUndefined -> P VNull -> (forall b, P (VBool b)) -> (forall n, P (VNum n)) ->
  (forall s, P (VStr s)) ->
  (forall elems, Forall P elems -> P (VArr elems)) ->
  (forall props, P (VObj props)) ->
  forall v, P v.
Proof.
  intros Hu Hn Hb Hnum Hs Ha Ho.
  fix IH 1.
  intros [| | b | n | s | elems | props];
    [exact Hu | exact Hn | apply Hb | apply Hnum | apply Hs | apply Ha | apply Ho].
  induction elems as [| e rest IHrest]; constructor; [apply IH | exact IHrest].
Qed.

Lemma ToString_array (elems : list value) :
  ToString (VArr elems)
  = (let* parts := elementStrings elems in Returned (join "," parts)).
Proof. reflexivity. Qed.

(** [ToString] throws exactly on the values that hold an object with an
    own [toString], and then the [TypeError] of [OrdinaryToPrimitive]. *)
Lemma ToString_convertible (v : value) :
  (convertible v = true -> exists s, ToString v = Returned s)
  /\ (convertible v = false -> ToString v = Raised TypeError_ToPrimitive).
Proof.
  induction v as [| | b | n | s | elems IH | props] using value_nested_ind;
    try (split; [intros _; eexists; reflexivity | intros H; discriminate H]).
  - rewrite ToString_array.
    assert (He : (forallb convertible elems = true ->
                  exists ss, elementStrings elems = Returned ss)
                 /\ (forallb convertible elems = false ->
                     elementStrings elems = Raised TypeError_ToPrimitive)).
    { induction elems as [| e rest IHrest].
      - split; [intros _; eexists; reflexivity | intros H; discriminate H].
      - apply Forall_cons_iff in IH as [[He1 He2] Hrest].
        destruct (IHrest Hrest) as [Hr1 Hr2].
        cbn [forallb elementStrings].
        destruct (convertible e) eqn:Ec; cbn [andb].
        + destruct (He1 eq_refl) as [s Hs].
          assert (Hs' : match e with
                        | VUndefined | VNull => Returned ""
                        | _ => ToString e
                        end = Returned (match e with
                                        | VUndefined | VNull => ""
                                        | _ => s
                                        end)).
          { destruct e; try exact Hs; reflexivity. }
          rewrite Hs'; cbn [bindO]; split.
          * intros H; destruct (Hr1 H) as [ss Hss]; rewrite Hss.
            eexists; reflexivity.
          * intros H; rewrite (Hr2 H); reflexivity.
        + split; [intros H; discriminate H | intros _].
          specialize (He2 eq_refl).
          destruct e; try discriminate Ec; rewrite He2; reflexivity. }
    cbn [convertible]; destruct He as [H1 H2]; split.
    + intros H; destruct (H1 H) as [ss Hss]; rewrite Hss; eexists; reflexivity.
    + intros H; rewrite (H2 H); reflexivity.
  - cbn [convertible ToString].
    destruct (hasOwnProperty props "toString"); cbn [negb]; split;
      intros H; try discriminate H; first [eexists; reflexivity | reflexivity].
Qed.

Lemma ToNumber_convertible (v : value) :
  (convertible v = true -> exists n, ToNumber v = Returned n)
  /\ (convertible v = false -> ToNumber v = Raised TypeError_ToPrimitive).
Proof.
  destruct (ToString_convertible v) as [H1 H2].
  destruct v; try (split; [intros _; eexists; reflexivity | intros H; discriminate H]);
    (split; intros H; unfold ToNumber;
     [destruct (H1 H) as [s Hs]; rewrite Hs; eexists; reflexivity
     | rewrite (H2 H); reflexivity]).
Qed.

Lemma optionalNumber_convertible (v : value) :
  (convertible v = true -> exists ws, optionalNumber v = Returned ws)
  /\ (convertible v = false -> optionalNumber v = Raised TypeError_ToPrimitive).
Proof.
  destruct (ToNumber_convertible v) as [H1 H2].
  destruct v; try (split; [intros _; eexists; reflexivity | intros H; discriminate H]);
    (split; intros H; unfold optionalNumber;
     [destruct (H1 H) as [s Hs]; rewrite Hs; eexists; reflexivity
     | rewrite (H2 H); reflexivity]).
Qed.

(** X1.  [transformUser] returns a record exactly for the objects whose
    [id] and [week_start] hold no object with an own [toString]
    property, at any depth of arrays; every primitive [id] and
    [week_start] qualifies. *)
Theorem transformUser_returns_iff (rawUser : value) :
  (exists u : User, transformUser rawUser = Returned u)
  <-> isUserObject rawUser = true
      /\ convertible (prop rawUser "id") = true
      /\ convertible (prop rawUser "week_start") = true.
Proof.
  unfold transformUser, numberOrZero.
  destruct (isUserObject rawUser); cbn [negb];
    [| split; [intros [u H]; discriminate H | intros [H _]; discriminate H]].
  destruct (ToNumber_convertible (prop rawUser "id")) as [Hi1 Hi2].
  destruct (optionalNumber_convertible (prop rawUser "week_start")) as [Hw1 Hw2].
  destruct (convertible (prop rawUser "id")).
  - destruct (Hi1 eq_refl) as [n Hn]; rewrite Hn; cbn [bindO].
    destruct (convertible (prop rawUser "week_start")).
    + destruct (Hw1 eq_refl) as [ws Hws]; rewrite Hws; cbn [bindO].
      split; [auto | intros _; eexists; reflexivity].
    + rewrite (Hw2 eq_refl); cbn [bindO].
      split; [intros [u H]; discriminate H | intros (_ & _ & H); discriminate H].
  - rewrite (Hi2 eq_refl); cbn [bindO].
    split; [intros [u H]; discriminate H | intros (_ & H & _); discriminate H].
Qed.

(** X2.  [transformUser] throws nothing but the [Error] "Invalid user
    data received", on a value that is not a plain object, and the
    [TypeError] of a failed number conversion, on an object; it never
    throws an [MCPError]. *)
Theorem transformUser_failures (rawUser : value) (t : thrown) :
  transformUser rawUser = Raised t ->
  instanceof_MCPError t = false
  /\ ((isUserObject rawUser = false
       /\ t = ThrownError "Invalid user data received")
      \/ (isUserObject rawUser = true
          /\ t = TypeError_ToPrimitive
          /\ (convertible (prop rawUser "id") = false
              \/ convertible (prop rawUser "week_start") = false))).
Proof.
  unfold transformUser, numberOrZero.
  destruct (isUserObject rawUser); cbn [negb].
  - destruct (ToNumber_convertible (prop rawUser "id")) as [Hi1 Hi2].
    destruct (optionalNumber_convertible (prop rawUser "week_start")) as [Hw1 Hw2].
    destruct (convertible (prop rawUser "id")).
    + destruct (Hi1 eq_refl) as [n Hn]; rewrite Hn; cbn [bindO].
      destruct (convertible (prop rawUser "week_start")).
      * destruct (Hw1 eq_refl) as [ws Hws]; rewrite Hws; cbn [bindO].
        intros H; discriminate H.
      * rewrite (Hw2 eq_refl); cbn [bindO].
        intros H; injection H as <-; split; [reflexivity | right; auto].
    + rewrite (Hi2 eq_refl); cbn [bindO].
      intros H; injection H as <-; split; [reflexivity | right; auto].
  - intros H; injection H as <-; split; [reflexivity | left; auto].
Qed.

Lemma optionalString_keeps (source : value) :
  keepsTruthyString source (optionalString source).
Proof.
  unfold keepsTruthyString, optionalString; split.
  - destruct (ToBoolean source); split; intros H; try discriminate H; reflexivity.
  - intros s -> Hs; cbn.
    apply String.eqb_neq in Hs; rewrite Hs; reflexivity.
Qed.

(** X3.  In every record that [transformUser] returns, each of [email],
    [name], [created], [updated], [language] and [timezone] is absent
    exactly when the source value is falsy ([undefined], [null], [""],
    [0], [NaN], [false]), and a non-empty source string is kept
    unchanged. *)
Theorem transformUser_optional_strings (props : list (string * value)) (u : User) :
  transformUser (VObj props) = Returned u ->
  keepsTruthyString (get props "email") (email u)
  /\ keepsTruthyString (get props "name") (name u)
  /\ keepsTruthyString (get props "created") (created u)
  /\ keepsTruthyString (get props "updated") (updated u)
  /\ keepsTruthyString (get props "language") (language u)
  /\ keepsTruthyString (get props "timezone") (timezone u).
Proof.
  intros H; unfold transformUser in H; cbn [isUserObject negb prop] in H.
  apply bindO_Returned in H as (i & _ & H).
  apply bindO_Returned in H as (ws & _ & H).
  injection H as <-; cbn.
  repeat split; try apply optionalString_keeps;
    apply (proj2 (optionalString_keeps _)).
Qed.

Lemma frontend_settings_object (props : list (string * value)) (u : User) :
  transformUser (VObj props) = Returned u ->
  isPrimitive (frontend_settings u) = false.
Proof.
  intros H; unfold transformUser in H; cbn [isUserObject negb prop] in H.
  apply bindO_Returned in H as (i & _ & H).
  apply bindO_Returned in H as (ws & _ & H).
  injection H as <-; cbn [frontend_settings].
  destruct (get props "frontend_settings") as [| | b | n | s | l | ps];
    cbn [ToBoolean typeof_object isPrimitive]; rewrite ?andb_false_r; reflexivity.
Qed.

(** X4.  In every record that [transformUser] returns,
    [frontend_settings] is an object or an array, never [null] or a
    primitive: the source value when that is an object or an array, the
    empty object otherwise. *)
Theorem transformUser_frontend_settings (props : list (string * value)) (u : User) :
  transformUser (VObj props) = Returned u ->
  isPrimitive (frontend_settings u) = false
  /\ (isPrimitive (get props "frontend_settings") = false ->
      frontend_settings u = get props "frontend_settings")
  /\ (isPrimitive (get props "frontend_settings") = true ->
      frontend_settings u = VObj []).
Proof.
  intros H; unfold transformUser in H; cbn [isUserObject negb prop] in H.
  apply bindO_Returned in H as (i & _ & H).
  apply bindO_Returned in H as (ws & _ & H).
  injection H as <-; cbn [frontend_settings].
  destruct (get props "frontend_settings") as [| | b | n | s | l | ps];
    cbn [ToBoolean typeof_object isPrimitive]; rewrite ?andb_false_r; cbn;
    repeat split; try reflexivity; intros H; discriminate H.
Qed.

(* ================================================================== *)
(** * Further properties of the event cache *)

(** A read always returns a list. *)
Lemma getValidEvents_never_raises_aux (authManager : AuthManager) (now : Z)
  (c : EventCache) :
  exists (events : list string) (c' : EventCache),
    getValidEvents authManager now c = (Returned events, c').
Proof.
  destruct (cacheIsValid c now) eqn:Hv.
  - unfold cacheIsValid in Hv.
    destruct (cachedEvents c) as [events |] eqn:He; [| discriminate Hv].
    exists events, c; apply getValidEvents_fresh; [exact He |].
    unfold cacheIsValid; rewrite He; exact Hv.
  - rewrite (getValidEvents_refresh _ _ _ Hv).
    destruct (upstream_cases authManager) as [[events Hu] | [Hu | Hu]].
    + rewrite (fetchFreshEvents_success _ now c _ Hu); do 2 eexists; reflexivity.
    + rewrite (fetchFreshEvents_notAvailable _ now c Hu); do 2 eexists; reflexivity.
    + rewrite (fetchFreshEvents_failure _ now c Hu).
      destruct (cachedEvents c); do 2 eexists; reflexivity.
Qed.

Lemma expire_then_read (authManager : AuthManager) (now : Z) (c : EventCache) :
  (0 <= now)%Z ->
  (expireWebhookEventCache ;;; getValidEvents authManager now) c
  = fetchFreshEvents authManager now
      {| cachedEvents := cachedEvents c; cacheExpiry := Some 0%Z |}.
Proof.
  intros Hn; unfold bind, expireWebhookEventCache, read, write, bind.
  apply getValidEvents_refresh.
  unfold cacheIsValid; cbn.
  destruct (cachedEvents c); [apply Z.ltb_ge; exact Hn | reflexivity].
Qed.

(** X5.  After [expireWebhookEventCache], at any time not before the
    epoch, a read asks the upstream again: a successful fetch replaces
    the list and sets a fresh expiry, and a failed fetch returns the list
    that was cached, which the expiry operation has kept. *)
Theorem expire_then_getValidEvents (authManager : AuthManager) (now : Z)
  (c : EventCache) (events : list string) :
  (0 <= now)%Z ->
  cachedEvents c = Some events ->
  (forall fresh : list string,
      fetchSucceeds authManager fresh ->
      (expireWebhookEventCache ;;; getValidEvents authManager now) c
      = (Returned fresh,
         {| cachedEvents := Some fresh;
            cacheExpiry := Some (now + 300000)%Z |}))
  /\ (fetchFails authManager ->
      (expireWebhookEventCache ;;; getValidEvents authManager now) c
      = (Returned events,
         {| cachedEvents := Some events; cacheExpiry := Some 0%Z |})).
Proof.
  intros Hn He; rewrite (expire_then_read _ _ _ Hn), He; split.
  - intros fresh Hf; apply fetchFreshEvents_success; exact Hf.
  - intros Hf; rewrite (fetchFreshEvents_failure _ _ _ Hf); reflexivity.
Qed.

(** X6.  After [clearWebhookEventCache] nothing of the old entry is
    served: the next read returns what the upstream sends, and when the
    fetch fails or answers 401, 403 or 404 it returns the default list,
    whatever was cached before. *)
Theorem clear_then_getValidEvents (authManager : AuthManager) (now : Z)
  (c : EventCache) :
  (forall fresh : list string,
      fetchSucceeds authManager fresh ->
      (clearWebhookEventCache ;;; getValidEvents authManager now) c
      = (Returned fresh,
         {| cachedEvents := Some fresh;
            cacheExpiry := Some (now + 300000)%Z |}))
  /\ (fetchFails authManager \/ respondsNotAvailable authManager ->
      (clearWebhookEventCache ;;; getValidEvents authManager now) c
      = (Returned defaultWebhookEvents, defaultCache now)).
Proof.
  assert (Hc : (clearWebhookEventCache ;;; getValidEvents authManager now) c
               = fetchFreshEvents authManager now
                   {| cachedEvents := None; cacheExpiry := None |}).
  { unfold bind, clearWebhookEventCache, write.
    apply getValidEvents_refresh; reflexivity. }
  rewrite Hc; split.
  - intros fresh Hf; apply fetchFreshEvents_success; exact Hf.
  - intros [Hf | Hf].
    + rewrite (fetchFreshEvents_failure _ _ _ Hf); reflexivity.
    + apply fetchFreshEvents_notAvailable; exact Hf.
Qed.

(** X7.  In every state that the cache operations can produce, a cached
    list comes with an expiry date: the test [cachedEvents && cacheExpiry]
    never fails on the expiry alone. *)
Theorem reachable_events_have_expiry (c : EventCache) :
  reachable c ->
  forall events : list string,
    cachedEvents c = Some events -> exists expiry : Z, cacheExpiry c = Some expiry.
Proof.
  induction 1 as [| c Hc IH | c Hc IH | c authManager now Hc IH]; intros events He.
  - discriminate He.
  - discriminate He.
  - exists 0%Z; reflexivity.
  - destruct (cacheIsValid c now) eqn:Hv.
    + unfold cacheIsValid in Hv.
      destruct (cachedEvents c) as [old |] eqn:Hold; [| discriminate Hv].
      rewrite (getValidEvents_fresh _ _ _ old Hold) in He |- *;
        [| unfold cacheIsValid; rewrite Hold; exact Hv
         | unfold cacheIsValid; rewrite Hold; exact Hv].
      cbn [snd] in *; apply (IH old eq_refl).
    + rewrite (getValidEvents_refresh _ _ _ Hv) in He |- *.
      destruct (upstream_cases authManager) as [[fresh Hu] | [Hu | Hu]].
      * rewrite (fetchFreshEvents_success _ now c _ Hu); eexists; reflexivity.
      * rewrite (fetchFreshEvents_notAvailable _ now c Hu); eexists; reflexivity.
      * rewrite (fetchFreshEvents_failure _ now c Hu) in He |- *.
        destruct (cachedEvents c) as [old |] eqn:Hold.
        -- cbn [snd] in *; apply (IH old eq_refl).
        -- eexists; reflexivity.
Qed.

(** X8.  [validateWebhookEvents] leaves the cache as [getValidEvents]
    leaves it, and either returns or throws an [MCPError] of kind
    [VALIDATION_ERROR]: a failure of the session provider or of the
    upstream never comes out of the validation. *)
Theorem validateWebhookEvents_outcomes (authManager : AuthManager) (now : Z)
  (events : list string) (c : EventCache) :
  snd (validateWebhookEvents authManager now events c)
  = snd (getValidEvents authManager now c)
  /\ (fst (validateWebhookEvents authManager now events c) = Returned tt
      \/ exists text : string,
          fst (validateWebhookEvents authManager now events c)
          = Raised (MCPError VALIDATION_ERROR text)).
Proof.
  destruct (getValidEvents_never_raises_aux authManager now c)
    as (validEvents & c' & Hg).
  unfold validateWebhookEvents, bind; rewrite Hg; cbn [snd].
  destruct (0 <? length _)%nat; cbn; split; try reflexivity;
    [right; eexists; reflexivity | left; reflexivity].
Qed.

(* ================================================================== *)
(** * Further properties of the users tool *)

(** Splits a run of the handler on every call result it inspects. *)
Ltac split_run :=
  repeat match goal with
         | |- context [match ?x with _ => _ end] =>
             lazymatch x with
             | context [match _ with _ => _ end] => fail
             | _ => destruct x eqn:?
             end
         end.

(** Finds the calls that a finished run has added to the trace. *)
Ltac added_calls :=
  first [ exists []; split; [symmetry; apply app_nil_r |]
        | eexists; split; [repeat rewrite <- app_assoc; cbn [app]; reflexivity |] ].

(** X9.  Whatever the session, the arguments and the answers of the API
    client, the users tool makes at most three client calls, and it calls
    [updateGeneralSettings] only in the [update-settings] subcommand,
    only after the emptiness check has passed, and with the settings built
    from the arguments: [current], [search] and [settings] never
    write. *)
Theorem usersTool_calls (authManager : AuthManager) (args : Args)
  (calls : list ClientCall) :
  exists added : list ClientCall,
    snd (usersTool authManager args calls) = (calls ++ added)%list
    /\ (length added <= 3)%nat
    /\ (forall settings : ExtendedUserSettings,
           In (CallUpdateGeneralSettings settings) added ->
           subcommand args = SubUpdateSettings
           /\ noSettingField args = false
           /\ settings = settingsOfArgs args).
Proof.
  unfold usersTool, usersSwitch, try_catch, bind, call, lift, ret, throw.
  split_run; cbn [snd]; added_calls; cbn [length In];
    (split; [lia |]); intros settings Hin;
    repeat destruct Hin as [Hin | Hin]; try discriminate Hin; try contradiction;
    injection Hin as <-; auto.
Qed.

Lemma mapTransformUser_length (users : list value) (transformed : list User) :
  mapTransformUser users = Returned transformed ->
  length transformed = length users.
Proof.
  revert transformed; induction users as [| raw rest IH]; intros transformed H.
  - injection H as <-; reflexivity.
  - cbn [mapTransformUser] in H.
    apply bindO_Returned in H as (u & _ & H).
    apply bindO_Returned in H as (us & Hus & H).
    injection H as <-; cbn [length]; rewrite (IH us Hus); reflexivity.
Qed.

(** X10.  When the [search] subcommand succeeds, it has asked the client
    once, with the three search arguments as they were supplied (an
    empty search string included), and the count of its metadata and of
    its summary is the number of users in its data. *)
Theorem usersTool_search (authManager : AuthManager) (args : Args)
  (calls calls' : list ClientCall) (response : StandardResponse) :
  subcommand args = SubSearch ->
  usersTool authManager args calls = (Returned response, calls') ->
  exists users : list User,
    data response = DataUsers users
    /\ metadata response
       = SearchMetadata (length users)
           {| meta_search := search args; meta_page := page args;
              meta_perPage := perPage args |}
    /\ summary response = "Found " ++ String_of_nat (length users) ++ " users"
    /\ calls'
       = (calls ++ [ CallGetClientFromContext;
                     CallGetUsers {| params_page := page args;
                                     params_per_page := perPage args;
                                     params_s := search args |} ])%list.
Proof.
  intros Hs; unfold usersTool, usersSwitch, try_catch, bind, call, lift, ret, throw.
  rewrite Hs.
  destruct (isAuthenticated authManager); cbn [negb]; [| intros H; discriminate H].
  destruct (String.eqb (getAuthType authManager) "jwt"); cbn [negb];
    [| intros H; discriminate H].
  destruct getClientFromContext as [client | t]; [| intros H; discriminate H].
  destruct (getUsers client _) as [users | t].
  - destruct (mapTransformUser users) as [transformed | t] eqn:Hm.
    + intros H; injection H as <- <-; exists transformed; cbn.
      rewrite (mapTransformUser_length _ _ Hm), <- app_assoc.
      repeat split.
    + destruct (usersCatch _ t); intros H; discriminate H.
  - destruct (usersCatch _ t); intros H; discriminate H.
Qed.

Lemma truthyString_not_empty (s : option string) : truthyString s <> Some "".
Proof.
  unfold truthyString; destruct s as [text |]; cbn; [| discriminate].
  destruct (String.eqb text "") eqn:E; [discriminate |].
  intros H; injection H as ->; discriminate E.
Qed.

(** X11.  When the [settings] subcommand succeeds, the settings it
    returns hold no empty string for [email], [name], [language] and
    [timezone], an object or array for [frontendSettings], an [id] that is
    not [NaN], and never an [overdueTasksRemindersTime], whatever the
    upstream user holds. *)
Theorem usersTool_settings (authManager : AuthManager) (args : Args)
  (calls calls' : list ClientCall) (response : StandardResponse) :
  subcommand args = SubSettings ->
  usersTool authManager args calls = (Returned response, calls') ->
  exists view : SettingsView,
    data response = DataSettings view
    /\ view_email view <> Some ""
    /\ view_name view <> Some ""
    /\ view_language view <> Some ""
    /\ view_timezone view <> Some ""
    /\ isPrimitive (view_frontendSettings view) = false
    /\ PrimFloat.is_nan (view_id view) = false
    /\ view_overdueTasksRemindersTime view = None.
Proof.
  intros Hs; unfold usersTool, usersSwitch, try_catch, bind, call, lift, ret, throw.
  rewrite Hs.
  destruct (isAuthenticated authManager); cbn [negb]; [| intros H; discriminate H].
  destruct (String.eqb (getAuthType authManager) "jwt"); cbn [negb];
    [| intros H; discriminate H].
  destruct getClientFromContext as [client | t]; [| intros H; discriminate H].
  destruct (getUser client) as [raw | t].
  - destruct (transformUser raw) as [user | t] eqn:Ht.
    + intros H; injection H as <- _; eexists; split; [reflexivity |].
      cbn [view_email view_name view_language view_timezone view_frontendSettings
           view_id view_overdueTasksRemindersTime settingsViewOfUser].
      repeat split; try apply truthyString_not_empty.
      * destruct raw; try discriminate Ht.
        pose proof (frontend_settings_object _ _ Ht) as Hp.
        destruct (frontend_settings user); try discriminate Hp; reflexivity.
      * destruct raw; try discriminate Ht.
        unfold transformUser in Ht; cbn [isUserObject negb] in Ht.
        apply bindO_Returned in Ht as (i & Hi & Ht).
        apply bindO_Returned in Ht as (ws & _ & Ht).
        injection Ht as <-; cbn [id].
        apply (numberOrZero_not_NaN _ _ Hi).
    + destruct (usersCatch _ t); intros H; discriminate H.
  - destruct (usersCatch _ t); intros H; discriminate H.
Qed.

Lemma pushIfDefined_In {A : Type} (x : option A) (key other : string) :
  In other (pushIfDefined x key) <-> other = key /\ x <> None.
Proof.
  destruct x; cbn; split.
  - intros [<- | []]; split; [reflexivity | discriminate].
  - intros [-> _]; left; reflexivity.
  - intros [].
  - intros [_ H]; contradiction H; reflexivity.
Qed.

Lemma affectedFields_In (args : Args) (key : string) :
  In key (affectedFieldsOfArgs args)
  <-> (key = "name" /\ argName args <> None)
      \/ (key = "language" /\ argLanguage args <> None)
      \/ (key = "timezone" /\ argTimezone args <> None)
      \/ (key = "weekStart" /\ weekStart args <> None)
      \/ (key = "frontendSettings" /\ frontendSettings args <> None)
      \/ (key = "emailRemindersEnabled" /\ emailRemindersEnabled args <> None)
      \/ (key = "overdueTasksRemindersEnabled"
          /\ overdueTasksRemindersEnabled args <> None)
      \/ (key = "overdueTasksRemindersTime"
          /\ overdueTasksRemindersTime args <> None).
Proof.
  unfold affectedFieldsOfArgs.
  repeat rewrite in_app_iff; repeat rewrite pushIfDefined_In; reflexivity.
Qed.

(** X12.  When [update-settings] succeeds, the [affectedFields] of its
    metadata is not empty and names exactly the setting fields that were
    supplied, a field supplied as the empty string included. *)
Theorem usersTool_affectedFields (authManager : AuthManager) (args : Args)
  (calls calls' : list ClientCall) (response : StandardResponse) :
  subcommand args = SubUpdateSettings ->
  usersTool authManager args calls = (Returned response, calls') ->
  exists fields : list string,
    metadata response = AffectedFields fields
    /\ fields <> []
    /\ (In "name" fields <-> argName args <> None)
    /\ (In "language" fields <-> argLanguage args <> None)
    /\ (In "timezone" fields <-> argTimezone args <> None)
    /\ (In "weekStart" fields <-> weekStart args <> None)
    /\ (In "frontendSettings" fields <-> frontendSettings args <> None)
    /\ (In "emailRemindersEnabled" fields <-> emailRemindersEnabled args <> None)
    /\ (In "overdueTasksRemindersEnabled" fields
        <-> overdueTasksRemindersEnabled args <> None)
    /\ (In "overdueTasksRemindersTime" fields
        <-> overdueTasksRemindersTime args <> None).
Proof.
  intros Hs; unfold usersTool, usersSwitch, try_catch, bind, call, lift, ret, throw.
  rewrite Hs.
  destruct (isAuthenticated authManager); cbn [negb]; [| intros H; discriminate H].
  destruct (String.eqb (getAuthType authManager) "jwt"); cbn [negb];
    [| intros H; discriminate H].
  destruct getClientFromContext as [client | t]; [| intros H; discriminate H].
  destruct (noSettingField args) eqn:Hn; [intros H; discriminate H |].
  destruct (updateGeneralSettings client _) as [[] | t];
    [| destruct (usersCatch _ t); intros H; discriminate H].
  destruct (getUser client) as [raw | t];
    [| destruct (usersCatch _ t); intros H; discriminate H].
  destruct (transformUser raw) as [user | t];
    [| destruct (usersCatch _ t); intros H; discriminate H].
  intros H; injection H as <- _; eexists; split; [reflexivity |].
  split.
  - intros Hnil.
    unfold noSettingField in Hn; unfold affectedFieldsOfArgs in Hnil.
    destruct (argName args), (argLanguage args), (argTimezone args),
      (weekStart args), (frontendSettings args), (emailRemindersEnabled args),
      (overdueTasksRemindersEnabled args), (overdueTasksRemindersTime args);
      cbn in Hnil; try discriminate Hnil.
    cbn in Hn; discriminate Hn.
  - repeat match goal with |- _ /\ _ => split end;
      rewrite affectedFields_In;
      (split;
       [ intros Hor; repeat destruct Hor as [Hor | Hor];
         destruct Hor as [E Hx]; first [discriminate E | exact Hx]
       | intros Hx; auto 20 ]).
Qed.

(* ================================================================== *)
(** * Properties of the webhooks tool *)



(** The handler once the session is authenticated and the client and the
    session have been obtained. *)
Lemma webhooksTool_ready (authManager : AuthManager) (now : Z)
  (args : WebhookArgs) (store : WebhookStore) (client : Client)
  (session : Session) :
  isAuthenticated authManager = true ->
  getClientFromContext = Returned client ->
  getSession authManager = Returned session ->
  webhooksTool authManager now args store
  = try_catch (webhooksSwitch authManager session now args)
              (fun error => throw (webhooksCatch error)) store.
Proof.
  intros Ha Hc Hs; unfold webhooksTool, bind, lift.
  rewrite Ha, Hc, Hs; reflexivity.
Qed.

(** A candidate outside the reference list makes the validation throw. *)
Lemma validateWebhookEvents_rejects (authManager : AuthManager) (now : Z)
  (c c' : EventCache) (events validEvents : list string) :
  getValidEvents authManager now c = (Returned validEvents, c') ->
  ~ Forall (fun e => In e validEvents) events ->
  exists text : string,
    validateWebhookEvents authManager now events c
    = (Raised (MCPError VALIDATION_ERROR text), c').
Proof.
  intros Hg Hbad; unfold validateWebhookEvents, bind; rewrite Hg.
  destruct (filter (fun event => negb (includes validEvents event)) events)
    as [| e rest] eqn:E.
  - contradiction Hbad; apply invalidEvents_nil; exact E.
  - eexists; reflexivity.
Qed.

Lemma validateWebhookEvents_accepts (authManager : AuthManager) (now : Z)
  (c c' : EventCache) (events validEvents : list string) :
  getValidEvents authManager now c = (Returned validEvents, c') ->
  Forall (fun e => In e validEvents) events ->
  validateWebhookEvents authManager now events c = (Returned tt, c').
Proof.
  intros Hg Hall; unfold validateWebhookEvents, bind; rewrite Hg.
  apply invalidEvents_nil in Hall; rewrite Hall; reflexivity.
Qed.

(** X14.  [create] checks its arguments before it sends anything: with a
    valid project identifier, a missing or empty [targetUrl], a missing or
    empty [events] and an event outside the reference list each fail with
    a [VALIDATION_ERROR], and no request has gone to the webhook
    endpoints. *)
Theorem webhookCreate_fails_fast (authManager : AuthManager) (now : Z)
  (args : WebhookArgs) (store : WebhookStore) (client : Client)
  (session : Session) (project : float) :
  isAuthenticated authManager = true ->
  getClientFromContext = Returned client ->
  getSession authManager = Returned session ->
  webhookSubcommand args = WebhookCreate ->
  validateAndConvertId (ofOptionalNumber (projectId args)) "projectId"
  = Returned project ->
  (falsyString (targetUrl args) = true ->
     webhooksTool authManager now args store
     = (Raised (MCPError VALIDATION_ERROR
                  "targetUrl is required for creating a webhook"), store))
  /\ (falsyString (targetUrl args) = false ->
      argEvents args = None \/ argEvents args = Some [] ->
      webhooksTool authManager now args store
      = (Raised (MCPError VALIDATION_ERROR
                   "At least one event is required for creating a webhook"),
         store))
  /\ (forall (events validEvents : list string) (c' : EventCache),
         falsyString (targetUrl args) = false ->
         argEvents args = Some events ->
         getValidEvents authManager now (fst store) = (Returned validEvents, c') ->
         ~ Forall (fun e => In e validEvents) events ->
         exists text : string,
           webhooksTool authManager now args store
           = (Raised (MCPError VALIDATION_ERROR text), (c', snd store))).
Proof.
  intros Ha Hc Hs Hsub Hp.
  rewrite (webhooksTool_ready _ _ _ _ _ _ Ha Hc Hs).
  unfold try_catch, webhooksSwitch; rewrite Hsub.
  unfold bind, lift, throw; rewrite Hp.
  destruct store as [c requests].
  split; [| split].
  - intros Ht; rewrite Ht; reflexivity.
  - intros Ht He; rewrite Ht.
    destruct He as [-> | ->]; reflexivity.
  - intros events validEvents c' Ht He Hg Hbad; rewrite Ht, He.
    cbn [fst snd] in *.
    destruct events as [| e rest];
      [contradiction Hbad; apply Forall_nil |].
    cbn [noEvents].
    destruct (validateWebhookEvents_rejects authManager now c c' (e :: rest)
                validEvents Hg Hbad) as [text Hv].
    cbv beta iota zeta.
    unfold onCache; cbn [fst snd]; rewrite Hv.
    eexists; reflexivity.
Qed.

(** X15.  [get] fetches the webhooks of the project and looks the
    identifier up in the list: when no webhook of the list has it, the
    tool fails with [NOT_FOUND] and a message naming the webhook and the
    project; when one has, the tool returns a webhook of the list with
    that identifier.  Either way one [GET] request was sent. *)
Theorem webhookGet_lookup (authManager : AuthManager) (now : Z)
  (args : WebhookArgs) (store : WebhookStore) (client : Client)
  (session : Session) (project hook : float) (response : WebhookResponse)
  (webhooks : list Webhook) :
  let sent := {| url := webhooksUrl session project; method := "GET";
                 headers := webhookHeaders session; body := None |} in
  isAuthenticated authManager = true ->
  getClientFromContext = Returned client ->
  getSession authManager = Returned session ->
  webhookSubcommand args = WebhookGet ->
  validateAndConvertId (ofOptionalNumber (projectId args)) "projectId"
  = Returned project ->
  validateAndConvertId (ofOptionalNumber (webhookId args)) "webhookId"
  = Returned hook ->
  fetchWebhookApi sent = Returned response ->
  ok (errorView response) = true ->
  webhooksJson response = Returned webhooks ->
  snd (webhooksTool authManager now args store)
  = (fst store, (snd store ++ [sent])%list)
  /\ ((forall w, In w webhooks -> PrimFloat.eqb (webhook_id w) hook = false) ->
      fst (webhooksTool authManager now args store)
      = Raised (MCPError NOT_FOUND
                  ("Webhook with ID " ++ NumberToString hook
                   ++ " not found in project " ++ NumberToString project)))
  /\ ((exists w, In w webhooks /\ PrimFloat.eqb (webhook_id w) hook = true) ->
      exists w : Webhook,
        In w webhooks
        /\ PrimFloat.eqb (webhook_id w) hook = true
        /\ fst (webhooksTool authManager now args store)
           = Returned {| aorpOperation := "get";
                         aorpMessage := "Retrieved webhook " ++ NumberToString hook
                                        ++ " for project " ++ NumberToString project;
                         aorpData := AorpWebhook w;
                         aorpCount := 1;
                         aorpAffectedFields := None |}).
Proof.
  intros sent Ha Hc Hs Hsub Hp Hh Hf Hok Hj.
  rewrite (webhooksTool_ready _ _ _ _ _ _ Ha Hc Hs).
  unfold try_catch, webhooksSwitch; rewrite Hsub.
  unfold bind, lift, throw, ret, request; rewrite Hp, Hh.
  fold sent; rewrite Hf.
  unfold checkWebhookResponse; rewrite Hok, Hj; cbn [negb].
  destruct (find (fun w => PrimFloat.eqb (webhook_id w) hook) webhooks)
    as [found |] eqn:E; cbn [fst snd].
  - apply find_some in E as [Hin Heq].
    split; [reflexivity | split].
    + intros Hnone; rewrite (Hnone found Hin) in Heq; discriminate Heq.
    + intros _; exists found; auto.
  - split; [reflexivity | split].
    + intros _; reflexivity.
    + intros (w & Hin & Heq).
      rewrite (find_none _ _ E w Hin) in Heq; discriminate Heq.
Qed.

(** X16.  Whatever happens, a call of the webhooks tool sends at most one
    request to the webhook endpoints of the project, with the method of
    its subcommand: [GET] for [list] and [get], [PUT] for [create],
    [POST] for [update], [DELETE] for [delete], and no request for
    [list-events]. *)
Theorem webhooksTool_requests (authManager : AuthManager) (now : Z)
  (args : WebhookArgs) (store : WebhookStore) :
  exists added : list Request,
    snd (snd (webhooksTool authManager now args store))
    = (snd store ++ added)%list
    /\ (length added <= 1)%nat
    /\ (forall r : Request,
           In r added ->
           webhookMethod (webhookSubcommand args) = Some (method r)).
Proof.
  unfold webhooksTool, webhooksSwitch, try_catch, bind, lift, throw, ret,
    request, onCache.
  destruct store as [c requests]; cbn [fst snd].
  destruct (webhookSubcommand args);
    split_run; cbn [fst snd]; added_calls; cbn [length In];
    (split; [lia |]); intros r Hin;
    repeat destruct Hin as [Hin | Hin]; try contradiction;
    subst r; reflexivity.
Qed.

(** X17.  [update] sends the events and nothing else: two calls that
    agree on the project, the webhook and the events do the same,
    whatever [targetUrl] and [secret] they carry. *)
Theorem webhookUpdate_ignores_other_fields (authManager : AuthManager)
  (now : Z) (args args' : WebhookArgs) (store : WebhookStore) :
  webhookSubcommand args = WebhookUpdate ->
  webhookSubcommand args' = WebhookUpdate ->
  projectId args = projectId args' ->
  webhookId args = webhookId args' ->
  argEvents args = argEvents args' ->
  webhooksTool authManager now args store
  = webhooksTool authManager now args' store.
Proof.
  intros H1 H2 Hp Hw He.
  unfold webhooksTool, webhooksSwitch.
  rewrite H1, H2, Hp, Hw, He; reflexivity.
Qed.

(** X18.  [list-events] cannot fail once the session is authenticated and
    the client and the session are obtained: whatever the upstream does,
    it returns the list of [getValidEvents] with its length as count, and
    sends nothing to the webhook endpoints. *)
Theorem webhookListEvents_returns (authManager : AuthManager) (now : Z)
  (args : WebhookArgs) (store : WebhookStore) (client : Client)
  (session : Session) :
  isAuthenticated authManager = true ->
  getClientFromContext = Returned client ->
  getSession authManager = Returned session ->
  webhookSubcommand args = WebhookListEvents ->
  exists (events : list string) (c' : EventCache),
    getValidEvents authManager now (fst store) = (Returned events, c')
    /\ webhooksTool authManager now args store
       = (Returned {| aorpOperation := "list-events";
                      aorpMessage := "Retrieved " ++ String_of_nat (length events)
                                     ++ " available webhook events";
                      aorpData := AorpEvents events;
                      aorpCount := length events;
                      aorpAffectedFields := None |},
          (c', snd store)).
Proof.
  intros Ha Hc Hs Hsub.
  rewrite (webhooksTool_ready _ _ _ _ _ _ Ha Hc Hs).
  destruct (getValidEvents_never_raises_aux authManager now (fst store))
    as (events & c' & Hg).
  exists events, c'; split; [exact Hg |].
  unfold try_catch, webhooksSwitch; rewrite Hsub.
  unfold bind, onCache, ret; rewrite Hg; reflexivity.
Qed.

(* ================================================================== *)
(** * Properties of the labels tool *)

Lemma falsyString_false (s : option string) :
  falsyString s = false <-> suppliedNonEmpty s.
Proof.
  unfold suppliedNonEmpty; destruct s as [text |]; cbn.
  - rewrite String.eqb_neq; split.
    + intros H; exists text; auto.
    + intros (t' & H & Hne); injection H as ->; exact Hne.
  - split; [discriminate | intros (t' & H & _); discriminate H].
Qed.

Lemma truthyString_supplied (s : option string) :
  suppliedNonEmpty s -> truthyString s = s.
Proof.
  intros H; apply falsyString_false in H.
  unfold truthyString; rewrite H; reflexivity.
Qed.

Lemma truthyString_dropped (s : option string) :
  s = None \/ s = Some "" -> truthyString s = None.
Proof. intros [-> | ->]; reflexivity. Qed.

(** The handler once the session is authenticated and the client is
    obtained. *)
Lemma labelsTool_ready (authManager : AuthManager) (client : LabelsClient)
  (args : LabelArgs) (calls : list LabelCall) :
  isAuthenticated authManager = true ->
  getLabelsClient = Returned client ->
  labelsTool authManager args calls
  = try_catch (labelsSwitch client args)
      (fun error =>
         throw (labelsCatch (labelSubcommandName (labelSubcommand args))
                            (option_map VNum (labelId args)) error))
      (calls ++ [CallLabelsClient])%list.
Proof.
  intros Ha Hc; unfold labelsTool, bind, callLabels; rewrite Ha, Hc; reflexivity.
Qed.

(** X19.  [update] of the labels tool counts [title] and [hexColor] by
    truthiness and [description] by presence.  With a valid identifier, a
    call that supplies no description and no non-empty title or colour is
    refused before the client is asked; any call with a description, the
    empty one included, reaches [updateLabel], with the description as
    supplied and with an empty title or colour left out. *)
Theorem labelUpdate_presence_vs_truthiness (authManager : AuthManager)
  (client : LabelsClient) (args : LabelArgs) (calls : list LabelCall)
  (n converted : float) :
  isAuthenticated authManager = true ->
  getLabelsClient = Returned client ->
  labelSubcommand args = LabelUpdate ->
  labelId args = Some n ->
  validateAndConvertId (VNum n) "id" = Returned converted ->
  (~ suppliedNonEmpty (labelTitle args) ->
   labelDescription args = None ->
   ~ suppliedNonEmpty (labelHexColor args) ->
   labelsTool authManager args calls
   = (Raised (labelsCatch "update" (Some (VNum n))
                (MCPError VALIDATION_ERROR
                   "At least one field to update is required")),
      (calls ++ [CallLabelsClient])%list))
  /\ (forall description : string,
         labelDescription args = Some description ->
         exists (result : outcome (ToolResponse LabelsData LabelsMetadata))
                (updates : LabelData),
           labelsTool authManager args calls
           = (result,
              (calls ++ [CallLabelsClient; CallUpdateLabel n updates])%list)
           /\ data_description updates = Some description
           /\ data_title updates <> Some ""
           /\ data_hex_color updates <> Some "").
Proof.
  intros Ha Hc Hsub Hid Hv.
  rewrite (labelsTool_ready _ _ _ _ Ha Hc).
  unfold try_catch, labelsSwitch, requireLabelId; rewrite Hsub, Hid.
  unfold bind, lift, ret, throw, callLabels; rewrite Hv; cbn [option_map].
  split.
  - intros Ht Hd Hh; rewrite Hd.
    rewrite <- falsyString_false in Ht, Hh.
    apply not_false_is_true in Ht, Hh; rewrite Ht, Hh; reflexivity.
  - intros description Hd; rewrite Hd; cbn [isUndefined].
    rewrite andb_false_r, andb_false_l.
    destruct (updateLabel client n _) as [label | t] eqn:E;
      do 2 eexists; (split; [rewrite <- app_assoc; cbn [app]; reflexivity |]);
      cbn; repeat split; apply truthyString_not_empty.
Qed.

(** X20.  [create] of the labels tool needs a non-empty title: without
    one it fails with "Title is required" and the client is not asked;
    with one, [createLabel] gets the title, and a description or colour
    only when it is not empty. *)
Theorem labelCreate_payload (authManager : AuthManager)
  (client : LabelsClient) (args : LabelArgs) (calls : list LabelCall) :
  isAuthenticated authManager = true ->
  getLabelsClient = Returned client ->
  labelSubcommand args = LabelCreate ->
  (~ suppliedNonEmpty (labelTitle args) ->
   labelsTool authManager args calls
   = (Raised (labelsCatch "create" (option_map VNum (labelId args))
                (MCPError VALIDATION_ERROR "Title is required")),
      (calls ++ [CallLabelsClient])%list))
  /\ (suppliedNonEmpty (labelTitle args) ->
      exists (result : outcome (ToolResponse LabelsData LabelsMetadata))
             (labelData : LabelData),
        labelsTool authManager args calls
        = (result,
           (calls ++ [CallLabelsClient; CallCreateLabel labelData])%list)
        /\ data_title labelData = labelTitle args
        /\ data_description labelData <> Some ""
        /\ data_hex_color labelData <> Some ""
        /\ (suppliedNonEmpty (labelDescription args) ->
            data_description labelData = labelDescription args)
        /\ (suppliedNonEmpty (labelHexColor args) ->
            data_hex_color labelData = labelHexColor args)).
Proof.
  intros Ha Hc Hsub.
  rewrite (labelsTool_ready _ _ _ _ Ha Hc).
  unfold try_catch, labelsSwitch; rewrite Hsub.
  unfold bind, lift, ret, throw, callLabels.
  split.
  - intros Ht; rewrite <- falsyString_false in Ht.
    apply not_false_is_true in Ht; rewrite Ht; reflexivity.
  - intros Ht; apply falsyString_false in Ht; rewrite Ht.
    destruct (createLabel client _) as [label | t] eqn:E;
      do 2 eexists; (split; [rewrite <- app_assoc; cbn [app]; reflexivity |]);
      cbn; repeat split; try apply truthyString_not_empty;
      apply truthyString_supplied.
Qed.

(** [if (n) params.n = n]: a number is forwarded exactly when it is
    supplied and truthy. *)
Lemma truthyNumber_Some (x : option float) (n : float) :
  truthyNumber x = Some n <-> x = Some n /\ ToBoolean (VNum n) = true.
Proof.
  unfold truthyNumber; destruct x as [m |].
  - destruct (ToBoolean (VNum m)) eqn:E; split.
    + intros H; injection H as <-; split; [reflexivity | exact E].
    + intros [H _]; exact H.
    + intros H; discriminate H.
    + intros [H Hn]; injection H as <-; rewrite E in Hn; discriminate Hn.
  - split; [intros H | intros [H _]]; discriminate H.
Qed.

(** [if (s) params.s = s]: a string is forwarded exactly when it is
    supplied and not empty. *)
Lemma truthyString_Some (x : option string) (s : string) :
  truthyString x = Some s <-> x = Some s /\ s <> "".
Proof.
  unfold truthyString; destruct x as [text |]; cbn.
  - destruct (String.eqb text "") eqn:E; split.
    + intros H; discriminate H.
    + intros [H Hs]; injection H as ->.
      apply String.eqb_eq in E; contradiction.
    + intros H; injection H as <-; split; [reflexivity |].
      apply String.eqb_neq; exact E.
    + intros [H _]; exact H.
  - split; [intros H | intros [H _]]; discriminate H.
Qed.

(** X21.  [get], [update] and [delete] of the labels tool ask the client
    for nothing when the identifier is missing or is refused by
    [validateAndConvertId]: the failure goes to [wrapToolError] and only
    [getClientFromContext] has been called. *)
Theorem labels_require_id (authManager : AuthManager)
  (client : LabelsClient) (args : LabelArgs) (calls : list LabelCall) :
  isAuthenticated authManager = true ->
  getLabelsClient = Returned client ->
  labelSubcommand args = LabelGet \/ labelSubcommand args = LabelUpdate
  \/ labelSubcommand args = LabelDelete ->
  (labelId args = None ->
   labelsTool authManager args calls
   = (Raised (labelsCatch (labelSubcommandName (labelSubcommand args)) None
                (MCPError VALIDATION_ERROR "Label ID is required")),
      (calls ++ [CallLabelsClient])%list))
  /\ (forall (n : float) (t : thrown),
         labelId args = Some n ->
         validateAndConvertId (VNum n) "id" = Raised t ->
         labelsTool authManager args calls
         = (Raised (labelsCatch (labelSubcommandName (labelSubcommand args))
                      (Some (VNum n)) t),
            (calls ++ [CallLabelsClient])%list)).
Proof.
  intros Ha Hc Hsub.
  rewrite (labelsTool_ready _ _ _ _ Ha Hc).
  unfold try_catch, labelsSwitch, requireLabelId.
  split.
  - intros Hid; rewrite Hid.
    destruct Hsub as [-> | [-> | ->]]; reflexivity.
  - intros n t Hid Hv; rewrite Hid.
    unfold bind, lift; rewrite Hv.
    destruct Hsub as [-> | [-> | ->]]; reflexivity.
Qed.

(** X22.  [list] of the labels tool forwards [page], [perPage] and
    [search] exactly when they are truthy: a number that is supplied and
    is not [0] or [NaN], a string that is supplied and not empty.  So an
    empty search string, page [0] and [perPage] [0] are not sent.  When
    it succeeds, its count is the number of labels the client
    returned. *)
Theorem labelList_params (authManager : AuthManager)
  (client : LabelsClient) (args : LabelArgs) (calls : list LabelCall) :
  isAuthenticated authManager = true ->
  getLabelsClient = Returned client ->
  labelSubcommand args = LabelList ->
  exists (result : outcome (ToolResponse LabelsData LabelsMetadata))
         (params : LabelListParams),
    labelsTool authManager args calls
    = (result, (calls ++ [CallLabelsClient; CallGetLabels params])%list)
    /\ list_s params <> Some ""
    /\ (suppliedNonEmpty (labelSearch args) -> list_s params = labelSearch args)
    /\ list_page params <> Some 0%float
    /\ (forall response,
           result = Returned response ->
           exists labels : list Label,
             getLabels client params = Returned labels
             /\ toolData response = DataLabels labels
             /\ toolMetadata response = LabelsCount (length labels) params)
    /\ list_per_page params <> Some 0%float
    /\ (forall n : float,
           list_page params = Some n
           <-> labelPage args = Some n /\ ToBoolean (VNum n) = true)
    /\ (forall n : float,
           list_per_page params = Some n
           <-> labelPerPage args = Some n /\ ToBoolean (VNum n) = true)
    /\ (forall s : string,
           list_s params = Some s <-> labelSearch args = Some s /\ s <> "").
Proof.
  intros Ha Hc Hsub.
  rewrite (labelsTool_ready _ _ _ _ Ha Hc).
  unfold try_catch, labelsSwitch; rewrite Hsub.
  unfold bind, lift, ret, throw, callLabels.
  assert (Hp : forall x, truthyNumber x <> Some 0%float).
  { intros x; rewrite truthyNumber_Some; intros [_ H]; discriminate H. }
  destruct (getLabels client _) as [labels | t] eqn:E;
    do 2 eexists; (split; [rewrite <- app_assoc; cbn [app]; reflexivity |]);
    cbn [list_s list_page list_per_page];
    (split; [apply truthyString_not_empty |]);
    (split; [apply truthyString_supplied |]); (split; [apply Hp |]);
    (split; [| split; [apply Hp |
               split; [intros n; apply truthyNumber_Some |
               split; [intros n; apply truthyNumber_Some |
                       intros s; apply truthyString_Some]]]]);
    intros response H; [| discriminate H].
  injection H as <-; exists labels; repeat split; exact E.
Qed.

(** X23.  Whatever happens, the labels tool calls at most one method of
    [client.labels], and it is the method of its subcommand: [list] and
    [get] never create, update or delete. *)
Theorem labelsTool_calls (authManager : AuthManager) (args : LabelArgs)
  (calls : list LabelCall) :
  exists added : list LabelCall,
    snd (labelsTool authManager args calls) = (calls ++ added)%list
    /\ (length added <= 2)%nat
    /\ (forall c : LabelCall,
           In c added -> labelCallOf (labelSubcommand args) c = true).
Proof.
  unfold labelsTool, labelsSwitch, requireLabelId, try_catch, bind, callLabels,
    lift, ret, throw.
  destruct (labelSubcommand args);
    split_run; cbn [snd]; added_calls; cbn [length In];
    (split; [lia |]); intros c Hin;
    repeat destruct Hin as [Hin | Hin]; try contradiction;
    subst c; reflexivity.
Qed.

(* ================================================================== *)
(** * Properties of the teams tool *)

Lemma teamsTool_ready (authManager : AuthManager) (client : TeamsClient)
  (args : TeamArgs) (calls : list TeamCall) :
  isAuthenticated authManager = true ->
  getTeamsClient = Returned client ->
  teamsTool authManager args calls
  = try_catch (teamsSwitch authManager client args)
      (fun error =>
         throw (teamsCatch (teamSubcommandName (teamSubcommand args))
                           (option_map idValue (teamId args)) error))
      (calls ++ [CallTeamsClient])%list.
Proof.
  intros Ha Hc; unfold teamsTool, bind, callTeams; rewrite Ha, Hc; reflexivity.
Qed.

(** X24.  [get], [update] and [members] of the teams tool never succeed
    and never call a method of [client.teams] or [fetch], whatever the
    arguments; with a valid identifier (and, for [update], a non-empty
    name or description) the error handed to [wrapToolError] is
    [NOT_IMPLEMENTED]. *)
Theorem teams_not_implemented (authManager : AuthManager) (args : TeamArgs)
  (calls : list TeamCall) :
  teamSubcommand args = TeamGet \/ teamSubcommand args = TeamUpdate
  \/ teamSubcommand args = TeamMembers ->
  (exists t : thrown, fst (teamsTool authManager args calls) = Raised t)
  /\ (snd (teamsTool authManager args calls) = calls
      \/ snd (teamsTool authManager args calls)
         = (calls ++ [CallTeamsClient])%list)
  /\ (forall (client : TeamsClient) (i : IdArg) (n : float),
         isAuthenticated authManager = true ->
         getTeamsClient = Returned client ->
         teamId args = Some i ->
         validateAndConvertId (idValue i) "id" = Returned n ->
         (teamSubcommand args = TeamUpdate ->
          suppliedNonEmpty (teamName args)
          \/ suppliedNonEmpty (teamDescription args)) ->
         exists text : string,
           fst (teamsTool authManager args calls)
           = Raised (teamsCatch (teamSubcommandName (teamSubcommand args))
                       (Some (idValue i)) (MCPError NOT_IMPLEMENTED text))).
Proof.
  intros Hsub; split; [| split].
  - unfold teamsTool, teamsSwitch, requireTeamId, try_catch, bind, callTeams,
      lift, ret, throw.
    destruct Hsub as [-> | [-> | ->]]; split_run; cbn [fst];
      eexists; reflexivity.
  - unfold teamsTool, teamsSwitch, requireTeamId, try_catch, bind, callTeams,
      lift, ret, throw.
    destruct Hsub as [-> | [-> | ->]]; split_run; cbn [snd]; auto.
  - intros client i n Ha Hc Hid Hv Hup.
    rewrite (teamsTool_ready _ _ _ _ Ha Hc).
    unfold try_catch, teamsSwitch, requireTeamId; rewrite Hid.
    unfold bind, lift, throw; cbn [option_map].
    destruct Hsub as [Hs | [Hs | Hs]]; rewrite Hs, Hv; cbn [fst].
    + eexists; reflexivity.
    + destruct (Hup Hs) as [H | H]; apply falsyString_false in H; rewrite H;
        rewrite ?andb_false_r; cbn [andb fst]; eexists; reflexivity.
    + eexists; reflexivity.
Qed.

(** X25.  [create] of the teams tool needs a non-empty name: without one
    it fails with "Team name is required" and the client is not asked;
    with one, [createTeam] gets the name and the description as it was
    supplied, the empty string included. *)
Theorem teamCreate_payload (authManager : AuthManager)
  (client : TeamsClient) (args : TeamArgs) (calls : list TeamCall) :
  isAuthenticated authManager = true ->
  getTeamsClient = Returned client ->
  teamSubcommand args = TeamCreate ->
  (~ suppliedNonEmpty (teamName args) ->
   teamsTool authManager args calls
   = (Raised (teamsCatch "create" (option_map idValue (teamId args))
                (MCPError VALIDATION_ERROR "Team name is required")),
      (calls ++ [CallTeamsClient])%list))
  /\ (suppliedNonEmpty (teamName args) ->
      exists result : outcome (ToolResponse TeamsData TeamsMetadata),
        teamsTool authManager args calls
        = (result,
           (calls ++ [ CallTeamsClient;
                       CallCreateTeam
                         {| teamData_name := teamName args;
                            teamData_description := teamDescription args |} ])%list)
        /\ (forall response,
               result = Returned response ->
               toolMetadata response
               = TeamsAffectedFields
                   (match teamDescription args with
                    | Some _ => ["name"; "description"]
                    | None => ["name"]
                    end))).
Proof.
  intros Ha Hc Hsub.
  rewrite (teamsTool_ready _ _ _ _ Ha Hc).
  unfold try_catch, teamsSwitch; rewrite Hsub.
  unfold bind, lift, ret, throw, callTeams.
  split.
  - intros Ht; rewrite <- falsyString_false in Ht.
    apply not_false_is_true in Ht; rewrite Ht; reflexivity.
  - intros Ht; pose proof Ht as (name' & Hn & _).
    apply falsyString_false in Ht; rewrite Ht.
    destruct (createTeam client _) as [team | t] eqn:E;
      eexists; (split; [rewrite <- app_assoc; cbn [app]; reflexivity |]);
      intros response H; [| discriminate H].
    injection H as <-; cbn [toolMetadata]; unfold teamDataKeys; cbn.
    rewrite Hn; destruct (teamDescription args); reflexivity.
Qed.

(** X26.  [delete] of the teams tool uses [client.teams.deleteTeam] when
    the client has that method and sends nothing itself; only when the
    method is missing does it send one [DELETE] to [/teams/<id>].  With a
    missing or refused identifier it does neither. *)
Theorem teamDelete_paths (authManager : AuthManager)
  (client : TeamsClient) (args : TeamArgs) (calls : list TeamCall) :
  isAuthenticated authManager = true ->
  getTeamsClient = Returned client ->
  teamSubcommand args = TeamDelete ->
  ((teamId args = None
    \/ exists i t, teamId args = Some i
                   /\ validateAndConvertId (idValue i) "id" = Raised t) ->
   snd (teamsTool authManager args calls) = (calls ++ [CallTeamsClient])%list)
  /\ (forall (i : IdArg) (n : float),
         teamId args = Some i ->
         validateAndConvertId (idValue i) "id" = Returned n ->
         (forall deleteMethod,
             deleteTeam client = Some deleteMethod ->
             snd (teamsTool authManager args calls)
             = (calls ++ [CallTeamsClient; CallDeleteTeam n])%list
             /\ forall message,
                 deleteMethod n = Returned message ->
                 fst (teamsTool authManager args calls)
                 = Returned {| toolOperation := "delete-team";
                               toolSummary := "Team deleted successfully";
                               toolData := DataMessage message;
                               toolMetadata := TeamsDeleted n |})
         /\ (deleteTeam client = None ->
             forall session,
               getSession authManager = Returned session ->
               snd (teamsTool authManager args calls)
               = (calls ++ [ CallTeamsClient;
                             CallFetchTeam (deleteTeamRequest session n) ])%list)).
Proof.
  intros Ha Hc Hsub.
  rewrite (teamsTool_ready _ _ _ _ Ha Hc).
  unfold try_catch, teamsSwitch, requireTeamId; rewrite Hsub.
  unfold bind, lift, ret, throw, callTeams.
  split.
  - intros [Hid | (i & t & Hid & Hv)]; rewrite Hid; [| rewrite Hv]; reflexivity.
  - intros i n Hid Hv; rewrite Hid, Hv; split.
    + intros deleteMethod Hm; rewrite Hm.
      destruct (deleteMethod n) as [message | t] eqn:E; cbn [fst snd];
        rewrite <- app_assoc; (split; [reflexivity |]);
        intros message' H; [injection H as <-; reflexivity | discriminate H].
    + intros Hm session Hs; rewrite Hm, Hs.
      split_run; cbn [snd]; rewrite <- app_assoc; reflexivity.
Qed.

(** [list] of the teams tool forwards its three parameters as supplied. *)
Lemma teamList_params (authManager : AuthManager)
  (client : TeamsClient) (args : TeamArgs) (calls : list TeamCall) :
  isAuthenticated authManager = true ->
  getTeamsClient = Returned client ->
  teamSubcommand args = TeamList ->
  let params := {| teams_page := teamPage args;
                   teams_per_page := teamPerPage args;
                   teams_s := teamSearch args |} in
  snd (teamsTool authManager args calls)
  = (calls ++ [CallTeamsClient; CallGetTeams params])%list
  /\ (forall teams : list Team,
         getTeams client params = Returned teams ->
         fst (teamsTool authManager args calls)
         = Returned {| toolOperation := "list-teams";
                       toolSummary := "Retrieved " ++ String_of_nat (length teams)
                                      ++ " team" ++ pluralSuffix (length teams);
                       toolData := DataTeams teams;
                       toolMetadata := TeamsCount (length teams) params |})
  /\ (forall t : thrown,
         getTeams client params = Raised t ->
         fst (teamsTool authManager args calls)
         = Raised (teamsCatch "list" (option_map idValue (teamId args)) t)).
Proof.
  intros Ha Hc Hsub params.
  rewrite (teamsTool_ready _ _ _ _ Ha Hc).
  unfold try_catch, teamsSwitch; rewrite Hsub.
  unfold bind, lift, ret, throw, callTeams; fold params.
  destruct (getTeams client params) as [teams | t]; cbn [fst snd];
    rewrite <- app_assoc; (split; [reflexivity |]); split;
    intros x H; try discriminate H; injection H as <-; reflexivity.
Qed.

(** X27.  The three tools treat an empty search string differently: the
    labels tool drops it from the parameters of [getLabels], while the
    teams tool and the users tool send it to [getTeams] and [getUsers]
    as the search term. *)
Theorem empty_search_divergence (authManager : AuthManager)
  (labels : LabelsClient) (teams : TeamsClient) (users : Client)
  (labelArgs : LabelArgs) (teamArgs : TeamArgs) (userArgs : Args) :
  isAuthenticated authManager = true ->
  getAuthType authManager = "jwt" ->
  getLabelsClient = Returned labels ->
  getTeamsClient = Returned teams ->
  getClientFromContext = Returned users ->
  labelSubcommand labelArgs = LabelList -> labelSearch labelArgs = Some "" ->
  teamSubcommand teamArgs = TeamList -> teamSearch teamArgs = Some "" ->
  subcommand userArgs = SubSearch -> search userArgs = Some "" ->
  (exists params, snd (labelsTool authManager labelArgs [])
                  = [CallLabelsClient; CallGetLabels params]
                  /\ list_s params = None)
  /\ (exists params, snd (teamsTool authManager teamArgs [])
                     = [CallTeamsClient; CallGetTeams params]
                     /\ teams_s params = Some "")
  /\ (exists params, snd (usersTool authManager userArgs [])
                     = [CallGetClientFromContext; CallGetUsers params]
                     /\ params_s params = Some "").
Proof.
  intros Ha Hj Hl Ht Hu Hls Hlq Hts Htq Hus Huq.
  split; [| split].
  - rewrite (labelsTool_ready _ _ _ _ Ha Hl).
    unfold try_catch, labelsSwitch; rewrite Hls, Hlq.
    unfold bind, ret, throw, callLabels.
    destruct (getLabels labels _); eexists; split; reflexivity.
  - destruct (teamList_params _ _ _ [] Ha Ht Hts) as [Hcalls _].
    eexists; split; [exact Hcalls | exact Htq].
  - rewrite (usersTool_jwt _ _ _ _ Ha Hj Hu).
    unfold try_catch, usersSwitch; rewrite Hus.
    unfold bind, ret, throw, call, lift.
    destruct (getUsers users _) as [list | t].
    + destruct (mapTransformUser list);
        [| destruct (usersCatch _ _)]; eexists; split; try reflexivity; exact Huq.
    + destruct (usersCatch _ _); eexists; split; try reflexivity; exact Huq.
Qed.

(* ================================================================== *)
(** * Classification of a response by its status *)



End Tools.


(* ================================================================== *)
(** * Closed instances *)

(** Witness of [transformUser_total]: the object [{id: "abc", username:
    "a"}], whose [id] is not numeric, is sanitized with [id] 0; [null] is
    refused with the plain [Error]. *)
Lemma transformUser_total_witness :
  (transformUser everyStringNaN everyNumberNaN VNull
   = Raised (ThrownError "Invalid user data received")
   /\ instanceof_MCPError (ThrownError "Invalid user data received") = false)
  /\ (exists u : User,
        transformUser everyStringNaN everyNumberNaN
          (VObj [("id", VStr "abc"); ("username", VStr "a")]) = Returned u
        /\ id u = 0%float
        /\ PrimFloat.is_nan (id u) = false)
  /\ (exists u : User,
        transformUser everyStringNaN everyNumberNaN
          (VObj [("username", VStr "a"); ("week_start", VNum 0)]) = Returned u).
Proof.
  split; [| split].
  - exact (proj1 (transformUser_total everyStringNaN everyNumberNaN VNull) eq_refl).
  - destruct (proj1 (proj2 (transformUser_total everyStringNaN everyNumberNaN
                              (VObj [("id", VStr "abc"); ("username", VStr "a")]))
                           eq_refl)
                    PrimFloat.nan None eq_refl eq_refl)
      as (u & Hu & Hi & Hn & _).
    exists u; split; [exact Hu | split; [exact Hi | exact Hn]].
  - exact (proj2 (proj2 (transformUser_total everyStringNaN everyNumberNaN
                    (VObj [("username", VStr "a"); ("week_start", VNum 0)]))
                    eq_refl)
                 eq_refl eq_refl).
Defined.

(** Counterexample to C1 as stated.  [null] is refused with an [Error]
    that is not an [MCPError], so not with a taxonomy error of kind
    [INVALID_PAYLOAD]; and the object [{id: 1.5}] is sanitized with the
    [id] 1.5, which is not an integer. *)
Lemma transformUser_claim_fails :
  ~ (forall (StringToNumber : string -> float) (NumberToString : float -> string)
            (rawUser : value),
        isUserObject rawUser = false ->
        exists text : string,
          transformUser StringToNumber NumberToString rawUser
          = Raised (MCPError INVALID_PAYLOAD text))
  /\ ~ (forall (StringToNumber : string -> float) (NumberToString : float -> string)
               (rawUser : value) (u : User),
           isUserObject rawUser = true ->
           transformUser StringToNumber NumberToString rawUser = Returned u ->
           Number_isInteger (id u) = true).
Proof.
  split.
  - intros H.
    destruct (H everyStringNaN everyNumberNaN VNull eq_refl) as [text Ht].
    rewrite transformUser_null in Ht; discriminate Ht.
  - intros H.
    destruct (transformUser_fractional_id everyStringNaN everyNumberNaN)
      as (u & Hu & _ & Hi).
    rewrite (H everyStringNaN everyNumberNaN (VObj [("id", VNum 1.5)]) u
               eq_refl Hu) in Hi.
    discriminate Hi.
Qed.

(** Witness of [transformUser_keeps_present_falsy]: the presence rules at
    the record of [{id: 5, username: "a", email_reminders_enabled:
    false}]. *)
Lemma transformUser_keeps_present_falsy_witness :
  let props := [ ("id", VNum 5); ("username", VStr "a");
                 ("email_reminders_enabled", VBool false) ] in
  let u := {| id := 5; username := "a"; frontend_settings := VObj [];
              email := None; name := None; created := None; updated := None;
              language := None; timezone := None; week_start := None;
              email_reminders_enabled := Some false;
              overdue_tasks_reminders_enabled := None |} in
  transformUser everyStringNaN everyNumberNaN (VObj props) = Returned u
  /\ (week_start u = None <-> get props "week_start" = VUndefined)
  /\ (email_reminders_enabled u = None
      <-> get props "email_reminders_enabled" = VUndefined)
  /\ (get props "email_reminders_enabled" <> VUndefined ->
      email_reminders_enabled u = Some false).
Proof.
  pose proof (transformUser_keeps_present_falsy everyStringNaN everyNumberNaN)
    as [Hs Hg].
  split; [exact Hs |].
  destruct (Hg _ _ Hs) as (Hw & He & _ & _ & Hv & _).
  split; [exact Hw | split; [exact He | exact Hv]].
Defined.

(** Witness of [getValidEvents_never_raises]: with an empty cache and a
    [fetch] that rejects, the list returned is not empty. *)
Lemma getValidEvents_never_raises_witness :
  exists (events : list string) (c' : EventCache),
    getValidEvents fetchRejects jwtAuth 1000 emptyCache = (Returned events, c')
    /\ events <> [].
Proof.
  destruct (getValidEvents_never_raises fetchRejects jwtAuth 1000 emptyCache)
    as (events & c' & Hg & _ & He).
  exists events, c'; split; [exact Hg |].
  intros Hnil; destruct (He Hnil) as [Hc | [session response _ Hf _ _]].
  - discriminate Hc.
  - discriminate Hf.
Defined.

(** Counterexample to C2 as stated.  With an empty cache and an upstream
    that answers 200 with the body [[]], [getValidEvents] returns the
    empty list (and caches it). *)
Lemma getValidEvents_returns_empty_list :
  getValidEvents (fetchResponds 200 "OK" (Returned [])) jwtAuth 1000 emptyCache
  = (Returned [], {| cachedEvents := Some []; cacheExpiry := Some 301000%Z |}).
Proof. reflexivity. Qed.

(** Witness of [getValidEvents_stale_fallback]: the cache holds
    [["task.created"]], is expired, and [fetch] rejects. *)
Lemma getValidEvents_stale_fallback_witness :
  getValidEvents fetchRejects jwtAuth 1000 (expiredCache ["task.created"])
  = (Returned ["task.created"], expiredCache ["task.created"]).
Proof.
  apply getValidEvents_stale_fallback.
  - reflexivity.
  - reflexivity.
  - apply (FetchThrows fetchRejects jwtAuth sampleSession
             (ThrownError "fetch failed")); reflexivity.
Defined.

(** Witness of [getValidEvents_default_fallback]: an expired cache and an
    upstream that answers 404; an empty cache and a [fetch] that
    rejects. *)
Lemma getValidEvents_default_fallback_witness :
  getValidEvents (fetchResponds 404 "Not Found" (Raised (ThrownError "no body")))
                 jwtAuth 1000 (expiredCache ["task.created"])
  = (Returned defaultWebhookEvents, defaultCache 1000)
  /\ getValidEvents fetchRejects jwtAuth 1000 emptyCache
     = (Returned defaultWebhookEvents, defaultCache 1000).
Proof.
  split.
  - apply (getValidEvents_default_fallback
             (fetchResponds 404 "Not Found" (Raised (ThrownError "no body")))
             jwtAuth 1000 (expiredCache ["task.created"]) eq_refl).
    left.
    apply (RespondsNotAvailable _ jwtAuth sampleSession
             (mkResponse 404 "Not Found" (Raised (ThrownError "no body"))));
      reflexivity.
  - apply (getValidEvents_default_fallback fetchRejects jwtAuth 1000 emptyCache
             eq_refl).
    right; split; [reflexivity |].
    apply (FetchThrows fetchRejects jwtAuth sampleSession
             (ThrownError "fetch failed")); reflexivity.
Defined.

(** Witness of [validateWebhookEvents_spec]: the reference list
    [["a"; "b"]] is fresh in the cache and the candidates are
    [["a"; "c"]]. *)
Lemma validateWebhookEvents_spec_witness :
  let c := {| cachedEvents := Some ["a"; "b"]; cacheExpiry := Some 2000%Z |} in
  validateWebhookEvents fetchRejects jwtAuth 1000 ["a"; "c"] c
  = (Raised (MCPError VALIDATION_ERROR
               "Invalid webhook events: c. Valid events are: a, b"), c)
  /\ validateWebhookEvents fetchRejects jwtAuth 1000 ["b"; "a"; "b"] c
     = (Returned tt, c).
Proof.
  intros c.
  pose proof (validateWebhookEvents_spec fetchRejects jwtAuth 1000 c c
                ["a"; "c"] ["a"; "b"] eq_refl) as [_ Hbad].
  pose proof (validateWebhookEvents_spec fetchRejects jwtAuth 1000 c c
                ["b"; "a"; "b"] ["a"; "b"] eq_refl) as [Hgood _].
  assert (Hnot : ~ Forall (fun e => In e ["a"; "b"]) ["a"; "c"]).
  { intros H; apply Forall_inv_tail, Forall_inv in H.
    destruct H as [H | [H | []]]; discriminate H. }
  assert (Hall : Forall (fun e => In e ["a"; "b"]) ["b"; "a"; "b"]).
  { repeat (apply Forall_cons; [cbn; auto |]); apply Forall_nil. }
  split.
  - exact (proj1 (Hbad Hnot)).
  - exact (Hgood Hall).
Defined.



(** Witness of [boundaries_rethrow_MCPError]: [getUser] rejects with an
    [MCPError] of kind [NOT_FOUND], and the users tool fails with it. *)
Lemma boundaries_rethrow_MCPError_witness :
  let client := {| getUser := Raised (MCPError NOT_FOUND "User not found");
                   getUsers := fun _ => Returned [];
                   updateGeneralSettings := fun _ => Returned tt |} in
  usersTool everyStringNaN everyNumberNaN rethrowAsAuthRequired (Returned client)
            jwtAuth currentArgs []
  = (Raised (MCPError NOT_FOUND "User not found"),
     [CallGetClientFromContext; CallGetUser]).
Proof.
  intros client.
  apply (proj1 (proj2 (proj2 (proj2 (proj2 (proj2
           (boundaries_rethrow_MCPError everyStringNaN everyNumberNaN
              rethrowAsAuthRequired classifyAsApiError (Returned client)
              NOT_FOUND "User not found" "current" None))))))
           jwtAuth client currentArgs []
           [CallGetClientFromContext; CallGetUser]); reflexivity.
Defined.

(** Witness of [usersTool_requires_jwt]: an API-token session asks for
    the current user. *)
Lemma usersTool_requires_jwt_witness :
  usersTool everyStringNaN everyNumberNaN rethrowAsAuthRequired
            (Returned sampleClient) apiTokenAuth currentArgs []
  = (Raised (MCPError PERMISSION_DENIED
       "User operations require JWT authentication. Please reconnect using vikunja_auth.connect with JWT authentication."),
     []).
Proof.
  apply usersTool_requires_jwt; [reflexivity | discriminate].
Defined.

(** Witness of [updateSettings_presence_vs_truthiness]: only [name = ""]
    is refused; only [weekStart = 0] reaches [updateGeneralSettings]. *)
Lemma updateSettings_presence_vs_truthiness_witness :
  usersTool everyStringNaN everyNumberNaN rethrowAsAuthRequired
            (Returned sampleClient) jwtAuth
            (updateSettingsArgs (Some "") None None None None None None None) []
  = (Raised (MCPError VALIDATION_ERROR "At least one setting field is required"),
     [CallGetClientFromContext])
  /\ exists (result : outcome StandardResponse) (rest : list ClientCall),
      usersTool everyStringNaN everyNumberNaN rethrowAsAuthRequired
                (Returned sampleClient) jwtAuth
                (updateSettingsArgs None None None (Some 0%float) None None None None) []
      = (result,
         CallGetClientFromContext
         :: CallUpdateGeneralSettings
              {| set_name := None; set_language := None; set_timezone := None;
                 set_week_start := Some 0%float; set_frontend_settings := None;
                 set_email_reminders_enabled := None;
                 set_overdue_tasks_reminders_enabled := None;
                 set_overdue_tasks_reminders_time := None |}
         :: rest).
Proof.
  pose proof (updateSettings_presence_vs_truthiness everyStringNaN everyNumberNaN
                rethrowAsAuthRequired (Returned sampleClient) jwtAuth sampleClient
                [] eq_refl eq_refl eq_refl) as (Hrej & Hfwd & _).
  split.
  - apply Hrej; left; reflexivity.
  - apply (Hfwd (updateSettingsArgs None None None (Some 0%float) None None None None)).
    left; reflexivity.
Defined.

(** Counterexample to C10 as stated.  A call whose only supplied field is
    the empty string [overdueTasksRemindersTime = ""] is not refused: the
    field is forwarded to [updateGeneralSettings] and the tool
    succeeds. *)
Lemma updateSettings_empty_time_accepted :
  usersTool everyStringNaN everyNumberNaN rethrowAsAuthRequired
            (Returned sampleClient) jwtAuth
            (updateSettingsArgs None None None None None None None (Some "")) []
  = (Returned
       {| operation := "update-user-settings";
          summary := "User settings updated successfully";
          data := DataUser
                    {| id := 1; username := "u"; frontend_settings := VObj [];
                       email := None; name := None; created := None;
                       updated := None; language := None; timezone := None;
                       week_start := None; email_reminders_enabled := None;
                       overdue_tasks_reminders_enabled := None |};
          metadata := AffectedFields ["overdueTasksRemindersTime"] |},
     [ CallGetClientFromContext;
       CallUpdateGeneralSettings
         {| set_name := None; set_language := None; set_timezone := None;
            set_week_start := None; set_frontend_settings := None;
            set_email_reminders_enabled := None;
            set_overdue_tasks_reminders_enabled := None;
            set_overdue_tasks_reminders_time := Some "" |};
       CallGetUser ]).
Proof. reflexivity. Qed.

(* ================================================================== *)
(** * The expiry of a cache entry across two reads

    The two reads below may meet different upstreams ([fetch] and
    [fetch']) and different session providers. *)

Lemma cacheIsValid_later (c : EventCache) (now now' : Z) :
  cacheIsValid c now = false -> (now <= now')%Z -> cacheIsValid c now' = false.
Proof.
  unfold cacheIsValid; destruct (cachedEvents c), (cacheExpiry c); auto.
  rewrite !Z.ltb_ge; lia.
Qed.

(** X28.  An entry that a read has written at time [now], from a
    successful fetch or as the default list, is served for five minutes:
    any read before [now + 300000] returns the same list and leaves the
    cache as it is, whatever the upstream would answer then; from
    [now + 300000] on, a read asks the upstream again. *)
Theorem refreshed_entry_is_served
  (fetch fetch' : Request -> outcome (Response (list string)))
  (authManager authManager' : AuthManager) (now now' : Z)
  (c c' : EventCache) (events : list string) :
  cacheIsValid c now = false ->
  getValidEvents fetch authManager now c = (Returned events, c') ->
  cachedEvents c = None \/ ~ fetchFails fetch authManager ->
  ((now' < now + 300000)%Z ->
   getValidEvents fetch' authManager' now' c' = (Returned events, c'))
  /\ ((now + 300000 <= now')%Z ->
      getValidEvents fetch' authManager' now' c'
      = fetchFreshEvents fetch' authManager' now' c').
Proof.
  intros Hv Hg Hfresh.
  rewrite (getValidEvents_refresh _ _ _ _ Hv) in Hg.
  assert (Hc' : c' = {| cachedEvents := Some events;
                        cacheExpiry := Some (now + 300000)%Z |}).
  { destruct (upstream_cases fetch authManager) as [[fresh Hu] | [Hu | Hu]].
    - rewrite (fetchFreshEvents_success _ _ now c _ Hu) in Hg.
      injection Hg as <- <-; reflexivity.
    - rewrite (fetchFreshEvents_notAvailable _ _ now c Hu) in Hg.
      injection Hg as <- <-; reflexivity.
    - destruct Hfresh as [He | Hn]; [| contradiction (Hn Hu)].
      rewrite (fetchFreshEvents_failure _ _ now c Hu), He in Hg.
      injection Hg as <- <-; reflexivity. }
  subst c'; split; intros Ht.
  - apply getValidEvents_fresh; [reflexivity |].
    unfold cacheIsValid; cbn; apply Z.ltb_lt; exact Ht.
  - apply getValidEvents_refresh.
    unfold cacheIsValid; cbn; apply Z.ltb_ge; exact Ht.
Qed.

(** X29.  A stale fallback adds no waiting time: after a read that
    returned the expired list because the fetch failed, the next read, at
    any later time, asks the upstream again, and when that fetch succeeds
    it returns and caches the new list. *)
Theorem stale_fallback_recovers
  (fetch fetch' : Request -> outcome (Response (list string)))
  (authManager authManager' : AuthManager) (now now' : Z)
  (c : EventCache) (events fresh : list string) :
  cachedEvents c = Some events ->
  cacheIsValid c now = false ->
  fetchFails fetch authManager ->
  (now <= now')%Z ->
  fetchSucceeds fetch' authManager' fresh ->
  getValidEvents fetch authManager now c = (Returned events, c)
  /\ getValidEvents fetch' authManager' now'
       (snd (getValidEvents fetch authManager now c))
     = (Returned fresh,
        {| cachedEvents := Some fresh;
           cacheExpiry := Some (now' + 300000)%Z |}).
Proof.
  intros He Hv Hfail Hlater Hok.
  assert (Hg : getValidEvents fetch authManager now c = (Returned events, c)).
  { rewrite (getValidEvents_refresh _ _ _ _ Hv),
      (fetchFreshEvents_failure _ _ now c Hfail), He; reflexivity. }
  split; [exact Hg |].
  rewrite Hg; cbn [snd].
  rewrite (getValidEvents_refresh _ _ _ _ (cacheIsValid_later _ _ _ Hv Hlater)).
  apply fetchFreshEvents_success; exact Hok.
Qed.
(* ================================================================== *)
(** * Closed instances of the further properties *)

(** Witness of [transformUser_failures]: an [id] that is an object with an
    own [toString]. *)
Lemma transformUser_failures_witness :
  transformUser everyStringNaN everyNumberNaN
    (VObj [("id", VObj [("toString", VNum 1)])]) = Raised TypeError_ToPrimitive
  /\ instanceof_MCPError TypeError_ToPrimitive = false.
Proof.
  split; [reflexivity |].
  exact (proj1 (transformUser_failures everyStringNaN everyNumberNaN
                  (VObj [("id", VObj [("toString", VNum 1)])])
                  TypeError_ToPrimitive eq_refl)).
Defined.

(** Witness of [transformUser_optional_strings]: an empty [email] is left
    out and the [name] "Ann" is kept. *)
Lemma transformUser_optional_strings_witness :
  exists u : User,
    transformUser everyStringNaN everyNumberNaN
      (VObj [("id", VNum 1); ("email", VStr ""); ("name", VStr "Ann")])
    = Returned u
    /\ keepsTruthyString (VStr "") (email u)
    /\ keepsTruthyString (VStr "Ann") (name u)
    /\ email u = None /\ name u = Some "Ann".
Proof.
  eexists; split; [reflexivity |].
  pose proof (transformUser_optional_strings everyStringNaN everyNumberNaN
                [("id", VNum 1); ("email", VStr ""); ("name", VStr "Ann")]
                _ eq_refl) as (He & Hn & _).
  split; [exact He | split; [exact Hn | split; reflexivity]].
Defined.

(** Witness of [transformUser_frontend_settings]: [frontend_settings:
    null] becomes the empty object. *)
Lemma transformUser_frontend_settings_witness :
  exists u : User,
    transformUser everyStringNaN everyNumberNaN
      (VObj [("id", VNum 1); ("frontend_settings", VNull)]) = Returned u
    /\ frontend_settings u = VObj [].
Proof.
  eexists; split; [reflexivity |].
  exact (proj2 (proj2 (transformUser_frontend_settings everyStringNaN
                         everyNumberNaN
                         [("id", VNum 1); ("frontend_settings", VNull)]
                         _ eq_refl)) eq_refl).
Defined.

(** Witness of [expire_then_getValidEvents]: the cache is expired by
    hand and [fetch] rejects. *)
Lemma expire_then_getValidEvents_witness :
  (expireWebhookEventCache ;;; getValidEvents fetchRejects jwtAuth 1000)
    {| cachedEvents := Some ["task.created"]; cacheExpiry := Some 301000%Z |}
  = (Returned ["task.created"], expiredCache ["task.created"]).
Proof.
  apply (proj2 (expire_then_getValidEvents fetchRejects jwtAuth 1000
                  {| cachedEvents := Some ["task.created"];
                     cacheExpiry := Some 301000%Z |}
                  ["task.created"] ltac:(lia) eq_refl)).
  apply (FetchThrows fetchRejects jwtAuth sampleSession
           (ThrownError "fetch failed")); reflexivity.
Defined.

(** Witness of [reachable_events_have_expiry]: the state after one read
    of the initial cache. *)
Lemma reachable_events_have_expiry_witness :
  exists expiry : Z,
    cacheExpiry (snd (getValidEvents fetchRejects jwtAuth 1000 emptyCache))
    = Some expiry.
Proof.
  apply (reachable_events_have_expiry fetchRejects
           (snd (getValidEvents fetchRejects jwtAuth 1000 emptyCache))
           (reachable_read fetchRejects emptyCache jwtAuth 1000
              (reachable_initial fetchRejects))
           defaultWebhookEvents eq_refl).
Defined.

(** Witness of [usersTool_search]: a search for the empty string. *)
Lemma usersTool_search_witness :
  exists (response : StandardResponse) (users : list User),
    usersTool everyStringNaN everyNumberNaN rethrowAsAuthRequired
              (Returned sampleClient) jwtAuth searchArgs []
    = (Returned response,
       [ CallGetClientFromContext;
         CallGetUsers {| params_page := None; params_per_page := None;
                         params_s := Some "" |} ])
    /\ data response = DataUsers users
    /\ summary response = "Found " ++ String_of_nat (length users) ++ " users".
Proof.
  destruct (usersTool_search everyStringNaN everyNumberNaN rethrowAsAuthRequired
              (Returned sampleClient) jwtAuth searchArgs [] _ _ eq_refl eq_refl)
    as (users & Hd & _ & Hsum & _).
  eexists; exists users; split; [reflexivity | split; [exact Hd | exact Hsum]].
Defined.

(** Witness of [usersTool_settings]. *)
Lemma usersTool_settings_witness :
  exists (response : StandardResponse) (view : SettingsView),
    fst (usersTool everyStringNaN everyNumberNaN rethrowAsAuthRequired
                   (Returned sampleClient) jwtAuth settingsArgs [])
    = Returned response
    /\ data response = DataSettings view
    /\ view_overdueTasksRemindersTime view = None
    /\ view_email view <> Some "".
Proof.
  destruct (usersTool_settings everyStringNaN everyNumberNaN rethrowAsAuthRequired
              (Returned sampleClient) jwtAuth settingsArgs [] _ _ eq_refl eq_refl)
    as (view & Hd & He & _ & _ & _ & _ & _ & Ht).
  eexists; exists view; split; [reflexivity | split; [exact Hd | split; [exact Ht | exact He]]].
Defined.

(** Witness of [usersTool_affectedFields]: only [name = ""] and
    [weekStart = 0] are supplied. *)
Lemma usersTool_affectedFields_witness :
  exists (response : StandardResponse) (fields : list string),
    fst (usersTool everyStringNaN everyNumberNaN rethrowAsAuthRequired
                   (Returned sampleClient) jwtAuth
                   (updateSettingsArgs (Some "") None None (Some 0%float)
                                       None None None None) [])
    = Returned response
    /\ metadata response = AffectedFields fields
    /\ In "name" fields /\ In "weekStart" fields /\ ~ In "timezone" fields.
Proof.
  destruct (usersTool_affectedFields everyStringNaN everyNumberNaN
              rethrowAsAuthRequired (Returned sampleClient) jwtAuth
              (updateSettingsArgs (Some "") None None (Some 0%float)
                                  None None None None) [] _ _ eq_refl eq_refl)
    as (fields & Hm & _ & Hn & _ & Ht & Hw & _).
  eexists; exists fields; split; [reflexivity | split; [exact Hm |]].
  split; [apply Hn; discriminate | split; [apply Hw; discriminate |]].
  intros H; apply Ht in H; apply H; reflexivity.
Defined.


(** Witness of [webhookCreate_fails_fast]: no [targetUrl]; no events; an
    event that is not in the reference list. *)
Lemma webhookCreate_fails_fast_witness :
  webhooksTool everyNumberNaN fetchRejects (Returned sampleClient) acceptNumber
               fetchWebhookOk jwtAuth 1000
               (webhookArgsOf WebhookCreate (Some "") (Some ["task.created"]) None)
               emptyStore
  = (Raised (MCPError VALIDATION_ERROR
               "targetUrl is required for creating a webhook"), emptyStore)
  /\ webhooksTool everyNumberNaN fetchRejects (Returned sampleClient) acceptNumber
                  fetchWebhookOk jwtAuth 1000
                  (webhookArgsOf WebhookCreate (Some "https://hooks.example/a")
                                 (Some []) None)
                  emptyStore
     = (Raised (MCPError VALIDATION_ERROR
                  "At least one event is required for creating a webhook"),
        emptyStore)
  /\ exists text : string,
      webhooksTool everyNumberNaN fetchRejects (Returned sampleClient)
                   acceptNumber fetchWebhookOk jwtAuth 1000
                   (webhookArgsOf WebhookCreate (Some "https://hooks.example/a")
                                  (Some ["task.renamed"]) None)
                   emptyStore
      = (Raised (MCPError VALIDATION_ERROR text), (defaultCache 1000, [])).
Proof.
  split; [| split].
  - apply (proj1 (webhookCreate_fails_fast everyNumberNaN fetchRejects
                    (Returned sampleClient) acceptNumber fetchWebhookOk jwtAuth
                    1000
                    (webhookArgsOf WebhookCreate (Some "") (Some ["task.created"]) None)
                    emptyStore sampleClient sampleSession 3%float
                    eq_refl eq_refl eq_refl eq_refl eq_refl)).
    reflexivity.
  - apply (proj1 (proj2 (webhookCreate_fails_fast everyNumberNaN fetchRejects
                    (Returned sampleClient) acceptNumber fetchWebhookOk jwtAuth
                    1000
                    (webhookArgsOf WebhookCreate (Some "https://hooks.example/a")
                       (Some []) None)
                    emptyStore sampleClient sampleSession 3%float
                    eq_refl eq_refl eq_refl eq_refl eq_refl))).
    + reflexivity.
    + right; reflexivity.
  - apply (proj2 (proj2 (webhookCreate_fails_fast everyNumberNaN fetchRejects
                    (Returned sampleClient) acceptNumber fetchWebhookOk jwtAuth
                    1000
                    (webhookArgsOf WebhookCreate (Some "https://hooks.example/a")
                       (Some ["task.renamed"]) None)
                    emptyStore sampleClient sampleSession 3%float
                    eq_refl eq_refl eq_refl eq_refl eq_refl))
             ["task.renamed"] defaultWebhookEvents (defaultCache 1000)).
    + reflexivity.
    + reflexivity.
    + reflexivity.
    + intros H; apply Forall_inv in H; cbn in H.
      repeat destruct H as [H | H]; discriminate H || contradiction H.
Defined.

(** Witness of [webhookGet_lookup]: webhook 7 is in the list of project 3. *)
Lemma webhookGet_lookup_witness :
  exists (w : Webhook) (response : AorpResponse),
    In w [sampleWebhook]
    /\ PrimFloat.eqb (webhook_id w) 7 = true
    /\ fst (webhooksTool everyNumberNaN fetchRejects (Returned sampleClient)
                         acceptNumber fetchWebhookOk jwtAuth 1000
                         (webhookArgsOf WebhookGet None None None) emptyStore)
       = Returned response
    /\ aorpData response = AorpWebhook w.
Proof.
  destruct (proj2 (proj2 (webhookGet_lookup everyNumberNaN fetchRejects
                  (Returned sampleClient) acceptNumber fetchWebhookOk jwtAuth 1000
                  (webhookArgsOf WebhookGet None None None) emptyStore
                  sampleClient sampleSession 3%float 7%float _ [sampleWebhook]
                  eq_refl eq_refl eq_refl eq_refl eq_refl eq_refl eq_refl
                  eq_refl eq_refl)))
    as (w & Hin & Hid & Hrun).
  - exists sampleWebhook; split; [left; reflexivity | reflexivity].
  - exists w; eexists; split; [exact Hin | split; [exact Hid |]].
    split; [exact Hrun | reflexivity].
Defined.

(** Witness of [webhookUpdate_ignores_other_fields]. *)
Lemma webhookUpdate_ignores_other_fields_witness :
  webhooksTool everyNumberNaN fetchRejects (Returned sampleClient) acceptNumber
               fetchWebhookOk jwtAuth 1000
               (webhookArgsOf WebhookUpdate (Some "https://other.example")
                              (Some ["task.created"]) (Some "s3cret"))
               emptyStore
  = webhooksTool everyNumberNaN fetchRejects (Returned sampleClient) acceptNumber
                 fetchWebhookOk jwtAuth 1000
                 (webhookArgsOf WebhookUpdate None (Some ["task.created"]) None)
                 emptyStore.
Proof.
  apply webhookUpdate_ignores_other_fields; reflexivity.
Defined.

(** Witness of [webhookListEvents_returns]: the upstream is down. *)
Lemma webhookListEvents_returns_witness :
  exists (events : list string) (c' : EventCache),
    getValidEvents fetchRejects jwtAuth 1000 (fst emptyStore)
    = (Returned events, c')
    /\ fst (webhooksTool everyNumberNaN fetchRejects (Returned sampleClient)
                         acceptNumber fetchWebhookOk jwtAuth 1000
                         (webhookArgsOf WebhookListEvents None None None)
                         emptyStore)
       = Returned {| aorpOperation := "list-events";
                     aorpMessage := "Retrieved " ++ String_of_nat (length events)
                                    ++ " available webhook events";
                     aorpData := AorpEvents events;
                     aorpCount := length events;
                     aorpAffectedFields := None |}.
Proof.
  destruct (webhookListEvents_returns everyNumberNaN fetchRejects
              (Returned sampleClient) acceptNumber fetchWebhookOk jwtAuth 1000
              (webhookArgsOf WebhookListEvents None None None) emptyStore
              sampleClient sampleSession eq_refl eq_refl eq_refl eq_refl)
    as (events & c' & Hg & Hrun).
  exists events, c'; split; [exact Hg | rewrite Hrun; reflexivity].
Defined.

(** Witness of [labelUpdate_presence_vs_truthiness]: only [title = ""] is
    refused; only [description = ""] reaches [updateLabel]. *)
Lemma labelUpdate_presence_vs_truthiness_witness :
  labelsTool classifyAsApiError acceptNumber (Returned sampleLabelsClient) jwtAuth
             (labelArgsOf LabelUpdate (Some 4%float) None (Some "") None None) []
  = (Raised (MCPError VALIDATION_ERROR "At least one field to update is required"),
     [CallLabelsClient])
  /\ exists result updates,
      labelsTool classifyAsApiError acceptNumber (Returned sampleLabelsClient)
                 jwtAuth
                 (labelArgsOf LabelUpdate (Some 4%float) None None (Some "") None)
                 []
      = (result, [CallLabelsClient; CallUpdateLabel 4 updates])
      /\ data_description updates = Some "".
Proof.
  split.
  - apply (proj1 (labelUpdate_presence_vs_truthiness classifyAsApiError
                    acceptNumber (Returned sampleLabelsClient) jwtAuth
                    sampleLabelsClient
                    (labelArgsOf LabelUpdate (Some 4%float) None (Some "") None None)
                    [] 4%float 4%float eq_refl eq_refl eq_refl eq_refl eq_refl)).
    + intros (t & H & Hne); injection H as <-; apply Hne; reflexivity.
    + reflexivity.
    + intros (t & H & _); discriminate H.
  - destruct (proj2 (labelUpdate_presence_vs_truthiness classifyAsApiError
                    acceptNumber (Returned sampleLabelsClient) jwtAuth
                    sampleLabelsClient
                    (labelArgsOf LabelUpdate (Some 4%float) None None (Some "") None)
                    [] 4%float 4%float eq_refl eq_refl eq_refl eq_refl eq_refl)
                "" eq_refl) as (result & updates & Hrun & Hd & _).
    exists result, updates; split; [exact Hrun | exact Hd].
Defined.

(** Witness of [labelCreate_payload]: an empty description is left out. *)
Lemma labelCreate_payload_witness :
  exists result labelData,
    labelsTool classifyAsApiError acceptNumber (Returned sampleLabelsClient) jwtAuth
               (labelArgsOf LabelCreate None None (Some "urgent") (Some "") None) []
    = (result, [CallLabelsClient; CallCreateLabel labelData])
    /\ data_title labelData = Some "urgent"
    /\ data_description labelData <> Some "".
Proof.
  destruct (proj2 (labelCreate_payload classifyAsApiError acceptNumber
                     (Returned sampleLabelsClient) jwtAuth sampleLabelsClient
                     (labelArgsOf LabelCreate None None (Some "urgent") (Some "") None)
                     [] eq_refl eq_refl eq_refl))
    as (result & labelData & Hrun & Ht & Hd & _).
  - exists "urgent"; split; [reflexivity | discriminate].
  - exists result, labelData; split; [exact Hrun | split; [exact Ht | exact Hd]].
Defined.

(** Witness of [labels_require_id]: [delete] without an identifier. *)
Lemma labels_require_id_witness :
  labelsTool classifyAsApiError acceptNumber (Returned sampleLabelsClient) jwtAuth
             (labelArgsOf LabelDelete None None None None None) []
  = (Raised (MCPError VALIDATION_ERROR "Label ID is required"),
     [CallLabelsClient]).
Proof.
  apply (proj1 (labels_require_id classifyAsApiError acceptNumber
                  (Returned sampleLabelsClient) jwtAuth sampleLabelsClient
                  (labelArgsOf LabelDelete None None None None None) []
                  eq_refl eq_refl (or_intror (or_intror eq_refl)))).
  reflexivity.
Defined.

(** Witness of [labelList_params]: page [0] and the empty search string
    are dropped, [perPage] 50 is sent. *)
Lemma labelList_params_witness :
  let args := {| labelSubcommand := LabelList; labelId := None;
                 labelPage := Some 0%float; labelPerPage := Some 50%float;
                 labelSearch := Some ""; labelTitle := None;
                 labelDescription := None; labelHexColor := None |} in
  exists result params,
    labelsTool classifyAsApiError acceptNumber (Returned sampleLabelsClient) jwtAuth
               args []
    = (result, [CallLabelsClient; CallGetLabels params])
    /\ list_page params = None
    /\ list_per_page params = Some 50%float
    /\ list_s params = None.
Proof.
  intros args.
  destruct (labelList_params classifyAsApiError acceptNumber
              (Returned sampleLabelsClient) jwtAuth sampleLabelsClient
              args [] eq_refl eq_refl eq_refl)
    as (result & params & Hrun & _ & _ & _ & _ & _ & Hpage & Hper & Hs).
  exists result, params; split; [exact Hrun | split; [| split]].
  - destruct (list_page params) as [n |] eqn:E; [| reflexivity].
    destruct (proj1 (Hpage n) eq_refl) as [Hn Ht].
    injection Hn as <-; discriminate Ht.
  - apply Hper; split; reflexivity.
  - destruct (list_s params) as [s |] eqn:E; [| reflexivity].
    destruct (proj1 (Hs s) eq_refl) as [Hn Ht].
    injection Hn as <-; contradiction Ht; reflexivity.
Defined.

(** Witness of [teams_not_implemented]: [get] of team 5. *)
Lemma teams_not_implemented_witness :
  exists text : string,
    fst (teamsTool everyNumberNaN classifyAsApiError acceptNumber fetchTeamOk
                   statusAsApiError (Returned sampleTeamsClient) jwtAuth
                   (teamArgsOf TeamGet (Some (IdNumber 5)) None None None) [])
    = Raised (MCPError NOT_IMPLEMENTED text).
Proof.
  apply (proj2 (proj2 (teams_not_implemented everyNumberNaN classifyAsApiError
                  acceptNumber fetchTeamOk statusAsApiError
                  (Returned sampleTeamsClient) jwtAuth
                  (teamArgsOf TeamGet (Some (IdNumber 5)) None None None) []
                  (or_introl eq_refl)))
           sampleTeamsClient (IdNumber 5) 5%float eq_refl eq_refl eq_refl eq_refl).
  intros H; discriminate H.
Defined.

(** Witness of [teamCreate_payload]: an empty description is sent. *)
Lemma teamCreate_payload_witness :
  exists result,
    teamsTool everyNumberNaN classifyAsApiError acceptNumber fetchTeamOk
              statusAsApiError (Returned sampleTeamsClient) jwtAuth
              (teamArgsOf TeamCreate None None (Some "core") (Some "")) []
    = (result,
       [ CallTeamsClient;
         CallCreateTeam {| teamData_name := Some "core";
                           teamData_description := Some "" |} ]).
Proof.
  destruct (proj2 (teamCreate_payload everyNumberNaN classifyAsApiError
                     acceptNumber fetchTeamOk statusAsApiError
                     (Returned sampleTeamsClient) jwtAuth sampleTeamsClient
                     (teamArgsOf TeamCreate None None (Some "core") (Some "")) []
                     eq_refl eq_refl eq_refl))
    as (result & Hrun & _).
  - exists "core"; split; [reflexivity | discriminate].
  - exists result; exact Hrun.
Defined.

(** Witness of [teamDelete_paths]: the client has no [deleteTeam], and
    team 5 is deleted by a direct request. *)
Lemma teamDelete_paths_witness :
  snd (teamsTool everyNumberNaN classifyAsApiError acceptNumber fetchTeamOk
                 statusAsApiError (Returned sampleTeamsClient) jwtAuth
                 (teamArgsOf TeamDelete (Some (IdNumber 5)) None None None) [])
  = [ CallTeamsClient;
      CallFetchTeam (deleteTeamRequest everyNumberNaN sampleSession 5) ].
Proof.
  apply (proj2 (proj2 (teamDelete_paths everyNumberNaN classifyAsApiError
                  acceptNumber fetchTeamOk statusAsApiError
                  (Returned sampleTeamsClient) jwtAuth sampleTeamsClient
                  (teamArgsOf TeamDelete (Some (IdNumber 5)) None None None) []
                  eq_refl eq_refl eq_refl)
                (IdNumber 5) 5%float eq_refl eq_refl) eq_refl sampleSession eq_refl).
Defined.

(** Witness of [empty_search_divergence]. *)
Lemma empty_search_divergence_witness :
  (exists params,
      snd (labelsTool classifyAsApiError acceptNumber (Returned sampleLabelsClient)
                      jwtAuth
                      (labelArgsOf LabelList None (Some "") None None None) [])
      = [CallLabelsClient; CallGetLabels params]
      /\ list_s params = None)
  /\ (exists params,
         snd (teamsTool everyNumberNaN classifyAsApiError acceptNumber fetchTeamOk
                        statusAsApiError (Returned sampleTeamsClient) jwtAuth
                        (teamArgsOf TeamList None (Some "") None None) [])
         = [CallTeamsClient; CallGetTeams params]
         /\ teams_s params = Some "")
  /\ (exists params,
         snd (usersTool everyStringNaN everyNumberNaN rethrowAsAuthRequired
                        (Returned sampleClient) jwtAuth searchArgs [])
         = [CallGetClientFromContext; CallGetUsers params]
         /\ params_s params = Some "").
Proof.
  apply (empty_search_divergence everyStringNaN everyNumberNaN
           rethrowAsAuthRequired classifyAsApiError (Returned sampleClient)
           acceptNumber (Returned sampleLabelsClient) fetchTeamOk statusAsApiError
           (Returned sampleTeamsClient) jwtAuth sampleLabelsClient
           sampleTeamsClient sampleClient);
    reflexivity.
Defined.

(** Witness of [refreshed_entry_is_served]: the default list written at
    time 1000 is served at time 300999 by a cache that would otherwise be
    refreshed with another list. *)
Lemma refreshed_entry_is_served_witness :
  getValidEvents (fetchResponds 200 "OK" (Returned ["task.created"])) apiTokenAuth
                 300999 (defaultCache 1000)
  = (Returned defaultWebhookEvents, defaultCache 1000).
Proof.
  apply (proj1 (refreshed_entry_is_served fetchRejects
                  (fetchResponds 200 "OK" (Returned ["task.created"]))
                  jwtAuth apiTokenAuth 1000 300999 emptyCache (defaultCache 1000)
                  defaultWebhookEvents eq_refl eq_refl (or_introl eq_refl))).
  reflexivity.
Defined.

(** Witness of [stale_fallback_recovers]: the fetch fails at time 1000
    and succeeds at time 2000. *)
Lemma stale_fallback_recovers_witness :
  getValidEvents (fetchResponds 200 "OK" (Returned ["task.updated"])) jwtAuth 2000
    (snd (getValidEvents fetchRejects jwtAuth 1000 (expiredCache ["task.created"])))
  = (Returned ["task.updated"],
     {| cachedEvents := Some ["task.updated"]; cacheExpiry := Some 302000%Z |}).
Proof.
  apply (proj2 (stale_fallback_recovers fetchRejects
                  (fetchResponds 200 "OK" (Returned ["task.updated"]))
                  jwtAuth jwtAuth 1000 2000 (expiredCache ["task.created"])
                  ["task.created"] ["task.updated"] eq_refl eq_refl
                  (FetchThrows fetchRejects jwtAuth sampleSession
                     (ThrownError "fetch failed") eq_refl eq_refl)
                  ltac:(lia)
                  (FetchSucceeds (fetchResponds 200 "OK" (Returned ["task.updated"]))
                     jwtAuth ["task.updated"] sampleSession
                     (mkResponse 200 "OK" (Returned ["task.updated"]))
                     eq_refl eq_refl eq_refl eq_refl))).
Defined.

(** Witness of [clear_then_getValidEvents]: a fresh entry is cleared and
    [fetch] rejects. *)
Lemma clear_then_getValidEvents_witness :
  (clearWebhookEventCache ;;; getValidEvents fetchRejects jwtAuth 1000)
    {| cachedEvents := Some ["task.created"]; cacheExpiry := Some 301000%Z |}
  = (Returned defaultWebhookEvents, defaultCache 1000).
Proof.
  apply (proj2 (clear_then_getValidEvents fetchRejects jwtAuth 1000
                  {| cachedEvents := Some ["task.created"];
                     cacheExpiry := Some 301000%Z |})).
  left; apply (FetchThrows fetchRejects jwtAuth sampleSession
                 (ThrownError "fetch failed")); reflexivity.
Defined.

(** Witness of [usersTool_calls]: [settings] reads the user and writes
    nothing. *)
Lemma usersTool_calls_witness :
  exists added : list ClientCall,
    snd (usersTool everyStringNaN everyNumberNaN rethrowAsAuthRequired
                   (Returned sampleClient) jwtAuth settingsArgs [])
    = added
    /\ (length added <= 3)%nat
    /\ forall settings, ~ In (CallUpdateGeneralSettings settings) added.
Proof.
  destruct (usersTool_calls everyStringNaN everyNumberNaN rethrowAsAuthRequired
              (Returned sampleClient) jwtAuth settingsArgs [])
    as (added & Hrun & Hlen & Hupd).
  exists added; split; [exact Hrun | split; [exact Hlen |]].
  intros settings Hin; destruct (Hupd settings Hin) as [Hsub _]; discriminate Hsub.
Defined.

(** Witness of [webhooksTool_requests]: [delete] sends one [DELETE]. *)
Lemma webhooksTool_requests_witness :
  exists added : list Request,
    snd (snd (webhooksTool everyNumberNaN fetchRejects (Returned sampleClient)
                           acceptNumber fetchWebhookOk jwtAuth 1000
                           (webhookArgsOf WebhookDelete None None None)
                           emptyStore))
    = added
    /\ (length added <= 1)%nat
    /\ forall r, In r added -> method r = "DELETE".
Proof.
  destruct (webhooksTool_requests everyNumberNaN fetchRejects
              (Returned sampleClient) acceptNumber fetchWebhookOk jwtAuth 1000
              (webhookArgsOf WebhookDelete None None None) emptyStore)
    as (added & Hrun & Hlen & Hm).
  exists added; split; [exact Hrun | split; [exact Hlen |]].
  intros r Hin; specialize (Hm r Hin); injection Hm as Hm; symmetry; exact Hm.
Defined.

(** Witness of [labelsTool_calls]: [get] reads one label. *)
Lemma labelsTool_calls_witness :
  exists added : list LabelCall,
    snd (labelsTool classifyAsApiError acceptNumber (Returned sampleLabelsClient)
                    jwtAuth
                    (labelArgsOf LabelGet (Some 4%float) None None None None) [])
    = added
    /\ (length added <= 2)%nat
    /\ forall c, In c added -> labelCallOf LabelGet c = true.
Proof.
  destruct (labelsTool_calls classifyAsApiError acceptNumber
              (Returned sampleLabelsClient) jwtAuth
              (labelArgsOf LabelGet (Some 4%float) None None None None) [])
    as (added & Hrun & Hlen & Hc).
  exists added; split; [exact Hrun | split; [exact Hlen | exact Hc]].
Defined.
